(** * Library API: a shallow embedding of the services and endpoints

    The development follows the Python sources file by file:
    - [schemas.py]: the genre table, [CURRENT_YEAR], the request models
      [BookCreate] and [BookUpdate] with their validators;
    - [db.py]: the session manager (commit on success, rollback on error);
    - [services.py]: the auth helpers and the user, author and book services;
    - [main.py]: the endpoints and the dependencies each one declares.

    Text is modelled as Rocq [string] (a sequence of bytes); Python's
    [str.lower], [str.strip] and [str.isdigit] are modelled on their ASCII
    range, where the byte-wise and the Unicode-aware functions agree. *)

From Stdlib Require Import String Ascii ZArith NArith List Bool Lia.
From Stdlib Require Import DecimalString PrimFloat Sorted.
Import ListNotations.

Set Warnings "-register-all".

Local Open Scope string_scope.
Local Open Scope Z_scope.

(** ** Python strings *)

Module PyStr.

(** [c.isspace()] on the ASCII range: TAB..CR, FS..US and the space. *)
Definition isspace (c : ascii) : bool :=
  let n := N_of_ascii c in
  ((9 <=? n) && (n <=? 13) || (28 <=? n) && (n <=? 32))%N.

Definition isupper (c : ascii) : bool :=
  let n := N_of_ascii c in ((65 <=? n) && (n <=? 90))%N.

Definition lower_char (c : ascii) : ascii :=
  if isupper c then ascii_of_N (N_of_ascii c + 32) else c.

(** [s.lower()] *)
Fixpoint lower (s : string) : string :=
  match s with
  | EmptyString => EmptyString
  | String c r => String (lower_char c) (lower r)
  end.

Fixpoint lstrip (s : string) : string :=
  match s with
  | EmptyString => EmptyString
  | String c r => if isspace c then lstrip r else s
  end.

Fixpoint rstrip (s : string) : string :=
  match s with
  | EmptyString => EmptyString
  | String c r =>
      match rstrip r with
      | EmptyString => if isspace c then EmptyString else String c EmptyString
      | r' => String c r'
      end
  end.

(** [s.strip()] *)
Definition strip (s : string) : string := rstrip (lstrip s).

Definition is_digit_char (c : ascii) : bool :=
  let n := N_of_ascii c in ((48 <=? n) && (n <=? 57))%N.

Fixpoint all_digits (s : string) : bool :=
  match s with
  | EmptyString => true
  | String c r => is_digit_char c && all_digits r
  end.

(** [s.isdigit()]: at least one character, and every one a digit. *)
Definition isdigit (s : string) : bool :=
  match s with
  | EmptyString => false
  | _ => all_digits s
  end.

Fixpoint int_acc (acc : Z) (s : string) : Z :=
  match s with
  | EmptyString => acc
  | String c r => int_acc (10 * acc + (Z.of_N (N_of_ascii c) - 48)) r
  end.

(** [int(s)] for a string of digits. *)
Definition int (s : string) : Z := int_acc 0 s.

(** [str(n)] for an integer. *)
Definition of_int (z : Z) : string := NilZero.string_of_int (Z.to_int z).

(** [s.endswith(suffix)]: one of the tails of [s] is [suffix]. *)
Fixpoint endswith (s suffix : string) : bool :=
  String.eqb s suffix
  || match s with
     | EmptyString => false
     | String _ r => endswith r suffix
     end.

(** [sep.join(l)] *)
Fixpoint join (sep : string) (l : list string) : string :=
  match l with
  | [] => ""
  | [x] => x
  | x :: r => x ++ sep ++ join sep r
  end.

Fixpoint insert_sorted (x : string) (l : list string) : list string :=
  match l with
  | [] => [x]
  | y :: r => if String.leb x y then x :: l else y :: insert_sorted x r
  end.

(** [sorted(l)] for a list of strings. *)
Definition sorted (l : list string) : list string :=
  fold_right insert_sorted [] l.

(** [x in l] for a list of strings. *)
Definition mem (x : string) (l : list string) : bool :=
  existsb (String.eqb x) l.

(** [l.index(x)] for an [x] that is in [l] (the number of elements before
    its first occurrence). *)
Fixpoint index (x : string) (l : list string) : nat :=
  match l with
  | [] => O
  | y :: r => if String.eqb y x then O else S (index x r)
  end.

End PyStr.

(** ** Python values
    What [json.loads] and [csv.DictReader] produce, and what a JWT payload
    holds. A dict is an association list read from its head. *)

Inductive pyval : Type :=
| PyNone
| PyBool (b : bool)
| PyInt (z : Z)
| PyFloat (f : PrimFloat.float)
| PyStr (s : string)
| PyList (l : list pyval)
| PyDict (d : list (string * pyval)).

Definition pydict : Type := list (string * pyval).

(** [d.get(k)] on a dict: [None] when the key is absent. *)
Fixpoint dict_get (k : string) (d : pydict) : pyval :=
  match d with
  | [] => PyNone
  | (k', v) :: r => if String.eqb k' k then v else dict_get k r
  end.

Definition dict_has (k : string) (d : pydict) : bool :=
  existsb (fun kv => String.eqb (fst kv) k) d.

Arguments dict_get k d : simpl nomatch.
Arguments dict_has k d : simpl nomatch.

(** [type(v).__name__] *)
Definition type_name (v : pyval) : string :=
  match v with
  | PyNone => "NoneType"
  | PyBool _ => "bool"
  | PyInt _ => "int"
  | PyFloat _ => "float"
  | PyStr _ => "str"
  | PyList _ => "list"
  | PyDict _ => "dict"
  end.

(** [bool(v)] *)
Definition truthy (v : pyval) : bool :=
  match v with
  | PyNone => false
  | PyBool b => b
  | PyInt z => negb (z =? 0)
  | PyFloat f => negb (PrimFloat.eqb f PrimFloat.zero)
  | PyStr s => negb (String.eqb s "")
  | PyList l => match l with [] => false | _ => true end
  | PyDict d => match d with [] => false | _ => true end
  end.

(** [a or b] *)
Definition py_or (a b : pyval) : pyval := if truthy a then a else b.

(** ** Exceptions *)

Inductive exn : Type :=
| HTTPException (status_code : Z) (detail : string)
| RequestValidationError (errors : list string)
| ValueError (msg : string)
| AttributeError (msg : string)
| JSONDecodeError (msg : string)
| CsvError (msg : string)
| JWTError (msg : string)
| ExpiredSignatureError (msg : string)
| JWTClaimsError (msg : string)
| DBAPIError (msg : string).

(** [str(e)]. Starlette prints an [HTTPException] as its status code and its
    detail; the others print their message. *)
Definition str_exn (e : exn) : string :=
  match e with
  | HTTPException c d => PyStr.of_int c ++ ": " ++ d
  | RequestValidationError errs => PyStr.join "; " errs
  | ValueError m | AttributeError m | JSONDecodeError m | CsvError m
  | JWTError m | ExpiredSignatureError m | JWTClaimsError m | DBAPIError m => m
  end.

(** [isinstance(e, JWTError)]: the expiry and claims errors are subclasses. *)
Definition is_JWTError (e : exn) : bool :=
  match e with
  | JWTError _ | ExpiredSignatureError _ | JWTClaimsError _ => true
  | _ => false
  end.

Definition is_HTTPException (e : exn) : bool :=
  match e with HTTPException _ _ => true | _ => false end.

Definition is_JSONDecodeError (e : exn) : bool :=
  match e with JSONDecodeError _ => true | _ => false end.

Inductive outcome (A : Type) : Type :=
| Return (a : A)
| Raise (e : exn).
Arguments Return {A} a.
Arguments Raise {A} e.

(** ** schemas.py *)

Definition book_genres : list string :=
  ["Fiction"; "Non-fiction"; "Science"; "History"].

Definition book_genres_lower : list string := map PyStr.lower book_genres.

Definition CURRENT_YEAR : Z := 2025.

Definition year_message : string :=
  "Enter a valid published year(between 1800 and Current year)".

Definition genre_message : string :=
  "Enter appropriate genre: " ++ PyStr.join ", " book_genres.

(** The messages of a model's failed validators, or the validated model. *)
Definition collect {A : Type} (errors : list string) (a : A) : outcome A :=
  match errors with
  | [] => Return a
  | _ => Raise (RequestValidationError errors)
  end.

Definition errors_of {A : Type} (o : outcome A) : list string :=
  match o with
  | Return _ => []
  | Raise e => [str_exn e]
  end.

Module BookCreate.

Record t : Type := mk
  { title : string; published_year : Z; author : string; genre : string }.

Definition genre_valid (genre : string) : outcome string :=
  if negb (PyStr.mem (PyStr.lower genre) book_genres_lower) then
    Raise (ValueError genre_message)
  else
    let idx := PyStr.index (PyStr.lower genre) book_genres_lower in
    Return (nth idx book_genres "").

Definition published_year_valid (published_year : Z) : outcome Z :=
  if (published_year <? 1800) || (published_year >? CURRENT_YEAR) then
    Raise (ValueError year_message)
  else Return published_year.

(** Building the model from the request body: every field validator runs,
    a validated value replaces the field, and one failure refuses the body. *)
Definition validate (body : t) : outcome t :=
  let y := published_year_valid (published_year body) in
  let g := genre_valid (genre body) in
  match y, g with
  | Return y', Return g' => Return (mk (title body) y' (author body) g')
  | _, _ => Raise (RequestValidationError (errors_of y ++ errors_of g))
  end.

End BookCreate.

Module BookUpdate.

Record t : Type := mk
  { title : option string; author : option string;
    published_year : option Z; genre : option string }.

Definition min_length_message : string :=
  "ensure this value has at least 1 characters".

(** [Field(None, min_length=1)] *)
Definition min_length_1 (v : option string) : outcome (option string) :=
  match v with
  | Some EmptyString => Raise (ValueError min_length_message)
  | _ => Return v
  end.

Definition published_year_valid (published_year : Z) : outcome Z :=
  if (published_year <? 1800) || (published_year >? CURRENT_YEAR) then
    Raise (ValueError year_message)
  else Return published_year.

Definition genre_valid (genre : string) : outcome string :=
  if negb (PyStr.mem (PyStr.lower genre) book_genres_lower) then
    Raise (ValueError genre_message)
  else
    let idx := PyStr.index (PyStr.lower genre) book_genres_lower in
    Return (nth idx book_genres "").

(** A validator runs on a field that was supplied; an absent field stays
    [None]. *)
Definition optional {A : Type} (f : A -> outcome A) (v : option A)
  : outcome (option A) :=
  match v with
  | None => Return None
  | Some a => match f a with
              | Return a' => Return (Some a')
              | Raise e => Raise e
              end
  end.

Definition validate (body : t) : outcome t :=
  let ti := min_length_1 (title body) in
  let au := min_length_1 (author body) in
  let y := optional published_year_valid (published_year body) in
  let g := optional genre_valid (genre body) in
  match ti, au, y, g with
  | Return ti', Return au', Return y', Return g' => Return (mk ti' au' y' g')
  | _, _, _, _ =>
      Raise (RequestValidationError
               (errors_of ti ++ errors_of au ++ errors_of y ++ errors_of g))
  end.

End BookUpdate.

Module BookOut.

Record t : Type := mk
  { id : Z; title : string; author : string; published_year : Z;
    genre : string; created_at : Z }.

End BookOut.

Module BulkImportResult.

Record t : Type := mk { inserted : Z; errors : list (Z * string) }.

End BulkImportResult.

Module UserSignin.
Record t : Type := mk { email : string; password : string }.
End UserSignin.

Module UserSignup.
Record t : Type := mk { email : string; username : string; password : string }.
End UserSignup.

(** ** Bearer tokens
    A token is either text that is no signed JWT, or a JWT: the algorithm of
    its header, its claims and its signature. *)

Record jws : Type := mkJws
  { jws_alg : string; jws_claims : pydict; jws_signature : string }.

Inductive token : Type :=
| Opaque (text : string)
| Signed (j : jws).

(** ** The store: tables [users], [authors] and [books] *)

Record user_row : Type := mkUser
  { u_id : Z; u_email : string; u_username : string;
    u_hashed_password : string; u_refresh_token : option token }.

Record author_row : Type := mkAuthor { a_id : Z; a_full_name : string }.

Record book_row : Type := mkBook
  { b_id : Z; b_title : string; b_author_id : Z; b_published_year : Z;
    b_genre : option string; b_created_at : Z }.

Record tables : Type := mkTables
  { users : list user_row; authors : list author_row; books : list book_row }.

(** The identifier the store assigns to a new row. The model takes one
    past the largest; a store that draws identifiers from a sequence also
    hands out one that no row of the table has, though after a [DELETE]
    not always this one. *)
Definition next_id (ids : list Z) : Z := 1 + fold_right Z.max 0 ids.

(** A session holds the store as last committed and as this session sees it;
    the clock is the time of the request. *)
Record world : Type := mkWorld
  { committed : tables; pending : tables; clock : Z }.

Definition M (A : Type) : Type := world -> outcome A * world.

Definition ret {A : Type} (a : A) : M A := fun w => (Return a, w).

Definition raise {A : Type} (e : exn) : M A := fun w => (Raise e, w).

Definition bind {A B : Type} (c : M A) (k : A -> M B) : M B :=
  fun w => match c w with
           | (Return a, w') => k a w'
           | (Raise e, w') => (Raise e, w')
           end.

Declare Scope py_scope.
Delimit Scope py_scope with py.
Notation "x <- c ;; k" := (bind c (fun x => k))
  (at level 61, c at next level, right associativity) : py_scope.
Notation "c ;;; k" := (bind c (fun _ => k))
  (at level 61, right associativity) : py_scope.
Local Open Scope py_scope.

(** [try: c except Exception as e: h e], the handler taking the exceptions
    that [catches] selects. *)
Definition try_except {A : Type} (c : M A) (catches : exn -> bool)
    (h : exn -> M A) : M A :=
  fun w => match c w with
           | (Raise e, w') => if catches e then h e w' else (Raise e, w')
           | r => r
           end.

Definition lift {A : Type} (o : outcome A) : M A := fun w => (o, w).

(** [datetime.utcnow()] *)
Definition utcnow : M Z := fun w => (Return (clock w), w).

(** A statement that reads the session's view of the store. *)
Definition query {A : Type} (f : tables -> A) : M A :=
  fun w => (Return (f (pending w)), w).

(** A statement that writes to the session's view of the store. *)
Definition execute (f : tables -> tables) : M unit :=
  fun w => (Return tt, mkWorld (committed w) (f (pending w)) (clock w)).

(** [session.commit()] *)
Definition commit : M unit :=
  fun w => (Return tt, mkWorld (pending w) (pending w) (clock w)).

(** [session.rollback()] *)
Definition rollback : M unit :=
  fun w => (Return tt, mkWorld (committed w) (committed w) (clock w)).

(** ** Rows, dicts and joins *)

Fixpoint dict_set (k : string) (v : pyval) (d : pydict) : pydict :=
  match d with
  | [] => [(k, v)]
  | (k', v') :: r =>
      if String.eqb k' k then (k, v) :: r else (k', v') :: dict_set k v r
  end.

(** [d.update(other)] *)
Definition dict_update (d other : pydict) : pydict :=
  fold_left (fun acc kv => dict_set (fst kv) (snd kv) acc) other d.

(** [enumerate(l, start=n)] *)
Fixpoint enumerate (n : Z) {A : Type} (l : list A) : list (Z * A) :=
  match l with
  | [] => []
  | x :: r => (n, x) :: enumerate (n + 1) r
  end.

(** [result.mappings().first()] and [result.scalar()] read the first row. *)
Definition first {A : Type} (rows : list A) : option A := hd_error rows.

(** Truth of a scalar identifier: [None] and [0] are false. *)
Definition id_truthy (v : option Z) : bool :=
  match v with
  | None => false
  | Some z => negb (z =? 0)
  end.

Definition max_opt (ids : list Z) : option Z :=
  match ids with
  | [] => None
  | x :: r => Some (fold_right Z.max x r)
  end.

(** [books b JOIN authors a ON a.id = b.author_id] *)
Definition joined (t : tables) : list (book_row * author_row) :=
  flat_map
    (fun b => map (pair b)
                (filter (fun a => a_id a =? b_author_id b) (authors t)))
    (books t).

(** Building a [BookOut] from a row of the join: every field is required,
    and [genre] is a string. *)
Definition BookOut_of (r : book_row * author_row) : outcome BookOut.t :=
  let (b, a) := r in
  match b_genre b with
  | Some g =>
      Return (BookOut.mk (b_id b) (b_title b) (a_full_name a)
                (b_published_year b) g (b_created_at b))
  | None => Raise (ValueError "genre: none is not an allowed value")
  end.

Fixpoint BookOut_all (rows : list (book_row * author_row))
  : outcome (list BookOut.t) :=
  match rows with
  | [] => Return []
  | r :: rest =>
      match BookOut_of r, BookOut_all rest with
      | Return b, Return bs => Return (b :: bs)
      | Raise e, _ => Raise e
      | _, Raise e => Raise e
      end
  end.

(** A stable insertion sort, for [ORDER BY]. *)
Fixpoint insert_by {A : Type} (le : A -> A -> bool) (x : A) (l : list A)
  : list A :=
  match l with
  | [] => [x]
  | y :: r => if le x y then x :: l else y :: insert_by le x r
  end.

Definition sort_by {A : Type} (le : A -> A -> bool) (l : list A) : list A :=
  fold_right (insert_by le) [] l.

(** What a service or an endpoint passes where the signature says [str]:
    Python checks no annotation, so the caller decides. *)
Inductive pyobj : Type :=
| Str (s : string)
| RowMapping (u : user_row).

(** The value of [authenticate_user]: [False], or the user's row. *)
Inductive user_or_false : Type :=
| PyFalse
| PyUser (u : user_row).

Record UploadFile : Type := mkUpload { filename : string; content : string }.

Record list_params : Type := mkListParams
  { page : Z; page_size : Z;
    f_title : option string; f_author : option string;
    f_genre : option string; year_from : option Z; year_to : option Z;
    sort_by_ : string; sort_order : string }.

Definition str_truthy (v : option string) : bool :=
  match v with
  | Some s => negb (String.eqb s "")
  | None => false
  end.

Definition int_truthy (v : option Z) : bool :=
  match v with
  | Some z => negb (z =? 0)
  | None => false
  end.

(** ** Readers
    A reader of JSON text and a reader of CSV text, used where a statement
    is run on the text of an upload. The JSON reader covers null, the
    booleans, integers, strings with the one-letter escapes, arrays and
    objects; fractional numbers and unicode escapes are outside it. The CSV
    reader covers unquoted fields. *)

Module Readers.

Definition dquote : ascii := ascii_of_N 34.
Definition backslash : ascii := ascii_of_N 92.
Definition newline : ascii := ascii_of_N 10.
Definition carriage_return : ascii := ascii_of_N 13.
Definition tab : ascii := ascii_of_N 9.

(** Text with an apostrophe wherever the JSON has a double quote. *)
Fixpoint quoted (s : string) : string :=
  match s with
  | EmptyString => EmptyString
  | String c r =>
      String (if Ascii.eqb c "'"%char then dquote else c) (quoted r)
  end.

Definition is_ws (c : ascii) : bool :=
  Ascii.eqb c " "%char || Ascii.eqb c tab || Ascii.eqb c newline
  || Ascii.eqb c carriage_return.

Fixpoint skip_ws (s : string) : string :=
  match s with
  | String c r => if is_ws c then skip_ws r else s
  | EmptyString => EmptyString
  end.

(** The digits at the head of the text, and the rest. *)
Fixpoint span_digits (s : string) : string * string :=
  match s with
  | String c r =>
      if PyStr.is_digit_char c then
        let (d, rest) := span_digits r in (String c d, rest)
      else (EmptyString, s)
  | EmptyString => (EmptyString, EmptyString)
  end.

Definition starts_fraction (s : string) : bool :=
  match s with
  | String c _ =>
      Ascii.eqb c "."%char || Ascii.eqb c "e"%char || Ascii.eqb c "E"%char
  | EmptyString => false
  end.

(** An integer literal: digits with no leading zero, and no fraction. *)
Definition number (negative : bool) (s : string) : option (pyval * string) :=
  let (d, rest) := span_digits s in
  match d with
  | EmptyString => None
  | String c d' =>
      if Ascii.eqb c "0"%char && negb (String.eqb d' "") then None
      else if starts_fraction rest then None
      else Some (PyInt (if negative then - PyStr.int d else PyStr.int d), rest)
  end.

Definition unescape (c : ascii) : option ascii :=
  if Ascii.eqb c dquote then Some dquote
  else if Ascii.eqb c backslash then Some backslash
  else if Ascii.eqb c "/"%char then Some "/"%char
  else if Ascii.eqb c "b"%char then Some (ascii_of_N 8)
  else if Ascii.eqb c "f"%char then Some (ascii_of_N 12)
  else if Ascii.eqb c "n"%char then Some newline
  else if Ascii.eqb c "r"%char then Some carriage_return
  else if Ascii.eqb c "t"%char then Some tab
  else None.

(** The characters of a string literal after its opening quote. *)
Fixpoint string_body (s : string) : option (string * string) :=
  match s with
  | EmptyString => None
  | String c r =>
      if Ascii.eqb c dquote then Some (EmptyString, r)
      else if Ascii.eqb c backslash then
        match r with
        | String e r' =>
            match unescape e, string_body r' with
            | Some c', Some (body, rest) => Some (String c' body, rest)
            | _, _ => None
            end
        | EmptyString => None
        end
      else if (N_of_ascii c <? 32)%N then None
      else
        match string_body r with
        | Some (body, rest) => Some (String c body, rest)
        | None => None
        end
  end.

Definition literal (word : string) (v : pyval) (s : string)
  : option (pyval * string) :=
  if String.prefix word s
  then Some (v, substring (String.length word)
                  (String.length s - String.length word) s)
  else None.

Fixpoint value (fuel : nat) (s : string) : option (pyval * string) :=
  match fuel with
  | O => None
  | S n =>
      match skip_ws s with
      | EmptyString => None
      | String c r =>
          if Ascii.eqb c "["%char then
            match skip_ws r with
            | String c' r' =>
                if Ascii.eqb c' "]"%char then Some (PyList [], r')
                else elements n r []
            | EmptyString => None
            end
          else if Ascii.eqb c "{"%char then
            match skip_ws r with
            | String c' r' =>
                if Ascii.eqb c' "}"%char then Some (PyDict [], r')
                else members n r []
            | EmptyString => None
            end
          else if Ascii.eqb c dquote then
            match string_body r with
            | Some (body, rest) => Some (PyStr body, rest)
            | None => None
            end
          else if Ascii.eqb c "-"%char then number true r
          else if PyStr.is_digit_char c then number false (String c r)
          else if Ascii.eqb c "n"%char then literal "null" PyNone (String c r)
          else if Ascii.eqb c "t"%char then literal "true" (PyBool true) (String c r)
          else if Ascii.eqb c "f"%char then literal "false" (PyBool false) (String c r)
          else None
      end
  end
with elements (fuel : nat) (s : string) (acc : list pyval)
  : option (pyval * string) :=
  match fuel with
  | O => None
  | S n =>
      match value n s with
      | Some (v, rest) =>
          match skip_ws rest with
          | String c r =>
              if Ascii.eqb c ","%char then elements n r (acc ++ [v])%list
              else if Ascii.eqb c "]"%char then Some (PyList (acc ++ [v])%list, r)
              else None
          | EmptyString => None
          end
      | None => None
      end
  end
with members (fuel : nat) (s : string) (acc : pydict)
  : option (pyval * string) :=
  match fuel with
  | O => None
  | S n =>
      match skip_ws s with
      | String q r =>
          if Ascii.eqb q dquote then
            match string_body r with
            | Some (key, rest) =>
                match skip_ws rest with
                | String colon rest' =>
                    if Ascii.eqb colon ":"%char then
                      match value n rest' with
                      | Some (v, rest'') =>
                          match skip_ws rest'' with
                          | String c r' =>
                              if Ascii.eqb c ","%char
                              then members n r' (dict_set key v acc)
                              else if Ascii.eqb c "}"%char
                              then Some (PyDict (dict_set key v acc), r')
                              else None
                          | EmptyString => None
                          end
                      | None => None
                      end
                    else None
                | EmptyString => None
                end
            | None => None
            end
          else None
      | EmptyString => None
      end
  end.

(** [json.loads(text)]: one value, and nothing but blanks after it. *)
Definition json_loads (text : string) : outcome pyval :=
  match value (S (String.length text)) text with
  | Some (v, rest) =>
      match skip_ws rest with
      | EmptyString => Return v
      | _ => Raise (JSONDecodeError "Extra data")
      end
  | None => Raise (JSONDecodeError "Expecting value")
  end.

(** The text up to the first [sep], and the text after it if there is one. *)
Fixpoint split_at (sep : ascii) (s : string) : string * option string :=
  match s with
  | EmptyString => (EmptyString, None)
  | String c r =>
      if Ascii.eqb c sep then (EmptyString, Some r)
      else let (h, t) := split_at sep r in (String c h, t)
  end.

Fixpoint split (fuel : nat) (sep : ascii) (s : string) : list string :=
  match fuel with
  | O => [s]
  | S n =>
      match split_at sep s with
      | (h, None) => [h]
      | (h, Some t) => h :: split n sep t
      end
  end.

Definition drop_cr (s : string) : string :=
  if PyStr.endswith s (String carriage_return EmptyString)
  then substring 0 (String.length s - 1) s else s.

Definition lines (text : string) : list string :=
  filter (fun l => negb (String.eqb l ""))
    (map drop_cr (split (String.length text) newline text)).

Definition fields (line : string) : list string :=
  split (String.length line) ","%char line.

(** [dict(zip(fieldnames, row))], a missing field read as [None]. *)
Fixpoint zip_row (fieldnames row : list string) (acc : pydict) : pydict :=
  match fieldnames with
  | [] => acc
  | k :: ks =>
      match row with
      | [] => zip_row ks [] (dict_set k PyNone acc)
      | v :: vs => zip_row ks vs (dict_set k (PyStr v) acc)
      end
  end.

(** [csv.DictReader(io.StringIO(text))]: the first line names the fields,
    every later line that is not empty is a row. *)
Definition csv_DictReader (text : string) : outcome (list pyval) :=
  match lines text with
  | [] => Return []
  | header :: rows =>
      Return (map (fun l => PyDict (zip_row (fields header) (fields l) [])) rows)
  end.

End Readers.

(** ** A concrete instance
    Stand-ins for the collaborators that the services take as parameters,
    and a small store, on which the statements below are run. *)

Module Demo.

Definition SECRET_KEY : string := "demo-secret".
Definition ALGORITHM : string := "HS256".

Fixpoint render (claims : pydict) : string :=
  match claims with
  | [] => ""
  | (k, v) :: r =>
      k ++ "="
      ++ match v with
         | PyStr s => s
         | PyInt z => PyStr.of_int z
         | _ => "?"
         end
      ++ ";" ++ render r
  end.

(** A stand-in for the HMAC: the key, the algorithm and the claims. *)
Definition jws_sign (key algorithm : string) (claims : pydict) : string :=
  key ++ "/" ++ algorithm ++ "/" ++ render claims.

Definition pwd_context_hash (password : string) : string := "$2b$" ++ password.

Definition pwd_context_verify (password hashed : string) : bool :=
  String.eqb hashed ("$2b$" ++ password).

(** A store that accepts every book, and one that refuses every book. *)
Definition accept_all (row : book_row) : option string := None.


Fixpoint contains (needle hay : string) : bool :=
  String.prefix needle hay
  || match hay with
     | EmptyString => false
     | String _ r => contains needle r
     end.

(** [ILIKE] for a pattern [%text%] with no further wildcard. *)
Definition ilike (pattern value : string) : bool :=
  contains
    (PyStr.lower (substring 1 (String.length pattern - 2) pattern))
    (PyStr.lower value).

Definition collate_leb (a b : string) : bool := String.leb a b.

(** An address validator: a local part, an at sign and a domain, the
    domain returned in lower case. *)
Definition EmailStr_validate (value : string) : outcome string :=
  match Readers.split_at "@" value with
  | (local_part, Some domain) =>
      if String.eqb local_part EmptyString || String.eqb domain EmptyString then
        Raise (ValueError "value is not a valid email address")
      else Return (local_part ++ "@" ++ PyStr.lower domain)
  | (_, None) => Raise (ValueError "value is not a valid email address")
  end.

Definition claims (scope : string) (iat exp : Z) : pydict :=
  [("sub", PyStr "alice@example.com"); ("iat", PyInt iat); ("exp", PyInt exp);
   ("scope", PyStr scope)].

Definition issue (scope : string) (iat exp : Z) : token :=
  Signed (mkJws ALGORITHM (claims scope iat exp)
            (jws_sign SECRET_KEY ALGORITHM (claims scope iat exp))).

(** The tokens of a sign-in at time 1000. *)
Definition access_token : token := issue "access_token" 1000 1900.
Definition refresh_token : token := issue "refresh_token" 1000 605800.

Definition alice (rt : option token) : user_row :=
  mkUser 1 "alice@example.com" "alice" (pwd_context_hash "wonderland") rt.

Definition store : tables := mkTables [alice None] [] [].

Definition signed_in : tables := mkTables [alice (Some refresh_token)] [] [].

Definition book_by (author : string) : BookCreate.t :=
  BookCreate.mk "Title" 2000 author "Fiction".

(** Alice signed in, and a catalogue of one book. *)
Definition dune : book_row := mkBook 1 "Dune" 1 1965 (Some "Fiction") 1200.

Definition library : tables :=
  mkTables [alice (Some refresh_token)] [mkAuthor 1 "Frank Herbert"] [dune].

End Demo.

(** ** Equality of tokens
    Python compares the text of two tokens. A token of the model is the
    decoded form of its text, so two tokens are compared part by part; the
    claims are compared in their order, as their serialization is. *)

Fixpoint pyval_eqb (a b : pyval) {struct a} : bool :=
  match a, b with
  | PyNone, PyNone => true
  | PyBool x, PyBool y => Bool.eqb x y
  | PyInt x, PyInt y => x =? y
  | PyFloat x, PyFloat y => PrimFloat.Leibniz.eqb x y
  | PyStr x, PyStr y => String.eqb x y
  | PyList x, PyList y =>
      (fix all2 (l1 l2 : list pyval) {struct l1} : bool :=
         match l1, l2 with
         | [], [] => true
         | u :: l1', v :: l2' => pyval_eqb u v && all2 l1' l2'
         | _, _ => false
         end) x y
  | PyDict x, PyDict y =>
      (fix all2 (l1 l2 : list (string * pyval)) {struct l1} : bool :=
         match l1, l2 with
         | [], [] => true
         | (k1, u) :: l1', (k2, v) :: l2' =>
             String.eqb k1 k2 && pyval_eqb u v && all2 l1' l2'
         | _, _ => false
         end) x y
  | _, _ => false
  end.

Definition token_eqb (a b : token) : bool :=
  match a, b with
  | Opaque x, Opaque y => String.eqb x y
  | Signed j, Signed k =>
      String.eqb (jws_alg j) (jws_alg k)
      && pyval_eqb (PyDict (jws_claims j)) (PyDict (jws_claims k))
      && String.eqb (jws_signature j) (jws_signature k)
  | _, _ => false
  end.

(** [stored != presented] for the nullable column: NULL differs from every
    token. *)
Definition differs (stored : option token) (presented : token) : bool :=
  match stored with
  | None => true
  | Some t => negb (token_eqb t presented)
  end.

(** The driver binds a string to a statement parameter; a row mapping is no
    value it can bind, and the statement is refused. *)
Definition bind_param (v : pyobj) : M string :=
  match v with
  | Str s => ret s
  | RowMapping _ =>
      raise (DBAPIError "unsupported type for a statement parameter: RowMapping")
  end.

Section LibraryAPI.

(** [conf.config]: the secret and the algorithm of the token service. *)
Variable SECRET_KEY : string.
Variable ALGORITHM : string.

(** The signature of [jose] over the header's algorithm and the claims. *)
Variable jws_sign : string -> string -> pydict -> string.

(** [passlib]'s bcrypt context. *)
Variable pwd_context_hash : string -> string.
Variable pwd_context_verify : string -> string -> bool.

(** [json.loads] and the rows of [csv.DictReader]. *)
Variable json_loads : string -> outcome pyval.
Variable csv_DictReader : string -> outcome (list pyval).

(** The constraints of table [books], declared in the migration script:
    [None] when the store accepts the row, or the store's error message.
    In the model a refused statement changes nothing and raises. What a
    store does to the rest of the transaction after a refusal (PostgreSQL
    fails every later statement until the rollback) is not modelled: the
    statements about a session that goes on after an [INSERT] of a book
    assume that the store refuses none. *)
Variable books_check : book_row -> option string.

(** The store's [ILIKE] (pattern first) and the collation of [ORDER BY]. *)
Variable ilike : string -> string -> bool.
Variable collate_leb : string -> string -> bool.

(** [pydantic.EmailStr]: the address as the validator returns it, which may
    differ from the text sent (the domain is normalised), or the
    validator's error. *)
Variable EmailStr_validate : string -> outcome string.

(** *** jose *)

(** [jwt.encode(claims, key, algorithm)] *)
Definition jwt_encode (claims : pydict) (key algorithm : string) : token :=
  Signed (mkJws algorithm claims (jws_sign key algorithm claims)).

Definition validate_exp (claims : pydict) : M unit :=
  if dict_has "exp" claims then
    match dict_get "exp" claims with
    | PyInt exp =>
        now <- utcnow ;;
        if exp <? now then raise (ExpiredSignatureError "Signature has expired.")
        else ret tt
    | _ => raise (JWTClaimsError "Expiration Time claim (exp) must be an integer.")
    end
  else ret tt.

Definition validate_sub (claims : pydict) : M unit :=
  if dict_has "sub" claims then
    match dict_get "sub" claims with
    | PyStr _ => ret tt
    | _ => raise (JWTClaimsError "Subject must be a string.")
    end
  else ret tt.

(** [jwt.decode(token, key, algorithms)]: the header's algorithm is one of
    [algorithms], the signature is the key's over the claims, the expiry is
    not before the current time, and the subject is a string. The tokens of
    this service carry the claims sub, iat, exp and scope; the checks of
    jose on claims they never carry (nbf, aud, iss, jti, at_hash) are left
    out, so of the validly signed tokens the model accepts all that jose
    accepts. *)
Definition jwt_decode (tok : token) (key : string) (algorithms : list string)
  : M pydict :=
  match tok with
  | Opaque _ => raise (JWTError "Not enough segments")
  | Signed j =>
      if negb (PyStr.mem (jws_alg j) algorithms) then
        raise (JWTError "The specified alg value is not allowed")
      else if negb (String.eqb (jws_signature j)
                      (jws_sign key (jws_alg j) (jws_claims j))) then
        raise (JWTError "Signature verification failed.")
      else
        validate_exp (jws_claims j) ;;;
        validate_sub (jws_claims j) ;;;
        ret (jws_claims j)
  end.

(** *** services.py: auth helpers *)

Definition get_password_hash (password : string) : string :=
  pwd_context_hash password.

Definition verify_password (plain_password hashed_password : string) : bool :=
  pwd_context_verify plain_password hashed_password.

(** [timedelta(seconds=expires_delta) if expires_delta else default], in
    seconds. *)
Definition delta_or (expires_delta : option Z) (default : Z) : Z :=
  if int_truthy expires_delta then
    match expires_delta with Some d => d | None => default end
  else default.

Definition create_access_token (data : pydict) (expires_delta : option Z)
  : M token :=
  let to_encode := data in
  now <- utcnow ;;
  let expire := now + delta_or expires_delta (15 * 60) in
  iat <- utcnow ;;
  let to_encode :=
    dict_update to_encode
      [("iat", PyInt iat); ("exp", PyInt expire); ("scope", PyStr "access_token")] in
  ret (jwt_encode to_encode SECRET_KEY ALGORITHM).

Definition create_refresh_token (data : pydict) (expires_delta : option Z)
  : M token :=
  let to_encode := data in
  now <- utcnow ;;
  let expire := now + delta_or expires_delta (7 * 24 * 60 * 60) in
  iat <- utcnow ;;
  let to_encode :=
    dict_update to_encode
      [("iat", PyInt iat); ("exp", PyInt expire); ("scope", PyStr "refresh_token")] in
  ret (jwt_encode to_encode SECRET_KEY ALGORITHM).

(** [SELECT * FROM users WHERE email = :email] *)
Definition select_users_by_email (email : string) (t : tables)
  : list user_row :=
  filter (fun u => String.eqb (u_email u) email) (users t).

Definition authenticate_user (email password : string) : M user_or_false :=
  result <- query (select_users_by_email email) ;;
  let user := first result in
  match user with
  | None => ret PyFalse
  | Some u =>
      if negb (pwd_context_verify password (u_hashed_password u)) then
        ret PyFalse
      else ret (PyUser u)
  end.

Definition credentials_exception : exn :=
  HTTPException 401 "Could not validate credentials".

(** The subject of a decoded payload is a string or is absent; the last
    branch stands for a parameter the driver could not bind and is never
    taken (lemma [get_current_user_resolve]). *)
Definition get_current_user (tok : token) : M user_row :=
  try_except
    (payload <- jwt_decode tok SECRET_KEY [ALGORITHM] ;;
     match dict_get "sub" payload with
     | PyNone => raise credentials_exception
     | PyStr email =>
         result <- query (select_users_by_email email) ;;
         match first result with
         | None => raise credentials_exception
         | Some user_row => ret user_row
         end
     | _ => raise (DBAPIError "unsupported type for a statement parameter")
     end)
    is_JWTError
    (fun _ => raise credentials_exception).

(** *** services.py: user services *)

(** [INSERT INTO users (email, username, hashed_password) ... RETURNING id] *)
Definition insert_user (email username hashed_password : string) : M Z :=
  new_id <- query (fun t => next_id (map u_id (users t))) ;;
  execute (fun t =>
    mkTables
      (users t ++ [mkUser new_id email username hashed_password None])
      (authors t) (books t)) ;;;
  ret new_id.

Definition signup (user : UserSignup.t) : M (Z * string * string) :=
  result <- query (select_users_by_email (UserSignup.email user)) ;;
  if id_truthy (option_map u_id (first result)) then
    raise (HTTPException 400 "Email already registered")
  else
    count <- query (fun t => Z.of_nat (length (users t))) ;;
    let hashed_password := get_password_hash (UserSignup.password user) in
    new_user_id <-
      insert_user (UserSignup.email user) (UserSignup.username user)
        hashed_password ;;
    commit ;;;
    ret (new_user_id, UserSignup.email user, UserSignup.username user).

(** [UPDATE users SET refresh_token = :rt WHERE id = :id] *)
Definition update_refresh_token (rt : option token) (id : Z) (t : tables)
  : tables :=
  mkTables
    (map (fun u =>
            if u_id u =? id then
              mkUser (u_id u) (u_email u) (u_username u) (u_hashed_password u) rt
            else u)
       (users t))
    (authors t) (books t).

Definition signin (user : UserSignin.t) : M (token * token) :=
  db_user <- authenticate_user (UserSignin.email user) (UserSignin.password user) ;;
  match db_user with
  | PyFalse => raise (HTTPException 400 "Incorrect email or password")
  | PyUser db_user =>
      access_token <- create_access_token [("sub", PyStr (u_email db_user))] None ;;
      refresh_token <- create_refresh_token [("sub", PyStr (u_email db_user))] None ;;
      execute (update_refresh_token (Some refresh_token) (u_id db_user)) ;;;
      commit ;;;
      ret (access_token, refresh_token)
  end.

(** [UPDATE users SET refresh_token = NULL WHERE email = :email] *)
Definition clear_refresh_token (email : string) (t : tables) : tables :=
  mkTables
    (map (fun u =>
            if String.eqb (u_email u) email then
              mkUser (u_id u) (u_email u) (u_username u) (u_hashed_password u) None
            else u)
       (users t))
    (authors t) (books t).

Definition signout (user_email : pyobj) : M string :=
  email <- bind_param user_email ;;
  execute (clear_refresh_token email) ;;;
  commit ;;;
  ret "Successfully logged out".

(** [refresh_token]: the two [except] clauses tell an expired token from
    every other token that does not decode, and the value returned is the
    new access token with its token type. No endpoint of main.py calls this
    service. *)
Definition refresh_token (refresh_token_text : token) : M (token * string) :=
  email <-
    try_except
      (payload <- jwt_decode refresh_token_text SECRET_KEY [ALGORITHM] ;;
       match dict_get "sub" payload with
       | PyNone => raise (HTTPException 401 "Invalid token")
       | email => ret email
       end)
      is_JWTError
      (fun e =>
         match e with
         | ExpiredSignatureError _ => raise (HTTPException 401 "Token expired")
         | _ => raise (HTTPException 401 "Invalid token")
         end) ;;
  match email with
  | PyStr address =>
      result <- query (select_users_by_email address) ;;
      match first result with
      | None => raise (HTTPException 401 "Invalid token")
      | Some user =>
          if differs (u_refresh_token user) refresh_token_text then
            raise (HTTPException 401 "Invalid token")
          else
            access_token <- create_access_token [("sub", email)] None ;;
            ret (access_token, "bearer")
      end
  | _ => raise (DBAPIError "unsupported type for a statement parameter")
  end.

(** *** services.py: helpers *)

(** [SELECT id FROM authors WHERE full_name = :full_name] *)
Definition select_author_ids (full_name : string) (t : tables) : list Z :=
  map a_id (filter (fun a => String.eqb (a_full_name a) full_name) (authors t)).

(** [INSERT INTO authors (full_name) VALUES (:full_name)] *)
Definition insert_author (full_name : string) (t : tables) : tables :=
  mkTables (users t)
    (authors t ++ [mkAuthor (next_id (map a_id (authors t))) full_name])
    (books t).

(** [SELECT id FROM authors WHERE full_name = :full_name
     ORDER BY id DESC LIMIT 1] *)
Definition select_last_author_id (full_name : string) (t : tables)
  : option Z :=
  max_opt (select_author_ids full_name t).

Definition _get_or_create_author (full_name : string) : M Z :=
  if String.eqb (PyStr.strip full_name) "" then
    raise (HTTPException 400 "Author name cannot be empty")
  else
    res <- query (select_author_ids full_name) ;;
    let row := first res in
    if id_truthy row then
      ret (match row with Some id => id | None => 0 end)
    else
      execute (insert_author full_name) ;;;
      commit ;;;
      author_id <- query (select_last_author_id full_name) ;;
      if negb (id_truthy author_id) then
        raise (HTTPException 500 "Failed to create author")
      else ret (match author_id with Some id => id | None => 0 end).

(** *** services.py: book services *)

(** [INSERT INTO books (title, author_id, published_year, genre, created_at)
     VALUES (..., CURRENT_TIMESTAMP)]: the store assigns the id, stamps the
    row and checks it against the table's constraints. A refused row
    raises and leaves the pending store as it was; the state in which the
    store then leaves the transaction is not part of the model (see
    [books_check]). *)
Definition insert_book (title : string) (author_id published_year : Z)
    (genre : option string) : M unit :=
  now <- utcnow ;;
  new_id <- query (fun t => next_id (map b_id (books t))) ;;
  let row := mkBook new_id title author_id published_year genre now in
  match books_check row with
  | Some msg => raise (DBAPIError msg)
  | None =>
      execute (fun t => mkTables (users t) (authors t) (books t ++ [row]))
  end.

(** [SELECT ... FROM books b JOIN authors a ON a.id = b.author_id
     WHERE b.id = (SELECT MAX(id) FROM books)] *)
Definition select_last_book (t : tables) : list (book_row * author_row) :=
  match max_opt (map b_id (books t)) with
  | None => []
  | Some m => filter (fun r => b_id (fst r) =? m) (joined t)
  end.

Definition create_book (book : BookCreate.t) (current_user : user_row)
  : M BookOut.t :=
  author_id <- _get_or_create_author (BookCreate.author book) ;;
  insert_book
    (PyStr.strip (BookCreate.title book))
    author_id
    (BookCreate.published_year book)
    (if negb (String.eqb (BookCreate.genre book) "")
     then Some (PyStr.strip (BookCreate.genre book)) else None) ;;;
  commit ;;;
  result <- query select_last_book ;;
  match first result with
  | None => raise (HTTPException 500 "Failed to create book")
  | Some created => lift (BookOut_of created)
  end.

(** [SELECT ... FROM books b JOIN authors a ON a.id = b.author_id
     WHERE b.id = :id], for an id that the driver can bind (see
    [db_integer] below). *)
Definition select_book (book_id : Z) (t : tables)
  : list (book_row * author_row) :=
  filter (fun r => b_id (fst r) =? book_id) (joined t).

Definition get_book (book_id : Z) : M BookOut.t :=
  result <- query (select_book book_id) ;;
  match first result with
  | None => raise (HTTPException 404 "Book not found")
  | Some row => lift (BookOut_of row)
  end.

(** [SELECT id FROM books WHERE id = :id] *)
Definition select_book_ids (book_id : Z) (t : tables) : list Z :=
  map b_id (filter (fun b => b_id b =? book_id) (books t)).

(** The columns [update_book] sets: one entry per supplied field. *)
Record update_fields : Type := mkFields
  { set_title : option string; set_published_year : option Z;
    set_genre : option string; set_author_id : option Z }.

Definition no_fields (f : update_fields) : bool :=
  match set_title f, set_published_year f, set_genre f, set_author_id f with
  | None, None, None, None => true
  | _, _, _, _ => false
  end.

Definition or_old {A : Type} (new : option A) (old : A) : A :=
  match new with Some v => v | None => old end.

(** [UPDATE books SET k = :k, ... WHERE id = :id] *)
Definition update_book_row (f : update_fields) (book_id : Z) (t : tables)
  : tables :=
  mkTables (users t) (authors t)
    (map (fun b =>
            if b_id b =? book_id then
              mkBook (b_id b)
                (or_old (set_title f) (b_title b))
                (or_old (set_author_id f) (b_author_id b))
                (or_old (set_published_year f) (b_published_year b))
                (match set_genre f with Some g => Some g | None => b_genre b end)
                (b_created_at b)
            else b)
       (books t)).

Definition update_book (book_id : Z) (payload : BookUpdate.t)
    (current_user : user_row) : M BookOut.t :=
  res <- query (select_book_ids book_id) ;;
  if negb (id_truthy (first res)) then
    raise (HTTPException 404 "Book not found")
  else
    let f_title :=
      if str_truthy (BookUpdate.title payload)
      then option_map PyStr.strip (BookUpdate.title payload) else None in
    let f_year :=
      if int_truthy (BookUpdate.published_year payload)
      then BookUpdate.published_year payload else None in
    let f_genre :=
      if str_truthy (BookUpdate.genre payload)
      then option_map PyStr.strip (BookUpdate.genre payload) else None in
    f_author <-
      (if str_truthy (BookUpdate.author payload) then
         author_id <-
           _get_or_create_author
             (PyStr.strip (or_old (BookUpdate.author payload) "")) ;;
         ret (Some author_id)
       else ret None) ;;
    let fields := mkFields f_title f_year f_genre f_author in
    (if negb (no_fields fields) then
       execute (update_book_row fields book_id) ;;; commit
     else ret tt) ;;;
    get_book book_id.

(** [DELETE FROM books WHERE id = :id], for an id that the driver can
    bind. *)
Definition delete_book_row (book_id : Z) (t : tables) : tables :=
  mkTables (users t) (authors t)
    (filter (fun b => negb (b_id b =? book_id)) (books t)).

Definition delete_book (book_id : Z) (current_user : user_row) : M bool :=
  res <- query (select_book_ids book_id) ;;
  if negb (id_truthy (first res)) then ret false
  else
    execute (delete_book_row book_id) ;;;
    commit ;;;
    ret true.

(** *** services.py: bulk import *)

(** [raw.get(key)]: only a dict has the method. *)
Definition py_get (raw : pyval) (key : string) : M pyval :=
  match raw with
  | PyDict d => ret (dict_get key d)
  | _ =>
      raise (AttributeError
               ("'" ++ type_name raw ++ "' object has no attribute 'get'"))
  end.

(** [v.strip()]: only a string has the method. *)
Definition py_strip (v : pyval) : M string :=
  match v with
  | PyStr s => ret (PyStr.strip s)
  | _ =>
      raise (AttributeError
               ("'" ++ type_name v ++ "' object has no attribute 'strip'"))
  end.

(** [isinstance(v, int)], with the integer: a bool is an int in Python. *)
Definition as_int (v : pyval) : option Z :=
  match v with
  | PyInt z => Some z
  | PyBool b => Some (if b then 1 else 0)
  | _ => None
  end.

(** [genre in book_genres] *)
Definition in_book_genres (genre : pyval) : option string :=
  match genre with
  | PyStr g => if PyStr.mem g book_genres then Some g else None
  | _ => None
  end.

Definition range_message : string :=
  "published_year must be between 1800 and " ++ PyStr.of_int CURRENT_YEAR.

Definition genres_message : string :=
  "genre must be one of: " ++ PyStr.join ", " (PyStr.sorted book_genres).

(** The body of the [try] of one row. *)
Definition import_row (raw : pyval) : M unit :=
  t <- py_get raw "title" ;;
  title <- py_strip (py_or t (PyStr "")) ;;
  a <- py_get raw "author" ;;
  author <- py_strip (py_or a (PyStr "")) ;;
  published_year <- py_get raw "published_year" ;;
  genre <- py_get raw "genre" ;;
  let published_year :=
    match published_year with
    | PyStr s => if PyStr.isdigit s then PyInt (PyStr.int s) else published_year
    | _ => published_year
    end in
  if String.eqb title "" then raise (ValueError "title is required")
  else if String.eqb author "" then raise (ValueError "author is required")
  else
    match as_int published_year with
    | None => raise (ValueError "published_year must be integer")
    | Some year =>
        if (year <? 1800) || (year >? CURRENT_YEAR) then
          raise (ValueError range_message)
        else
          match in_book_genres genre with
          | None => raise (ValueError genres_message)
          | Some g =>
              author_id <- _get_or_create_author author ;;
              insert_book title author_id year (Some g)
          end
    end.

(** The loop over [rows_to_insert]: a row that raises adds an entry to
    [errors], a row that does not adds one to [inserted]. *)
Fixpoint import_rows (rows_to_insert : list (Z * pyval)) (inserted : Z)
    (errors : list (Z * string)) : M (Z * list (Z * string)) :=
  match rows_to_insert with
  | [] => ret (inserted, errors)
  | (idx, raw) :: rest =>
      r <- try_except
             (import_row raw ;;; ret (inserted + 1, errors))
             (fun _ => true)
             (fun e => ret (inserted, (errors ++ [(idx, str_exn e)])%list)) ;;
      import_rows rest (fst r) (snd r)
  end.

(** The first half of [bulk_import]: the rows of the upload, numbered from
    1. The content of the file is its text, decoded. *)
Definition parse_upload (file : UploadFile) : M (list (Z * pyval)) :=
  let text_content := content file in
  if PyStr.endswith (PyStr.lower (filename file)) ".csv" then
    try_except
      (reader <- lift (csv_DictReader text_content) ;;
       ret (enumerate 1 reader))
      (fun _ => true)
      (fun e => raise (HTTPException 400 ("Invalid CSV: " ++ str_exn e)))
  else if PyStr.endswith (PyStr.lower (filename file)) ".json" then
    try_except
      (data <- lift (json_loads text_content) ;;
       match data with
       | PyList items => ret (enumerate 1 items)
       | _ => raise (HTTPException 400 "JSON must be an array of book objects")
       end)
      is_JSONDecodeError
      (fun e => raise (HTTPException 400 ("Invalid JSON: " ++ str_exn e)))
  else raise (HTTPException 400 "Unsupported file type. Use .csv or .json").

Definition bulk_import (file : UploadFile) (current_user : user_row)
  : M BulkImportResult.t :=
  rows_to_insert <- parse_upload file ;;
  r <- import_rows rows_to_insert 0 [] ;;
  commit ;;;
  ret (BulkImportResult.mk (fst r) (snd r)).

(** *** services.py: listing *)

Inductive sort_col : Type := ByTitle | ByPublishedYear | ByAuthor.

Definition allowed_sort_columns (sort_by : string) : option sort_col :=
  if String.eqb sort_by "title" then Some ByTitle
  else if String.eqb sort_by "published_year" then Some ByPublishedYear
  else if String.eqb sort_by "author" then Some ByAuthor
  else None.

Definition allowed_sort_keys : string := "['title', 'published_year', 'author']".

Definition where_clauses (p : list_params) (r : book_row * author_row) : bool :=
  (if str_truthy (f_title p)
   then ilike ("%" ++ or_old (f_title p) "" ++ "%") (b_title (fst r))
   else true)
  && (if str_truthy (f_author p)
      then ilike ("%" ++ or_old (f_author p) "" ++ "%") (a_full_name (snd r))
      else true)
  && (if str_truthy (f_genre p)
      then match b_genre (fst r) with
           | Some g => ilike ("%" ++ or_old (f_genre p) "" ++ "%") g
           | None => false
           end
      else true)
  && (if int_truthy (year_from p)
      then or_old (year_from p) 0 <=? b_published_year (fst r) else true)
  && (if int_truthy (year_to p)
      then b_published_year (fst r) <=? or_old (year_to p) 0 else true).

Definition order_le (c : sort_col) (r1 r2 : book_row * author_row) : bool :=
  match c with
  | ByTitle => collate_leb (b_title (fst r1)) (b_title (fst r2))
  | ByPublishedYear => b_published_year (fst r1) <=? b_published_year (fst r2)
  | ByAuthor => collate_leb (a_full_name (snd r1)) (a_full_name (snd r2))
  end.

(** [SELECT ... WHERE ... ORDER BY col dir LIMIT :limit OFFSET :offset] *)
Definition select_books (p : list_params) (c : sort_col) (descending : bool)
    (limit offset : Z) (t : tables) : list (book_row * author_row) :=
  let rows := filter (where_clauses p) (joined t) in
  let le := if descending then (fun x y => order_le c y x) else order_le c in
  firstn (Z.to_nat limit) (skipn (Z.to_nat offset) (sort_by le rows)).

(** [page] and [page_size] are integers already, so [int(page)] and
    [int(page_size)] return them and never raise. *)
Definition list_books (p : list_params) : M (list BookOut.t) :=
  match allowed_sort_columns (sort_by_ p) with
  | None =>
      raise (HTTPException 400 ("sort_by must be one of " ++ allowed_sort_keys))
  | Some sort_col =>
      if negb (PyStr.mem (PyStr.lower (sort_order p)) ["asc"; "desc"]) then
        raise (HTTPException 400 "sort_order must be 'asc' or 'desc'")
      else
        let offset := (page p - 1) * page_size p in
        rows <- query (select_books p sort_col
                         (String.eqb (PyStr.lower (sort_order p)) "desc")
                         (page_size p) offset) ;;
        lift (BookOut_all rows)
  end.

(** *** db.py *)

(** [DatabaseSessionManager.session]: the work of the request, then a commit;
    any exception rolls the session back and is raised again. *)
Definition session {A : Type} (work : M A) : M A :=
  try_except
    (a <- work ;; commit ;;; ret a)
    (fun _ => true)
    (fun err => rollback ;;; raise err).

(** *** main.py *)

Inductive body : Type :=
| Detail (detail : string)
| ValidationErrors (errors : list string)
| UserCreated (user_id : Z) (email username : string)
| Tokens (access_token refresh_token : token)
| Message (msg : string)
| OneBook (book : BookOut.t)
| ManyBooks (books : list BookOut.t)
| ImportReport (result : BulkImportResult.t)
| NoContent.

Record response : Type := mkResponse { status_code : Z; payload : body }.

(** [except HTTPException as he: raise he
     except Exception as e: raise HTTPException(500, prefix + str(e))] *)
Definition guarded {A : Type} (prefix : string) (c : M A) : M A :=
  try_except c
    (fun e => negb (is_HTTPException e))
    (fun e => raise (HTTPException 500 (prefix ++ str_exn e))).

Definition register (user : UserSignup.t) : M body :=
  guarded "Error registering user: "
    (r <- signup user ;;
     ret (UserCreated (fst (fst r)) (snd (fst r)) (snd r))).

Definition login (username password : string) : M body :=
  guarded "Error signing in: "
    (let user_signin := UserSignin.mk username password in
     r <- signin user_signin ;;
     ret (Tokens (fst r) (snd r))).

Definition logout (current_user : user_row) : M body :=
  guarded "Error signing out: "
    (msg <- signout (RowMapping current_user) ;;
     ret (Message msg)).

Definition add_book (book : BookCreate.t) (user : user_row) : M body :=
  guarded "Error adding book: "
    (b <- create_book book user ;; ret (OneBook b)).

Definition get_books (p : list_params) : M body :=
  try_except
    (l <- list_books p ;; ret (ManyBooks l))
    (fun _ => true)
    (fun e => raise (HTTPException 500 ("Error fetching books: " ++ str_exn e))).

Definition get_book_by_id (book_id : Z) : M body :=
  guarded "Error fetching book: "
    (book <- get_book book_id ;; ret (OneBook book)).

Definition update_book_by_id (book_id : Z) (book : BookUpdate.t)
    (user : user_row) : M body :=
  guarded "Error updating book: "
    (updated <- update_book book_id book user ;; ret (OneBook updated)).

Definition delete_book_by_id (book_id : Z) (user : user_row) : M body :=
  guarded "Error deleting book: "
    (deleted <- delete_book book_id user ;;
     if negb deleted then
       raise (HTTPException 404
                ("Book with ID " ++ PyStr.of_int book_id ++ " not found"))
     else ret NoContent).

Definition bulk_import_books (file : UploadFile) (user : user_row) : M body :=
  if negb (PyStr.endswith (PyStr.lower (filename file)) ".csv"
           || PyStr.endswith (PyStr.lower (filename file)) ".json") then
    raise (HTTPException 400 "Unsupported file type. Only CSV or JSON is allowed.")
  else
    try_except
      (r <- bulk_import file user ;; ret (ImportReport r))
      (fun e => negb (is_HTTPException e))
      (fun e => raise (HTTPException 500
                         ("Unexpected error during bulk import: " ++ str_exn e))).

(** A request: the bearer token of its [Authorization] header, if it has
    one, and the operation it asks for with the operation's inputs. *)
Inductive operation : Type :=
| Signup (user : UserSignup.t)
| Signin (username password : string)
| Signout
| AddBook (book : BookCreate.t)
| ListBooks (p : list_params)
| GetBook (book_id : Z)
| UpdateBook (book_id : Z) (book : BookUpdate.t)
| DeleteBook (book_id : Z)
| BulkImport (file : UploadFile).

Record request : Type := mkRequest
  { authorization : option token; target : operation }.

(** [OAuth2PasswordBearer]: the token of the header, or 401. *)
Definition oauth2_scheme (req : request) : M token :=
  match authorization req with
  | Some tok => ret tok
  | None => raise (HTTPException 401 "Not authenticated")
  end.

(** [Depends(get_current_user)] *)
Definition depends_get_current_user (req : request) : M user_row :=
  tok <- oauth2_scheme req ;;
  get_current_user tok.

(** [page: int = Query(1, ge=1)], [page_size: int = Query(10, ge=1, le=100)] *)
Definition validate_list_params (p : list_params) : M unit :=
  lift (collect
          ((if page p <? 1
            then ["page: ensure this value is greater than or equal to 1"]
            else [])
           ++ (if page_size p <? 1
               then ["page_size: ensure this value is greater than or equal to 1"]
               else [])
           ++ (if page_size p >? 100
               then ["page_size: ensure this value is less than or equal to 100"]
               else []))%list
          tt).

(** [UserSignup] built from the request body: [email: EmailStr] is
    validated, and the model holds the address as the validator returns
    it. *)
Definition UserSignup_validate (body : UserSignup.t) : outcome UserSignup.t :=
  match EmailStr_validate (UserSignup.email body) with
  | Return address =>
      Return (UserSignup.mk address (UserSignup.username body)
                (UserSignup.password body))
  | Raise e =>
      Raise (RequestValidationError
               (errors_of (EmailStr_validate (UserSignup.email body))))
  end.

(** The router: each endpoint with the dependencies its signature declares
    and the status code of its decorator. A dependency is solved before the
    body of the request is validated, so a request without a valid token is
    answered 401 whatever its body. *)
Definition dispatch (req : request) : M response :=
  match target req with
  | Signup user =>
      user <- lift (UserSignup_validate user) ;;
      b <- register user ;; ret (mkResponse 201 b)
  | Signin username password =>
      b <- login username password ;; ret (mkResponse 200 b)
  | Signout =>
      current_user <- depends_get_current_user req ;;
      b <- logout current_user ;; ret (mkResponse 200 b)
  | AddBook book =>
      user <- depends_get_current_user req ;;
      book <- lift (BookCreate.validate book) ;;
      b <- add_book book user ;; ret (mkResponse 201 b)
  | ListBooks p =>
      validate_list_params p ;;;
      b <- get_books p ;; ret (mkResponse 200 b)
  | GetBook book_id =>
      b <- get_book_by_id book_id ;; ret (mkResponse 200 b)
  | UpdateBook book_id book =>
      user <- depends_get_current_user req ;;
      book <- lift (BookUpdate.validate book) ;;
      b <- update_book_by_id book_id book user ;; ret (mkResponse 200 b)
  | DeleteBook book_id =>
      user <- depends_get_current_user req ;;
      b <- delete_book_by_id book_id user ;; ret (mkResponse 204 b)
  | BulkImport file =>
      user <- depends_get_current_user req ;;
      b <- bulk_import_books file user ;; ret (mkResponse 201 b)
  end.

Definition response_of_exn (e : exn) : response :=
  match e with
  | HTTPException code detail => mkResponse code (Detail detail)
  | RequestValidationError errors => mkResponse 422 (ValidationErrors errors)
  | _ => mkResponse 500 (Detail "Internal Server Error")
  end.

(** One request served against the store at time [now]: [get_db] opens a
    session, the endpoint runs in it, and the store is what the session has
    committed when it closes. *)
Definition serve (now : Z) (req : request) (store : tables)
  : response * tables :=
  match session (dispatch req) (mkWorld store store now) with
  | (Return r, w) => (r, committed w)
  | (Raise e, w) => (response_of_exn e, committed w)
  end.

(** *** Vocabulary of the statements *)

(** A world at another time of day. *)
Definition at_time (now : Z) (w : world) : world :=
  mkWorld (committed w) (pending w) now.

(** The row of [u] once [UPDATE users SET refresh_token = :rt] has run. *)
Definition with_refresh_token (rt : option token) (u : user_row) : user_row :=
  mkUser (u_id u) (u_email u) (u_username u) (u_hashed_password u) rt.

(** The spec's [resolve]: the token is verified (algorithm, signature,
    expiry, subject), the subject is read and the user is loaded; every
    failure is the one [Unauthorized] error. *)
Definition expiry_ok (now : Z) (claims : pydict) : bool :=
  if dict_has "exp" claims then
    match dict_get "exp" claims with
    | PyInt exp => negb (exp <? now)
    | _ => false
    end
  else true.

Definition subject_ok (claims : pydict) : bool :=
  if dict_has "sub" claims then
    match dict_get "sub" claims with
    | PyStr _ => true
    | _ => false
    end
  else true.

Definition signature_ok (j : jws) : bool :=
  String.eqb (jws_signature j) (jws_sign SECRET_KEY (jws_alg j) (jws_claims j)).

Definition verified (now : Z) (j : jws) : bool :=
  String.eqb (jws_alg j) ALGORITHM && signature_ok j
  && expiry_ok now (jws_claims j) && subject_ok (jws_claims j).

Definition resolve (now : Z) (t : tables) (tok : token) : outcome user_row :=
  match tok with
  | Opaque _ => Raise credentials_exception
  | Signed j =>
      if verified now j then
        match dict_get "sub" (jws_claims j) with
        | PyStr email =>
            match first (select_users_by_email email t) with
            | Some u => Return u
            | None => Raise credentials_exception
            end
        | _ => Raise credentials_exception
        end
      else Raise credentials_exception
  end.

(** The tokens that must never resolve: text that is no JWT, a signature
    that is not the key's over the claims, an expiry in the past, a subject
    that no stored user has; and besides, an algorithm other than the
    configured one and a payload with no string for its subject. *)
Inductive refused (now : Z) (t : tables) : token -> Prop :=
| refused_malformed (text : string) : refused now t (Opaque text)
| refused_tampered (j : jws) :
    jws_signature j <> jws_sign SECRET_KEY (jws_alg j) (jws_claims j) ->
    refused now t (Signed j)
| refused_expired (j : jws) (exp : Z) :
    dict_get "exp" (jws_claims j) = PyInt exp -> exp < now ->
    refused now t (Signed j)
| refused_unknown_subject (j : jws) (email : string) :
    dict_get "sub" (jws_claims j) = PyStr email ->
    select_users_by_email email t = [] ->
    refused now t (Signed j)
| refused_algorithm (j : jws) :
    jws_alg j <> ALGORITHM -> refused now t (Signed j)
| refused_subject (j : jws) :
    (forall email, dict_get "sub" (jws_claims j) <> PyStr email) ->
    refused now t (Signed j).

(** Whether [_get_or_create_author] finds the name in the store. *)
Definition author_found (full_name : string) (t : tables) : bool :=
  id_truthy (first (select_author_ids full_name t)).

(** The session once a statement has run on it and been committed. *)
Definition committing (f : tables -> tables) (w : world) : world :=
  mkWorld (f (pending w)) (f (pending w)) (clock w).

(** Every author row has an id the store assigned: none is zero. *)
Definition author_ids_assigned (t : tables) : Prop :=
  forall a, In a (authors t) -> a_id a <> 0.

(** Steps 2a and 2b of the importer as one pure function: the fields of a
    row extracted, trimmed, coerced and validated, or the exception of the
    first check that fails. *)
Definition coerce_year (published_year : pyval) : pyval :=
  match published_year with
  | PyStr s => if PyStr.isdigit s then PyInt (PyStr.int s) else published_year
  | _ => published_year
  end.

Definition no_attribute (v : pyval) (name : string) : exn :=
  AttributeError ("'" ++ type_name v ++ "' object has no attribute '" ++ name ++ "'").

Definition validated_row (raw : pyval) : outcome (string * string * Z * string) :=
  match raw with
  | PyDict d =>
      match py_or (dict_get "title" d) (PyStr "") with
      | PyStr t =>
          match py_or (dict_get "author" d) (PyStr "") with
          | PyStr a =>
              if String.eqb (PyStr.strip t) "" then
                Raise (ValueError "title is required")
              else if String.eqb (PyStr.strip a) "" then
                Raise (ValueError "author is required")
              else
                match as_int (coerce_year (dict_get "published_year" d)) with
                | None => Raise (ValueError "published_year must be integer")
                | Some year =>
                    if (year <? 1800) || (year >? CURRENT_YEAR) then
                      Raise (ValueError range_message)
                    else
                      match in_book_genres (dict_get "genre" d) with
                      | None => Raise (ValueError genres_message)
                      | Some g => Return (PyStr.strip t, PyStr.strip a, year, g)
                      end
                end
          | v => Raise (no_attribute v "strip")
          end
      | v => Raise (no_attribute v "strip")
      end
  | v => Raise (no_attribute v "get")
  end.

(** The book row that [insert_book] hands to the store. *)
Definition new_book (title : string) (author_id year : Z) (genre : option string)
    (w : world) : book_row :=
  mkBook (next_id (map b_id (books (pending w)))) title author_id year genre
    (clock w).

Definition add_book_row (row : book_row) (t : tables) : tables :=
  mkTables (users t) (authors t) (books t ++ [row]).

Definition staging (f : tables -> tables) (w : world) : world :=
  mkWorld (committed w) (f (pending w)) (clock w).




Definition is_json (file : UploadFile) : Prop :=
  PyStr.endswith (PyStr.lower (filename file)) ".json" = true.


(** Whether a decoded JSON value is an array. *)
Definition is_array (v : pyval) : bool :=
  match v with PyList _ => true | _ => false end.

(** A request that carries a token which resolves to a user of the store. *)
Definition authenticated (now : Z) (store : tables) (req : request)
    (user : user_row) : Prop :=
  exists tok,
    authorization req = Some tok /\ resolve now store tok = Return user.



(** Equality of strings up to the case of their letters. *)
Fixpoint eq_ignore_case (s t : string) : bool :=
  match s, t with
  | EmptyString, EmptyString => true
  | String a s', String b t' =>
      Ascii.eqb (PyStr.lower_char a) (PyStr.lower_char b) && eq_ignore_case s' t'
  | _, _ => false
  end.

(** [canonical] is the spelling of the genre table that [genre] matches
    case-insensitively. *)
Definition matches_genre (genre canonical : string) : Prop :=
  In canonical book_genres /\ eq_ignore_case genre canonical = true.

(** The genre column that [create_book] writes for a validated body. *)
Definition genre_column (genre : string) : option string :=
  if negb (String.eqb genre "") then Some (PyStr.strip genre) else None.

(** The session after author resolution of [full_name]. *)
Definition author_resolved (full_name : string) (w : world) : world :=
  if author_found full_name (pending w) then w
  else committing (insert_author full_name) w.

(** One row of [UPDATE books SET ...]. *)
Definition updated_row (f : update_fields) (b : book_row) : book_row :=
  mkBook (b_id b)
    (or_old (set_title f) (b_title b))
    (or_old (set_author_id f) (b_author_id b))
    (or_old (set_published_year f) (b_published_year b))
    (match set_genre f with Some g => Some g | None => b_genre b end)
    (b_created_at b).

(** The columns that [update_book] sets for a payload, given the id of the
    author it resolved, if it resolved one. *)
Definition fields_of (payload : BookUpdate.t) (author_id : option Z)
  : update_fields :=
  mkFields
    (if str_truthy (BookUpdate.title payload)
     then option_map PyStr.strip (BookUpdate.title payload) else None)
    (if int_truthy (BookUpdate.published_year payload)
     then BookUpdate.published_year payload else None)
    (if str_truthy (BookUpdate.genre payload)
     then option_map PyStr.strip (BookUpdate.genre payload) else None)
    author_id.

(** The operations whose endpoint declares [Depends(get_current_user)]. *)
Definition protected (op : operation) : bool :=
  match op with
  | Signout | AddBook _ | UpdateBook _ _ | DeleteBook _ | BulkImport _ => true
  | Signup _ | Signin _ _ | ListBooks _ | GetBook _ => false
  end.

(** Text on which the model of [str.strip], [str.lower], [str.isdigit] and
    [int] is the Python function: characters 1 to 127. Beyond them Python
    knows further white space and digits, and the store takes no NUL. *)
Definition ascii_char (c : ascii) : bool :=
  let n := N_of_ascii c in ((1 <=? n) && (n <=? 127))%N.

Fixpoint ascii_text (s : string) : bool :=
  match s with
  | EmptyString => true
  | String c r => ascii_char c && ascii_text r
  end.




(** An identifier that the driver can bind to a statement parameter of the
    store's integer type; a Python [int] beyond it is refused by the
    driver, which the model of the queries leaves out. *)
Definition db_integer (z : Z) : Prop := - 2 ^ 31 <= z < 2 ^ 31.

(** *** Vocabulary of the further statements *)

(** Identifiers as the store assigns them: no two alike, none below 1. *)
Definition ids_ok (ids : list Z) : Prop :=
  NoDup ids /\ Forall (fun i => 1 <= i) ids.

(** A well-formed store: identifiers assigned by the store, one user per
    email, one author per name, and every book with an author of the
    store. *)
Record store_ok (t : tables) : Prop := mkStoreOk
  { ok_user_ids : ids_ok (map u_id (users t));
    ok_author_ids : ids_ok (map a_id (authors t));
    ok_book_ids : ids_ok (map b_id (books t));
    ok_emails : NoDup (map u_email (users t));
    ok_names : NoDup (map a_full_name (authors t));
    ok_refs : forall b, In b (books t) ->
                In (b_author_id b) (map a_id (authors t)) }.

(** [INSERT INTO users ...] as a function of the table. *)
Definition add_user_row (email username hashed_password : string) (t : tables)
  : tables :=
  mkTables
    (users t
     ++ [mkUser (next_id (map u_id (users t))) email username hashed_password
           None])
    (authors t) (books t).

(** The writes of the user services, each with the test that guards it. *)
Inductive user_step : tables -> tables -> Prop :=
| step_signup (t : tables) (email username hashed_password : string) :
    id_truthy (option_map u_id (first (select_users_by_email email t))) = false ->
    user_step t (add_user_row email username hashed_password t)
| step_refresh (t : tables) (rt : option token) (id : Z) :
    user_step t (update_refresh_token rt id t)
| step_clear (t : tables) (email : string) :
    user_step t (clear_refresh_token email t).

(** A book row as the validators leave it: a year in range and a genre of
    the genre table. *)
Definition book_valid (b : book_row) : Prop :=
  1800 <= b_published_year b <= CURRENT_YEAR
  /\ exists g, b_genre b = Some g /\ In g book_genres.

Definition fields_valid (f : update_fields) : Prop :=
  (forall y, set_published_year f = Some y -> 1800 <= y <= CURRENT_YEAR)
  /\ (forall g, set_genre f = Some g -> In g book_genres).

Definition catalogue_valid (t : tables) : Prop := Forall book_valid (books t).

(** The writes of the author and book services, each with the tests that
    guard it. *)
Inductive book_step : tables -> tables -> Prop :=
| step_author (t : tables) (full_name : string) :
    author_found full_name t = false ->
    book_step t (insert_author full_name t)
| step_book (t : tables) (row : book_row) :
    b_id row = next_id (map b_id (books t)) ->
    In (b_author_id row) (map a_id (authors t)) ->
    book_valid row ->
    book_step t (add_book_row row t)
| step_update (t : tables) (f : update_fields) (book_id : Z) :
    (forall author_id, set_author_id f = Some author_id ->
                       In author_id (map a_id (authors t))) ->
    fields_valid f ->
    book_step t (update_book_row f book_id t)
| step_delete (t : tables) (book_id : Z) :
    book_step t (delete_book_row book_id t).

(** The stores that a sequence of writes leads to. *)
Inductive reaches (step : tables -> tables -> Prop) : tables -> tables -> Prop :=
| reaches_here (t : tables) : reaches step t t
| reaches_next (t t' t'' : tables) :
    reaches step t t' -> step t' t'' -> reaches step t t''.

(** A session whose two views of the store both come from [origin] by
    writes of the given kind. *)
Definition within (step : tables -> tables -> Prop) (origin : tables)
    (w : world) : Prop :=
  reaches step origin (committed w) /\ reaches step origin (pending w).

(** A specification of a computation: from a session that satisfies [P],
    its outcome and the session it leaves satisfy [Q]. *)
Definition triple {A : Type} (P : world -> Prop) (c : M A)
    (Q : outcome A -> world -> Prop) : Prop :=
  forall w, P w -> Q (fst (c w)) (snd (c w)).

(** The session keeps [I] whatever the outcome, and a returned value
    satisfies [R]. *)
Definition on_return {A : Type} (R : A -> world -> Prop) (I : world -> Prop)
  : outcome A -> world -> Prop :=
  fun o w => I w /\ match o with Return a => R a w | Raise _ => True end.

Definition anything {A : Type} : A -> world -> Prop := fun _ _ => True.

(** What identifies a user and lets them sign in. *)
Definition account (u : user_row) : Z * string * string * string :=
  (u_id u, u_email u, u_username u, u_hashed_password u).

(** A store with no row, and a sequence of requests, each with the time it
    arrives, served one after another. *)
Definition empty_store : tables := mkTables [] [] [].

Definition serve_all (requests : list (Z * request)) (store : tables) : tables :=
  fold_left (fun t r => snd (serve (fst r) (snd r) t)) requests store.

(** The token that [create_access_token] or [create_refresh_token] encodes
    at time [iat] for the user of that email. *)
Definition issued (scope email : string) (iat life : Z) : token :=
  jwt_encode
    [("sub", PyStr email); ("iat", PyInt iat); ("exp", PyInt (iat + life));
     ("scope", PyStr scope)]
    SECRET_KEY ALGORITHM.

(** A session with nothing left to commit. *)
Definition synced (w : world) : Prop := committed w = pending w.

(** The name that [update_book] hands to author resolution. *)
Definition update_author_name (payload : BookUpdate.t) : string :=
  PyStr.strip (or_old (BookUpdate.author payload) "").

(** ** Properties *)

(** *** Running the monad *)

Ltac run_monad :=
  unfold session, guarded, try_except, bind, ret, raise, lift, query, execute,
    commit, rollback, utcnow in *; simpl in *.

Lemma world_eta (w : world) : mkWorld (committed w) (pending w) (clock w) = w.
Proof. destruct w; reflexivity. Qed.

Lemma filter_map_same {A : Type} (p : A -> bool) (f : A -> A) (l : list A) :
  (forall a, p (f a) = p a) -> filter p (map f l) = map f (filter p l).
Proof.
  intros Hp. induction l as [|a l IH]; simpl; [reflexivity|].
  rewrite Hp. destruct (p a); simpl; rewrite IH; reflexivity.
Qed.

Lemma first_map {A B : Type} (f : A -> B) (l : list A) :
  first (map f l) = option_map f (first l).
Proof. destruct l; reflexivity. Qed.

Lemma first_filter_holds {A : Type} (p : A -> bool) (l : list A) (a : A) :
  first (filter p l) = Some a -> p a = true /\ In a l.
Proof.
  induction l as [|x l IH]; simpl; [discriminate|].
  destruct (p x) eqn:Hx; simpl.
  - intros [= <-]. auto.
  - intros H. destruct (IH H). auto.
Qed.

Lemma select_after_signin (rt : option token) (id : Z) (email : string)
    (t : tables) (u : user_row) :
  first (select_users_by_email email t) = Some u ->
  u_id u = id ->
  first (select_users_by_email email (update_refresh_token rt id t))
  = Some (with_refresh_token rt u).
Proof.
  intros Hu Hid. unfold select_users_by_email, update_refresh_token. simpl.
  rewrite filter_map_same.
  - rewrite first_map. unfold select_users_by_email in Hu. rewrite Hu. simpl.
    rewrite Hid, Z.eqb_refl. unfold with_refresh_token. rewrite Hid. reflexivity.
  - intros a. destruct (u_id a =? id); reflexivity.
Qed.

(** What [signin] does when it succeeds: the user it authenticated, the two
    tokens, and the overwritten row. *)
Lemma signin_returns (user : UserSignin.t) (w w' : world) (a r : token) :
  signin user w = (Return (a, r), w') ->
  exists db_user,
    first (select_users_by_email (UserSignin.email user) (pending w)) = Some db_user
    /\ pwd_context_verify (UserSignin.password user) (u_hashed_password db_user) = true
    /\ a = jwt_encode
             [("sub", PyStr (u_email db_user)); ("iat", PyInt (clock w));
              ("exp", PyInt (clock w + 15 * 60)); ("scope", PyStr "access_token")]
             SECRET_KEY ALGORITHM
    /\ r = jwt_encode
             [("sub", PyStr (u_email db_user)); ("iat", PyInt (clock w));
              ("exp", PyInt (clock w + 7 * 24 * 60 * 60));
              ("scope", PyStr "refresh_token")]
             SECRET_KEY ALGORITHM
    /\ w' = mkWorld (update_refresh_token (Some r) (u_id db_user) (pending w))
              (update_refresh_token (Some r) (u_id db_user) (pending w))
              (clock w).
Proof.
  unfold signin, authenticate_user, create_access_token, create_refresh_token.
  run_monad.
  destruct (first (select_users_by_email (UserSignin.email user) (pending w)))
    as [u|] eqn:Hu; simpl; [|discriminate].
  destruct (pwd_context_verify (UserSignin.password user) (u_hashed_password u))
    eqn:Hv; simpl; [|discriminate].
  intros [= <- <- <-]. exists u. repeat split; auto.
Qed.

(** *** C1: resolving a bearer token *)

Lemma dict_get_cons (k k' : string) (v : pyval) (d : pydict) :
  dict_get k ((k', v) :: d) = if String.eqb k' k then v else dict_get k d.
Proof. reflexivity. Qed.

Lemma dict_has_cons (k k' : string) (v : pyval) (d : pydict) :
  dict_has k ((k', v) :: d) = String.eqb k' k || dict_has k d.
Proof. reflexivity. Qed.

Lemma dict_get_has (k : string) (d : pydict) :
  dict_get k d <> PyNone -> dict_has k d = true.
Proof.
  induction d as [|[k' v] d IH]; [intros H; exfalso; apply H; reflexivity|].
  rewrite dict_get_cons, dict_has_cons.
  destruct (String.eqb k' k); simpl; auto.
Qed.

Lemma dict_has_get (k : string) (d : pydict) :
  dict_has k d = false -> dict_get k d = PyNone.
Proof.
  induction d as [|[k' v] d IH]; [reflexivity|].
  rewrite dict_get_cons, dict_has_cons.
  destruct (String.eqb k' k); simpl; [discriminate|auto].
Qed.

(** [get_current_user] computes the spec's [resolve] on the session's view
    of the store at the time of the request, and changes nothing. *)
Lemma get_current_user_resolve (tok : token) (w : world) :
  get_current_user tok w = (resolve (clock w) (pending w) tok, w).
Proof.
  unfold get_current_user, resolve, jwt_decode, verified, signature_ok.
  destruct tok as [text|j]; [reflexivity|].
  unfold PyStr.mem. simpl existsb. rewrite orb_false_r.
  run_monad.
  destruct (String.eqb (jws_alg j) ALGORITHM); simpl; [|reflexivity].
  destruct (String.eqb (jws_signature j)
              (jws_sign SECRET_KEY (jws_alg j) (jws_claims j)));
    simpl; [|reflexivity].
  unfold validate_exp, validate_sub, expiry_ok, subject_ok. run_monad.
  destruct (dict_has "exp" (jws_claims j)) eqn:Hexp.
  - destruct (dict_get "exp" (jws_claims j)); simpl; try reflexivity.
    destruct (z <? clock w); simpl; [reflexivity|].
    destruct (dict_has "sub" (jws_claims j)) eqn:Hsub.
    + destruct (dict_get "sub" (jws_claims j)) eqn:Hget; simpl;
        rewrite ?Hget; try reflexivity.
      destruct (first (select_users_by_email s (pending w))); reflexivity.
    + rewrite (dict_has_get _ _ Hsub). reflexivity.
  - simpl.
    destruct (dict_has "sub" (jws_claims j)) eqn:Hsub.
    + destruct (dict_get "sub" (jws_claims j)) eqn:Hget; simpl;
        rewrite ?Hget; try reflexivity.
      destruct (first (select_users_by_email s (pending w))); reflexivity.
    + rewrite (dict_has_get _ _ Hsub). reflexivity.
Qed.

Lemma refused_resolve (now : Z) (t : tables) (tok : token) :
  refused now t tok -> resolve now t tok = Raise credentials_exception.
Proof.
  intros [text|j Hsig|j exp Hexp Hlt|j email Hsub Hnone|j Halg|j Hsub]; simpl;
    [reflexivity| | | | |].
  - unfold verified, signature_ok.
    destruct (String.eqb_spec (jws_signature j)
                (jws_sign SECRET_KEY (jws_alg j) (jws_claims j))); [contradiction|].
    rewrite andb_false_r. reflexivity.
  - unfold verified, expiry_ok.
    rewrite dict_get_has by (rewrite Hexp; discriminate).
    rewrite Hexp. apply Z.ltb_lt in Hlt. rewrite Hlt. simpl.
    rewrite andb_false_r. reflexivity.
  - rewrite Hsub, Hnone. simpl. destruct (verified now j); reflexivity.
  - unfold verified.
    destruct (String.eqb_spec (jws_alg j) ALGORITHM); [contradiction|].
    reflexivity.
  - destruct (verified now j); [|reflexivity].
    destruct (dict_get "sub" (jws_claims j)) eqn:Hget; try reflexivity.
    exfalso. exact (Hsub s eq_refl).
Qed.

(** A user comes out of [resolve] only for a verified token whose subject is
    the email of that stored user. *)
Lemma resolve_returns (now : Z) (t : tables) (tok : token) (u : user_row) :
  resolve now t tok = Return u ->
  exists j,
    tok = Signed j /\ verified now j = true
    /\ dict_get "sub" (jws_claims j) = PyStr (u_email u) /\ In u (users t).
Proof.
  destruct tok as [text|j]; simpl; [discriminate|].
  destruct (verified now j) eqn:Hv; [|discriminate].
  destruct (dict_get "sub" (jws_claims j)) eqn:Hsub; try discriminate.
  destruct (first (select_users_by_email s t)) as [u'|] eqn:Hu; [|discriminate].
  intros [= ->]. exists j.
  apply first_filter_holds in Hu. destruct Hu as [He Hin].
  apply String.eqb_eq in He. subst s. auto.
Qed.

Lemma depends_resolved (req : request) (w : world) (user : user_row) :
  authenticated (clock w) (pending w) req user ->
  depends_get_current_user req w = (Return user, w).
Proof.
  intros (tok & Hauth & Hres).
  unfold depends_get_current_user, oauth2_scheme, bind. rewrite Hauth.
  unfold ret. rewrite get_current_user_resolve, Hres. reflexivity.
Qed.

(** A request whose endpoint raises: the session is rolled back, the store
    is what had been committed, and the exception becomes the response. *)
Lemma serve_raise (now : Z) (req : request) (store : tables) (e : exn)
    (w' : world) :
  dispatch req (mkWorld store store now) = (Raise e, w') ->
  serve now req store = (response_of_exn e, committed w').
Proof.
  intros H. unfold serve, session, try_except, bind. rewrite H. reflexivity.
Qed.

(** A request whose endpoint returns: the session is committed. *)
Lemma serve_return (now : Z) (req : request) (store : tables) (r : response)
    (w' : world) :
  dispatch req (mkWorld store store now) = (Return r, w') ->
  serve now req store = (r, pending w').
Proof.
  intros H. unfold serve, session, try_except, bind. rewrite H. reflexivity.
Qed.

Lemma issued_token_resolves (kind : string) (life now : Z) (w : world)
    (t : tables) (u : user_row) :
  now <= clock w + life ->
  first (select_users_by_email (u_email u) t) = Some u ->
  resolve now t
    (jwt_encode
       [("sub", PyStr (u_email u)); ("iat", PyInt (clock w));
        ("exp", PyInt (clock w + life)); ("scope", PyStr kind)]
       SECRET_KEY ALGORITHM)
  = Return u.
Proof.
  intros Hnow Hu. unfold resolve, jwt_encode, verified, signature_ok. simpl.
  rewrite !String.eqb_refl. unfold expiry_ok, subject_ok. simpl.
  assert (Hfresh : (clock w + life <? now) = false) by (apply Z.ltb_ge; lia).
  rewrite Hfresh. simpl. rewrite Hu. reflexivity.
Qed.

(** A refused token on a protected operation: the endpoint is not
    run, the answer is 401 and the store is as it was. *)
Lemma serve_refused_token (now : Z) (tok : token) (op : operation)
    (store : tables) :
  protected op = true ->
  refused now store tok ->
  serve now (mkRequest (Some tok) op) store
  = (mkResponse 401 (Detail "Could not validate credentials"), store).
Proof.
  intros Hop Href.
  apply serve_raise with (e := credentials_exception)
                         (w' := mkWorld store store now).
  assert (Hdep : depends_get_current_user (mkRequest (Some tok) op)
                   (mkWorld store store now)
                 = (Raise credentials_exception, mkWorld store store now)).
  { unfold depends_get_current_user, oauth2_scheme, bind, ret.
    cbn [authorization]. rewrite get_current_user_resolve.
    cbn [clock pending]. rewrite (refused_resolve _ _ _ Href). reflexivity. }
  unfold dispatch. destruct op; try discriminate Hop; cbn [target];
    unfold bind at 1; rewrite Hdep; reflexivity.
Qed.

(** C1. A token that [signin] issued for an existing user (the access token
    and the refresh token alike), presented to [get_current_user] up to its
    expiry, returns the row of that same user: on the store as [signin]
    left it, and on any later store in which that row is still the one of
    the user's email. A token that is malformed, whose signature was
    tampered with, that is past its expiry, or whose subject no stored user
    has, fails with [HTTPException 401] and returns no user; an operation
    that is protected then answers 401 and leaves the store as it was. *)
Theorem C1_resolve_issued_and_refused :
  (forall (user : UserSignin.t) (w w' : world) (a r : token),
      signin user w = (Return (a, r), w') ->
      exists db_user,
        authenticate_user (UserSignin.email user) (UserSignin.password user) w
        = (Return (PyUser db_user), w)
        /\ (forall now, now <= clock w + 15 * 60 ->
              get_current_user a (at_time now w')
              = (Return (with_refresh_token (Some r) db_user), at_time now w'))
        /\ (forall now, now <= clock w + 7 * 24 * 60 * 60 ->
              get_current_user r (at_time now w')
              = (Return (with_refresh_token (Some r) db_user), at_time now w'))
        /\ (forall later u,
              first (select_users_by_email (u_email db_user) (pending later))
              = Some u ->
              (clock later <= clock w + 15 * 60 ->
               get_current_user a later = (Return u, later))
              /\ (clock later <= clock w + 7 * 24 * 60 * 60 ->
                  get_current_user r later = (Return u, later))))
  /\ (forall (tok : token) (w : world),
        refused (clock w) (pending w) tok ->
        get_current_user tok w
        = (Raise (HTTPException 401 "Could not validate credentials"), w)
        /\ forall u w', get_current_user tok w <> (Return u, w'))
  /\ (forall (now : Z) (tok : token) (op : operation) (store : tables),
        protected op = true ->
        refused now store tok ->
        serve now (mkRequest (Some tok) op) store
        = (mkResponse 401 (Detail "Could not validate credentials"), store)).
Proof.
  split; [|split].
  - intros user w w' a r Hsignin.
    destruct (signin_returns _ _ _ _ _ Hsignin)
      as (db_user & Hu & Hv & Ha & Hr & Hw').
    exists db_user.
    destruct (first_filter_holds _ _ _ Hu) as [Hemail _].
    apply String.eqb_eq in Hemail.
    assert (Hstored :
              first (select_users_by_email (u_email db_user)
                       (update_refresh_token (Some r) (u_id db_user) (pending w)))
              = Some (with_refresh_token (Some r) db_user)).
    { apply select_after_signin; [rewrite Hemail; exact Hu | reflexivity]. }
    split; [|split; [|split]].
    + unfold authenticate_user. run_monad. rewrite Hu, Hv. reflexivity.
    + intros now Hnow. rewrite get_current_user_resolve. f_equal.
      rewrite Hw'. simpl pending. simpl clock. rewrite Ha at 1.
      exact (issued_token_resolves "access_token" (15 * 60) now w _
               (with_refresh_token (Some r) db_user) Hnow Hstored).
    + intros now Hnow. rewrite get_current_user_resolve. f_equal.
      rewrite Hw'. simpl pending. simpl clock.
      set (t' := update_refresh_token (Some r) (u_id db_user) (pending w)) in *.
      set (u' := with_refresh_token (Some r) db_user) in *.
      rewrite Hr.
      exact (issued_token_resolves "refresh_token" (7 * 24 * 60 * 60) now w t'
               u' Hnow Hstored).
    + intros later u Hlater.
      assert (Hsame : u_email u = u_email db_user).
      { destruct (first_filter_holds _ _ _ Hlater) as [He _].
        apply String.eqb_eq in He. exact He. }
      rewrite <- Hsame in Hlater.
      split; intros Hnow; rewrite get_current_user_resolve; f_equal.
      * rewrite Ha, <- Hsame.
        exact (issued_token_resolves "access_token" (15 * 60) (clock later) w _
                 u Hnow Hlater).
      * rewrite Hr, <- Hsame.
        exact (issued_token_resolves "refresh_token" (7 * 24 * 60 * 60)
                 (clock later) w _ u Hnow Hlater).
  - intros tok w Href. rewrite get_current_user_resolve.
    rewrite (refused_resolve _ _ _ Href). split; [reflexivity|].
    intros u w' H. discriminate H.
  - apply serve_refused_token.
Qed.

(** *** C2: the two failures of sign-in *)

Lemma signin_refused (user : UserSignin.t) (w : world) :
  authenticate_user (UserSignin.email user) (UserSignin.password user) w
  = (Return PyFalse, w) ->
  signin user w = (Raise (HTTPException 400 "Incorrect email or password"), w).
Proof.
  intros H. unfold signin, bind. rewrite H. reflexivity.
Qed.

Lemma serve_signin_refused (now : Z) (auth : option token)
    (username password : string) (store : tables) :
  authenticate_user username password (mkWorld store store now)
  = (Return PyFalse, mkWorld store store now) ->
  serve now (mkRequest auth (Signin username password)) store
  = (mkResponse 400 (Detail "Incorrect email or password"), store).
Proof.
  intros H. unfold serve, session, dispatch, login, guarded, try_except, bind.
  cbn [target]. cbv beta.
  rewrite (signin_refused (UserSignin.mk username password) _ H).
  reflexivity.
Qed.

(** C2. On any store, [authenticate_user] returns the same value [False]
    when the email matches no user and when the password does not verify
    against the stored hash; [signin] then raises the same
    [HTTPException 400] with the same detail, the endpoint answers the same
    response, and the store is left as it was: the caller cannot tell the
    two causes apart. *)
Theorem C2_signin_failures_indistinguishable
    (w : world) (email1 password1 email2 password2 : string) (u : user_row) :
  select_users_by_email email1 (pending w) = [] ->
  first (select_users_by_email email2 (pending w)) = Some u ->
  pwd_context_verify password2 (u_hashed_password u) = false ->
  authenticate_user email1 password1 w = (Return PyFalse, w)
  /\ authenticate_user email2 password2 w = (Return PyFalse, w)
  /\ signin (UserSignin.mk email1 password1) w
     = (Raise (HTTPException 400 "Incorrect email or password"), w)
  /\ signin (UserSignin.mk email2 password2) w
     = signin (UserSignin.mk email1 password1) w
  /\ (forall now auth store,
         pending w = store ->
         serve now (mkRequest auth (Signin email1 password1)) store
         = (mkResponse 400 (Detail "Incorrect email or password"), store)
         /\ serve now (mkRequest auth (Signin email2 password2)) store
            = serve now (mkRequest auth (Signin email1 password1)) store).
Proof.
  intros Hnone Hsome Hverify.
  assert (H1 : forall w', pending w' = pending w ->
                 authenticate_user email1 password1 w' = (Return PyFalse, w')).
  { intros w' Hw'. unfold authenticate_user. run_monad.
    rewrite Hw', Hnone. reflexivity. }
  assert (H2 : forall w', pending w' = pending w ->
                 authenticate_user email2 password2 w' = (Return PyFalse, w')).
  { intros w' Hw'. unfold authenticate_user. run_monad.
    rewrite Hw', Hsome. simpl. rewrite Hverify. reflexivity. }
  split; [apply H1; reflexivity|].
  split; [apply H2; reflexivity|].
  split; [apply signin_refused, H1; reflexivity|].
  split.
  - rewrite !signin_refused; auto.
  - intros now auth store Hstore.
    rewrite !serve_signin_refused; auto.
Qed.

(** *** C3: author resolution *)

Lemma fold_max_ge (a : Z) (l : list Z) :
  a <= fold_right Z.max a l /\ forall x, In x l -> x <= fold_right Z.max a l.
Proof.
  induction l as [|y l [IHa IHl]]; simpl.
  - split; [lia | contradiction].
  - split; [lia|]. intros x [<-|Hx]; [lia|]. specialize (IHl x Hx). lia.
Qed.

Lemma max_opt_ge (x : Z) (l : list Z) :
  In x l -> exists m, max_opt l = Some m /\ x <= m.
Proof.
  destruct l as [|a l]; [contradiction|]. intros Hin. simpl.
  exists (fold_right Z.max a l). split; [reflexivity|].
  destruct (fold_max_ge a l) as [Ha Hl].
  destruct Hin as [<-|Hx]; auto.
Qed.

Lemma next_id_pos (ids : list Z) : 1 <= next_id ids.
Proof.
  unfold next_id. destruct (fold_max_ge 0 ids) as [H _]. lia.
Qed.

Lemma next_id_fresh (ids : list Z) : ~ In (next_id ids) ids.
Proof.
  unfold next_id. intros Hin.
  destruct (fold_max_ge 0 ids) as [_ H]. specialize (H _ Hin). lia.
Qed.

Lemma select_author_ids_insert (full_name name : string) (t : tables) :
  select_author_ids name (insert_author full_name t)
  = (select_author_ids name t
     ++ if String.eqb full_name name
        then [next_id (map a_id (authors t))] else [])%list.
Proof.
  unfold select_author_ids, insert_author. simpl.
  rewrite filter_app, map_app. simpl.
  destruct (String.eqb full_name name); reflexivity.
Qed.

(** Author resolution always returns for a name that is not blank: the id
    it found, or the id of the row it inserted and committed. *)
Lemma get_or_create_author_runs (full_name : string) (w : world) :
  PyStr.strip full_name <> "" ->
  exists id,
    _get_or_create_author full_name w
    = (Return id,
       if author_found full_name (pending w) then w
       else committing (insert_author full_name) w)
    /\ id <> 0
    /\ (author_found full_name (pending w) = true ->
        first (select_author_ids full_name (pending w)) = Some id).
Proof.
  intros Hname. unfold _get_or_create_author, author_found.
  destruct (String.eqb_spec (PyStr.strip full_name) ""); [contradiction|].
  run_monad.
  destruct (id_truthy (first (select_author_ids full_name (pending w)))) eqn:Hf.
  - destruct (first (select_author_ids full_name (pending w))) as [id|];
      [|discriminate].
    exists id. simpl in Hf. apply negb_true_iff, Z.eqb_neq in Hf. auto.
  - unfold select_last_author_id. rewrite select_author_ids_insert.
    rewrite String.eqb_refl.
    set (new := next_id (map a_id (authors (pending w)))).
    destruct (max_opt_ge new (select_author_ids full_name (pending w) ++ [new]))
      as (m & Hm & Hle); [apply in_or_app; right; left; reflexivity|].
    rewrite Hm. pose proof (next_id_pos (map a_id (authors (pending w)))) as Hp.
    assert (Hm0 : (m =? 0) = false) by (apply Z.eqb_neq; fold new in Hp; lia).
    simpl. rewrite Hm0. simpl. exists m.
    split; [reflexivity|]. split; [apply Z.eqb_neq; exact Hm0 | discriminate].
Qed.

Lemma author_blank (full_name : string) (w : world) :
  PyStr.strip full_name = "" ->
  _get_or_create_author full_name w
  = (Raise (HTTPException 400 "Author name cannot be empty"), w).
Proof.
  intros H. unfold _get_or_create_author. rewrite H. reflexivity.
Qed.

Lemma first_some_in {A : Type} (l : list A) (a : A) :
  first l = Some a -> In a l.
Proof. destruct l; simpl; [discriminate|]. intros [= ->]. auto. Qed.

Lemma author_found_iff (name : string) (t : tables) :
  author_ids_assigned t ->
  author_found name t = false -> select_author_ids name t = [].
Proof.
  intros Hids. unfold author_found, select_author_ids.
  destruct (filter (fun a => String.eqb (a_full_name a) name) (authors t))
    as [|a l] eqn:Hl; [reflexivity|].
  simpl. intros Hz. apply negb_false_iff, Z.eqb_eq in Hz.
  exfalso. apply (Hids a); [|exact Hz].
  assert (Hin : In a (filter (fun a => String.eqb (a_full_name a) name) (authors t)))
    by (rewrite Hl; left; reflexivity).
  apply filter_In in Hin. tauto.
Qed.

(** Resolving the very same name again finds the row of the first call:
    the same id comes back and no further row is inserted. *)
Lemma get_or_create_author_again (full_name : string) (w : world) :
  PyStr.strip full_name <> "" ->
  author_ids_assigned (pending w) ->
  exists id w1,
    _get_or_create_author full_name w = (Return id, w1)
    /\ _get_or_create_author full_name w1 = (Return id, w1)
    /\ (author_found full_name (pending w) = false ->
        select_author_ids full_name (pending w1) = [id]).
Proof.
  intros Hname Hids.
  destruct (get_or_create_author_runs full_name w Hname) as (id & Hrun & Hid & Hfound).
  destruct (author_found full_name (pending w)) eqn:Hf.
  - exists id, w. split; [exact Hrun|]. split; [|discriminate].
    destruct (get_or_create_author_runs full_name w Hname) as (id' & Hrun' & _).
    rewrite Hf in Hrun'. rewrite Hrun in Hrun'. exact Hrun.
  - exists id, (committing (insert_author full_name) w).
    split; [exact Hrun|].
    assert (Hsel : select_author_ids full_name
                     (pending (committing (insert_author full_name) w))
                   = [next_id (map a_id (authors (pending w)))]).
    { simpl. rewrite select_author_ids_insert, String.eqb_refl.
      rewrite (author_found_iff _ _ Hids Hf). reflexivity. }
    pose proof (next_id_pos (map a_id (authors (pending w)))) as Hpos.
    assert (Hf' : author_found full_name
                    (pending (committing (insert_author full_name) w)) = true).
    { unfold author_found. rewrite Hsel. simpl.
      apply negb_true_iff, Z.eqb_neq. lia. }
    destruct (get_or_create_author_runs full_name
                (committing (insert_author full_name) w) Hname)
      as (id2 & Hrun2 & _ & Hfound2).
    rewrite Hf' in Hrun2. specialize (Hfound2 Hf'). rewrite Hsel in Hfound2.
    simpl in Hfound2. injection Hfound2 as Hid2.
    assert (Hsame : id = next_id (map a_id (authors (pending w)))).
    { unfold _get_or_create_author in Hrun.
      destruct (String.eqb_spec (PyStr.strip full_name) ""); [contradiction|].
      unfold author_found in Hf. run_monad. rewrite Hf in Hrun.
      unfold select_last_author_id in Hrun.
      rewrite select_author_ids_insert, String.eqb_refl in Hrun.
      rewrite (author_found_iff _ _ Hids Hf) in Hrun. simpl in Hrun.
      destruct (next_id (map a_id (authors (pending w))) =? 0) eqn:Hz;
        simpl in Hrun; [apply Z.eqb_eq in Hz; lia|].
      injection Hrun as Hrun. symmetry. exact Hrun. }
    subst id2. rewrite <- Hsame in Hrun2. split; [exact Hrun2|].
    intros _. rewrite Hsel, Hsame. reflexivity.
Qed.

(** *** C4: the accounting of the bulk import *)

Lemma rstrip_cons (c : ascii) (r : string) :
  PyStr.isspace c = false ->
  PyStr.rstrip (String c r) = String c (PyStr.rstrip r).
Proof.
  intros Hc. simpl. rewrite Hc. destruct (PyStr.rstrip r); reflexivity.
Qed.

Lemma rstrip_unfold (c : ascii) (r : string) :
  PyStr.rstrip (String c r)
  = match PyStr.rstrip r with
    | EmptyString => if PyStr.isspace c then EmptyString else String c EmptyString
    | String d r' => String c (String d r')
    end.
Proof. reflexivity. Qed.

Lemma rstrip_idempotent (s : string) :
  PyStr.rstrip (PyStr.rstrip s) = PyStr.rstrip s.
Proof.
  induction s as [|c r IH]; [reflexivity|].
  rewrite (rstrip_unfold c r).
  destruct (PyStr.rstrip r) as [|d r'] eqn:Hr.
  - destruct (PyStr.isspace c) eqn:Hc; [reflexivity|].
    rewrite rstrip_unfold. simpl. rewrite Hc. reflexivity.
  - rewrite (rstrip_unfold c (String d r')). rewrite IH. reflexivity.
Qed.

Lemma lstrip_head (s : string) :
  PyStr.lstrip s = ""
  \/ exists c r, PyStr.lstrip s = String c r /\ PyStr.isspace c = false.
Proof.
  induction s as [|c r IH]; simpl; [left; reflexivity|].
  destruct (PyStr.isspace c) eqn:Hc; [exact IH|].
  right. exists c, r. auto.
Qed.

Lemma strip_idempotent (s : string) :
  PyStr.strip (PyStr.strip s) = PyStr.strip s.
Proof.
  unfold PyStr.strip.
  destruct (lstrip_head s) as [H|(c & r & H & Hc)]; rewrite H; [reflexivity|].
  rewrite (rstrip_cons c r Hc).
  change (PyStr.lstrip (String c (PyStr.rstrip r)))
    with (if PyStr.isspace c then PyStr.lstrip (PyStr.rstrip r)
          else String c (PyStr.rstrip r)).
  rewrite Hc. rewrite (rstrip_cons c _ Hc). rewrite rstrip_idempotent.
  reflexivity.
Qed.

(** [import_row] is the validation of the row, then author resolution and
    the insert of the book. *)
Lemma import_row_validated (raw : pyval) (w : world) :
  import_row raw w
  = match validated_row raw with
    | Raise e => (Raise e, w)
    | Return (title, author, year, g) =>
        (author_id <- _get_or_create_author author ;;
         insert_book title author_id year (Some g)) w
    end.
Proof.
  unfold import_row, validated_row, py_get, py_strip, no_attribute, coerce_year.
  destruct raw as [| | | | |l|d]; try reflexivity.
  unfold bind at 1. unfold ret at 1.
  destruct (py_or (dict_get "title" d) (PyStr "")) as [| | | |t| |];
    try reflexivity.
  unfold bind at 1. unfold ret at 1. unfold bind at 1. unfold ret at 1.
  destruct (py_or (dict_get "author" d) (PyStr "")) as [| | | |a| |];
    try reflexivity.
  unfold bind at 1. unfold ret at 1. unfold bind at 1. unfold ret at 1.
  unfold bind at 1. unfold ret at 1.
  destruct (String.eqb (PyStr.strip t) ""); [reflexivity|].
  destruct (String.eqb (PyStr.strip a) ""); [reflexivity|].
  destruct (as_int _) as [year|]; [|reflexivity].
  destruct ((year <? 1800) || (year >? CURRENT_YEAR)); [reflexivity|].
  destruct (in_book_genres (dict_get "genre" d)); reflexivity.
Qed.

Lemma insert_book_runs (title : string) (author_id year : Z)
    (genre : option string) (w : world) :
  insert_book title author_id year genre w
  = match books_check (new_book title author_id year genre w) with
    | Some msg => (Raise (DBAPIError msg), w)
    | None =>
        (Return tt, staging (add_book_row (new_book title author_id year genre w)) w)
    end.
Proof.
  unfold insert_book, new_book. run_monad.
  destruct (books_check _); reflexivity.
Qed.

Lemma mem_In (x : string) (l : list string) :
  PyStr.mem x l = true <-> In x l.
Proof.
  unfold PyStr.mem. rewrite existsb_exists. split.
  - intros (y & Hy & He). apply String.eqb_eq in He. subst. exact Hy.
  - intros H. exists x. split; [exact H | apply String.eqb_refl].
Qed.

(** What a validated row holds. *)
Lemma validated_row_fields (raw : pyval) (title author : string) (year : Z)
    (g : string) :
  validated_row raw = Return (title, author, year, g) ->
  title <> "" /\ PyStr.strip author <> "" /\ 1800 <= year <= CURRENT_YEAR
  /\ In g book_genres.
Proof.
  unfold validated_row.
  destruct raw as [| | | | |l|d]; try discriminate.
  destruct (py_or (dict_get "title" d) (PyStr "")) as [| | | |t| |];
    try discriminate.
  destruct (py_or (dict_get "author" d) (PyStr "")) as [| | | |a| |];
    try discriminate.
  destruct (String.eqb_spec (PyStr.strip t) ""); [discriminate|].
  destruct (String.eqb_spec (PyStr.strip a) ""); [discriminate|].
  destruct (as_int _) as [y|]; [|discriminate].
  destruct ((y <? 1800) || (y >? CURRENT_YEAR)) eqn:Hrange; [discriminate|].
  destruct (in_book_genres (dict_get "genre" d)) as [g'|] eqn:Hg; [|discriminate].
  intros [= <- <- <- <-].
  apply orb_false_iff in Hrange. destruct Hrange as [Hlo Hhi].
  apply Z.ltb_ge in Hlo. rewrite Z.gtb_ltb in Hhi. apply Z.ltb_ge in Hhi.
  rewrite strip_idempotent. repeat split; auto.
  unfold in_book_genres in Hg.
  destruct (dict_get "genre" d); try discriminate.
  destruct (PyStr.mem s book_genres) eqn:Hm; [|discriminate].
  injection Hg as <-. apply mem_In. exact Hm.
Qed.







Lemma endswith_cons (c : ascii) (r suffix : string) :
  PyStr.endswith (String c r) suffix
  = String.eqb (String c r) suffix || PyStr.endswith r suffix.
Proof. reflexivity. Qed.

Lemma endswith_json_not_csv (s : string) :
  PyStr.endswith s ".json" = true -> PyStr.endswith s ".csv" = false.
Proof.
  induction s as [|c r IH]; [discriminate|].
  rewrite !endswith_cons. intros H. apply orb_true_iff in H.
  destruct H as [H|H].
  - apply String.eqb_eq in H. injection H as -> ->. reflexivity.
  - rewrite (IH H), orb_false_r.
    destruct (String.eqb_spec (String c r) ".csv") as [E|]; [|reflexivity].
    injection E as _ ->. discriminate H.
Qed.


Lemma parse_upload_json (file : UploadFile) (w : world) :
  is_json file ->
  parse_upload file w
  = match json_loads (content file) with
    | Return (PyList items) => (Return (enumerate 1 items), w)
    | Return _ =>
        (Raise (HTTPException 400 "JSON must be an array of book objects"), w)
    | Raise e =>
        if is_JSONDecodeError e
        then (Raise (HTTPException 400 ("Invalid JSON: " ++ str_exn e)), w)
        else (Raise e, w)
    end.
Proof.
  unfold is_json, parse_upload. intros H.
  rewrite (endswith_json_not_csv _ H), H. run_monad.
  destruct (json_loads (content file)) as [[]|e]; reflexivity.
Qed.



(** *** C5: a JSON payload that is no array *)

Lemma bulk_import_not_array (file : UploadFile) (user : user_row) (v : pyval)
    (w : world) :
  is_json file -> json_loads (content file) = Return v -> is_array v = false ->
  bulk_import file user w
  = (Raise (HTTPException 400 "JSON must be an array of book objects"), w).
Proof.
  intros Hjson Hloads Harr. unfold bulk_import, bind.
  rewrite (parse_upload_json file w Hjson), Hloads.
  destruct v; try reflexivity. discriminate Harr.
Qed.

(** C5. When the text of a [.json] upload decodes to a value that is not an
    array, [bulk_import] raises [HTTPException 400] at once: the session is
    untouched, so no row was processed, no row inserted and no per-row error
    produced, and the endpoint answers 400 with the store as it was. *)
Theorem C5_non_array_json_rejected
    (file : UploadFile) (user : user_row) (v : pyval) :
  is_json file -> json_loads (content file) = Return v -> is_array v = false ->
  (forall w,
      bulk_import file user w
      = (Raise (HTTPException 400 "JSON must be an array of book objects"), w))
  /\ (forall now req store,
        target req = BulkImport file ->
        authenticated now store req user ->
        serve now req store
        = (mkResponse 400 (Detail "JSON must be an array of book objects"),
           store)).
Proof.
  intros Hjson Hloads Harr. split.
  - intros w. apply bulk_import_not_array with (v := v); assumption.
  - intros now req store Htarget Hauth.
    apply serve_raise with (w' := mkWorld store store now)
                           (e := HTTPException 400
                                   "JSON must be an array of book objects").
    unfold dispatch. rewrite Htarget. unfold bind.
    rewrite (depends_resolved req (mkWorld store store now) user Hauth).
    unfold bulk_import_books. unfold is_json in Hjson. rewrite Hjson.
    rewrite orb_true_r. cbn [negb].
    unfold try_except, bind.
    rewrite (bulk_import_not_array file user v _ Hjson Hloads Harr).
    reflexivity.
Qed.

(** *** C6: the year check on the three paths *)


Lemma year_test_false (y : Z) :
  (y <? 1800) || (y >? CURRENT_YEAR) = false <-> 1800 <= y <= CURRENT_YEAR.
Proof.
  rewrite orb_false_iff, Z.ltb_ge, Z.gtb_ltb, Z.ltb_ge. reflexivity.
Qed.

(** Resolving the token of a request reads the store and changes nothing. *)
Lemma depends_pure (req : request) (w : world) :
  exists o, depends_get_current_user req w = (o, w).
Proof.
  unfold depends_get_current_user, oauth2_scheme, bind, raise, ret.
  destruct (authorization req) as [tok|]; [|eexists; reflexivity].
  rewrite get_current_user_resolve.
  destruct (resolve (clock w) (pending w) tok); eexists; reflexivity.
Qed.















(** *** C7: the genre check, case-insensitive and exact *)

Lemma eq_ignore_case_lower (s t : string) :
  eq_ignore_case s t = String.eqb (PyStr.lower s) (PyStr.lower t).
Proof.
  revert t. induction s as [|a s IH]; intros [|b t]; simpl; try reflexivity.
  rewrite IH. destruct (Ascii.eqb _ _); reflexivity.
Qed.

Lemma book_genres_lower_text :
  book_genres_lower = ["fiction"; "non-fiction"; "science"; "history"].
Proof. reflexivity. Qed.

Lemma matches_genre_lower (genre canonical : string) :
  matches_genre genre canonical
  <-> In canonical book_genres /\ PyStr.lower genre = PyStr.lower canonical.
Proof.
  unfold matches_genre. rewrite eq_ignore_case_lower, String.eqb_eq. reflexivity.
Qed.

(** The validator of [BookCreate] accepts exactly the genres that match a
    canonical spelling case-insensitively, and returns that spelling. *)
Lemma create_genre_valid (genre canonical : string) :
  BookCreate.genre_valid genre = Return canonical <-> matches_genre genre canonical.
Proof.
  rewrite matches_genre_lower. unfold BookCreate.genre_valid.
  rewrite book_genres_lower_text. unfold book_genres, PyStr.mem. simpl existsb.
  destruct (String.eqb_spec (PyStr.lower genre) "fiction") as [E1|N1].
  { rewrite E1. simpl. split.
    - intros [= <-]. auto.
    - intros [[<-|[<-|[<-|[<-|[]]]]] H]; try discriminate H; reflexivity. }
  destruct (String.eqb_spec (PyStr.lower genre) "non-fiction") as [E2|N2].
  { rewrite E2. simpl. split.
    - intros [= <-]. auto.
    - intros [[<-|[<-|[<-|[<-|[]]]]] H]; try discriminate H; reflexivity. }
  destruct (String.eqb_spec (PyStr.lower genre) "science") as [E3|N3].
  { rewrite E3. simpl. split.
    - intros [= <-]. auto 6.
    - intros [[<-|[<-|[<-|[<-|[]]]]] H]; try discriminate H; reflexivity. }
  destruct (String.eqb_spec (PyStr.lower genre) "history") as [E4|N4].
  { rewrite E4. simpl. split.
    - intros [= <-]. auto 6.
    - intros [[<-|[<-|[<-|[<-|[]]]]] H]; try discriminate H; reflexivity. }
  simpl. split; [discriminate|].
  intros [Hin H].
  assert (Hl : In (PyStr.lower canonical) book_genres_lower)
    by (apply in_map; exact Hin).
  rewrite book_genres_lower_text, <- H in Hl.
  destruct Hl as [Hl|[Hl|[Hl|[Hl|[]]]]]; congruence.
Qed.


Lemma update_genre_valid (genre : string) :
  BookUpdate.genre_valid genre = BookCreate.genre_valid genre.
Proof. reflexivity. Qed.

Lemma canonical_strip (c : string) :
  In c book_genres -> PyStr.strip c = c /\ c <> "".
Proof.
  intros [<-|[<-|[<-|[<-|[]]]]]; split; try reflexivity; discriminate.
Qed.




Lemma create_book_blank (book : BookCreate.t) (user : user_row) (w : world) :
  PyStr.strip (BookCreate.author book) = "" ->
  create_book book user w
  = (Raise (HTTPException 400 "Author name cannot be empty"), w).
Proof.
  intros H. unfold create_book, bind. rewrite (author_blank _ w H). reflexivity.
Qed.

Lemma author_resolved_books (full_name : string) (w : world) :
  books (pending (author_resolved full_name w)) = books (pending w)
  /\ users (pending (author_resolved full_name w)) = users (pending w).
Proof.
  unfold author_resolved. destruct (author_found _ _); auto.
Qed.




Lemma create_validate_genre (body body' : BookCreate.t) :
  BookCreate.validate body = Return body' ->
  BookCreate.genre_valid (BookCreate.genre body) = Return (BookCreate.genre body').
Proof.
  unfold BookCreate.validate. cbv zeta.
  destruct (BookCreate.published_year_valid _); [|discriminate].
  destruct (BookCreate.genre_valid _); [|discriminate].
  intros [= <-]. reflexivity.
Qed.

Lemma update_validate_genre (body body' : BookUpdate.t) (genre : string) :
  BookUpdate.validate body = Return body' ->
  BookUpdate.genre body = Some genre ->
  exists canonical,
    BookUpdate.genre body' = Some canonical
    /\ BookUpdate.genre_valid genre = Return canonical.
Proof.
  unfold BookUpdate.validate. cbv zeta. intros H Hg. rewrite Hg in H.
  destruct (BookUpdate.min_length_1 (BookUpdate.title body)); [|discriminate].
  destruct (BookUpdate.min_length_1 (BookUpdate.author body)); [|discriminate].
  destruct (BookUpdate.optional BookUpdate.published_year_valid _);
    [|discriminate].
  unfold BookUpdate.optional in H.
  destruct (BookUpdate.genre_valid genre) as [c|] eqn:Hc; [|discriminate].
  injection H as <-. exists c. auto.
Qed.

Lemma genre_column_canonical (c : string) :
  In c book_genres -> genre_column c = Some c.
Proof.
  intros Hin. destruct (canonical_strip c Hin) as [Hs Hne].
  unfold genre_column. rewrite Hs.
  destruct (String.eqb_spec c ""); [contradiction | reflexivity].
Qed.



(** *** C8: the refresh token of a user record *)

(** Sign-in overwrites the one field in place: the table keeps its rows,
    and a row changes only in its refresh token, which becomes the new
    token for the rows of the user's id. *)
Lemma signin_overwrites (user : UserSignin.t) (w w' : world) (a r : token) :
  signin user w = (Return (a, r), w') ->
  exists db_user,
    first (select_users_by_email (UserSignin.email user) (pending w)) = Some db_user
    /\ users (committed w')
       = map (fun u => if u_id u =? u_id db_user
                       then with_refresh_token (Some r) u else u)
           (users (pending w)).
Proof.
  intros H. destruct (signin_returns _ _ _ _ _ H) as (u & Hu & _ & _ & _ & ->).
  exists u. split; [exact Hu | reflexivity].
Qed.

(** The service, given the email as a string, clears the field. *)
Lemma signout_clears (email : string) (w : world) :
  signout (Str email) w
  = (Return "Successfully logged out", committing (clear_refresh_token email) w)
  /\ forall u, In u (users (clear_refresh_token email (pending w))) ->
       u_email u = email -> u_refresh_token u = None.
Proof.
  split; [reflexivity|].
  intros u Hin He. unfold clear_refresh_token in Hin. simpl in Hin.
  apply in_map_iff in Hin. destruct Hin as (u0 & <- & _).
  destruct (String.eqb_spec (u_email u0) email) as [E|N]; [reflexivity|].
  contradiction.
Qed.

(** The endpoint hands the whole row of the current user to [signout]; the
    statement cannot bind it, so the endpoint raises and writes nothing. *)
Lemma logout_raises (current_user : user_row) (w : world) :
  logout current_user w
  = (Raise (HTTPException 500
              "Error signing out: unsupported type for a statement parameter: RowMapping"),
     w).
Proof. reflexivity. Qed.

Lemma serve_signout (now : Z) (auth : option token) (store : tables) :
  snd (serve now (mkRequest auth Signout) store) = store
  /\ forall user,
       authenticated now store (mkRequest auth Signout) user ->
       serve now (mkRequest auth Signout) store
       = (mkResponse 500
            (Detail "Error signing out: unsupported type for a statement parameter: RowMapping"),
          store).
Proof.
  destruct (depends_pure (mkRequest auth Signout) (mkWorld store store now))
    as [o Ho].
  assert (Hd : dispatch (mkRequest auth Signout) (mkWorld store store now)
               = (match o with
                  | Return _ =>
                      Raise (HTTPException 500
                               "Error signing out: unsupported type for a statement parameter: RowMapping")
                  | Raise e => Raise e
                  end, mkWorld store store now)).
  { unfold dispatch. cbn [target]. unfold bind at 1. rewrite Ho.
    destruct o; [|reflexivity]. unfold bind. rewrite logout_raises. reflexivity. }
  split.
  - destruct o; rewrite (serve_raise _ _ _ _ _ Hd); reflexivity.
  - intros user Hauth.
    rewrite (depends_resolved _ (mkWorld store store now) user Hauth) in Ho.
    injection Ho as <-. rewrite (serve_raise _ _ _ _ _ Hd). reflexivity.
Qed.

(** *** C9: what a failed operation leaves behind *)


Lemma session_return {A : Type} (work : M A) (w w' : world) (a : A) :
  work w = (Return a, w') ->
  session work w = (Return a, mkWorld (pending w') (pending w') (clock w')).
Proof.
  intros H. unfold session, try_except, bind. rewrite H. reflexivity.
Qed.



(** *** C10: the two read endpoints and the bearer token *)

(** A protected operation without a token is answered 401, and the store
    is as it was. *)
Lemma protected_needs_token (now : Z) (op : operation) (store : tables) :
  protected op = true ->
  serve now (mkRequest None op) store
  = (mkResponse 401 (Detail "Not authenticated"), store).
Proof.
  destruct op; simpl; intros H; try discriminate H; reflexivity.
Qed.

(** C10. Listing books and getting a book by its id do not pass through
    [get_current_user]: the response and the store afterwards are the same
    for any two requests that differ only in their bearer token, a request
    with no token among them. *)
Theorem C10_read_endpoints_ignore_token :
  (forall now store (auth1 auth2 : option token) (p : list_params),
      serve now (mkRequest auth1 (ListBooks p)) store
      = serve now (mkRequest auth2 (ListBooks p)) store)
  /\ (forall now store (auth1 auth2 : option token) (book_id : Z),
        serve now (mkRequest auth1 (GetBook book_id)) store
        = serve now (mkRequest auth2 (GetBook book_id)) store)
  /\ (forall (auth : option token) (op : operation) (w : world),
        protected op = false ->
        dispatch (mkRequest auth op) w = dispatch (mkRequest None op) w).
Proof.
  repeat apply conj.
  - intros. reflexivity.
  - intros. reflexivity.
  - intros auth op w. destruct op; simpl; intros H; try discriminate H;
      reflexivity.
Qed.

(** ** Further properties *)

(** *** Rules for specifications *)

Lemma triple_conseq {A : Type} (P P' : world -> Prop) (c : M A)
    (Q Q' : outcome A -> world -> Prop) :
  triple P' c Q' ->
  (forall w, P w -> P' w) -> (forall o w, Q' o w -> Q o w) ->
  triple P c Q.
Proof. intros H HP HQ w Hw. apply HQ, H, HP, Hw. Qed.

Lemma triple_ret {A : Type} (P : world -> Prop) (a : A)
    (R : A -> world -> Prop) (I : world -> Prop) :
  (forall w, P w -> I w /\ R a w) -> triple P (ret a) (on_return R I).
Proof. intros H w Hw. exact (H w Hw). Qed.

Lemma triple_raise {A : Type} (P : world -> Prop) (e : exn)
    (R : A -> world -> Prop) (I : world -> Prop) :
  (forall w, P w -> I w) -> triple P (raise e) (on_return R I).
Proof. intros H w Hw. split; [exact (H w Hw) | exact Logic.I]. Qed.

Lemma triple_lift {A : Type} (P : world -> Prop) (o : outcome A)
    (R : A -> world -> Prop) (I : world -> Prop) :
  (forall w, P w -> I w) ->
  (forall a w, o = Return a -> P w -> R a w) ->
  triple P (lift o) (on_return R I).
Proof.
  intros HI HR w Hw. split; [exact (HI w Hw)|].
  simpl. destruct o; [apply HR; auto | exact Logic.I].
Qed.

Lemma triple_bind {A B : Type} (P : world -> Prop) (c : M A) (k : A -> M B)
    (R1 : A -> world -> Prop) (R2 : B -> world -> Prop) (I : world -> Prop) :
  triple P c (on_return R1 I) ->
  (forall a, triple (fun w => I w /\ R1 a w) (k a) (on_return R2 I)) ->
  triple P (bind c k) (on_return R2 I).
Proof.
  intros Hc Hk w Hw. specialize (Hc w Hw). unfold bind.
  destruct (c w) as [[a|e] w1]; simpl in Hc.
  - exact (Hk a w1 Hc).
  - split; [apply Hc | exact Logic.I].
Qed.

Lemma triple_try {A : Type} (P : world -> Prop) (c : M A)
    (catches : exn -> bool) (h : exn -> M A)
    (R : A -> world -> Prop) (I : world -> Prop) :
  triple P c (on_return R I) ->
  (forall e, triple I (h e) (on_return R I)) ->
  triple P (try_except c catches h) (on_return R I).
Proof.
  intros Hc Hh w Hw. specialize (Hc w Hw). unfold try_except.
  destruct (c w) as [[a|e] w1]; simpl in Hc; [exact Hc|].
  destruct (catches e); [exact (Hh e w1 (proj1 Hc))|].
  split; [apply Hc | exact Logic.I].
Qed.

Lemma triple_query {A : Type} (P : world -> Prop) (f : tables -> A)
    (R : A -> world -> Prop) (I : world -> Prop) :
  (forall w, P w -> I w /\ R (f (pending w)) w) ->
  triple P (query f) (on_return R I).
Proof. intros H w Hw. exact (H w Hw). Qed.

Lemma triple_execute (P : world -> Prop) (f : tables -> tables)
    (R : unit -> world -> Prop) (I : world -> Prop) :
  (forall w, P w -> I (staging f w) /\ R tt (staging f w)) ->
  triple P (execute f) (on_return R I).
Proof. intros H w Hw. exact (H w Hw). Qed.

Lemma triple_commit (P : world -> Prop) (R : unit -> world -> Prop)
    (I : world -> Prop) :
  (forall w, P w -> I (committing (fun t => t) w)
                    /\ R tt (committing (fun t => t) w)) ->
  triple P commit (on_return R I).
Proof. intros H w Hw. exact (H w Hw). Qed.

Lemma triple_utcnow (P : world -> Prop) (R : Z -> world -> Prop)
    (I : world -> Prop) :
  (forall w, P w -> I w /\ R (clock w) w) ->
  triple P utcnow (on_return R I).
Proof. intros H w Hw. exact (H w Hw). Qed.

Lemma guarded_triple {A : Type} (P : world -> Prop) (prefix : string) (c : M A)
    (R : A -> world -> Prop) (I : world -> Prop) :
  triple P c (on_return R I) -> triple P (guarded prefix c) (on_return R I).
Proof.
  intros H. unfold guarded. apply triple_try; [exact H|].
  intros e. apply triple_raise. auto.
Qed.

(** *** Sequences of writes *)

Lemma reaches_trans (step : tables -> tables -> Prop) (a b c : tables) :
  reaches step a b -> reaches step b c -> reaches step a c.
Proof.
  intros Hab Hbc. induction Hbc as [|b c d Hbc IH Hcd]; [exact Hab|].
  eapply reaches_next; [apply IH; exact Hab | exact Hcd].
Qed.

Lemma reaches_invariant (step : tables -> tables -> Prop) (I : tables -> Prop) :
  (forall t t', I t -> step t t' -> I t') ->
  forall a b, reaches step a b -> I a -> I b.
Proof.
  intros Hstep a b Hab Ha. induction Hab as [|a b c Hab IH Hbc]; [exact Ha|].
  eapply Hstep; [apply IH; exact Ha | exact Hbc].
Qed.

Lemma within_staging (step : tables -> tables -> Prop) (origin : tables)
    (f : tables -> tables) (w : world) :
  within step origin w -> step (pending w) (f (pending w)) ->
  within step origin (staging f w).
Proof.
  intros [Hc Hp] Hstep. split; [exact Hc|].
  eapply reaches_next; [exact Hp | exact Hstep].
Qed.

Lemma within_commit (step : tables -> tables -> Prop) (origin : tables)
    (w : world) :
  within step origin w -> within step origin (committing (fun t => t) w).
Proof. intros [Hc Hp]. split; exact Hp. Qed.

Lemma within_committing (step : tables -> tables -> Prop) (origin : tables)
    (f : tables -> tables) (w : world) :
  within step origin w -> step (pending w) (f (pending w)) ->
  within step origin (committing f w).
Proof.
  intros [Hc Hp] Hstep.
  split; (eapply reaches_next; [exact Hp | exact Hstep]).
Qed.

Ltac kept :=
  unfold anything; intros;
  repeat match goal with H : _ /\ _ |- _ => destruct H end;
  repeat split; auto.

(** *** Well-formed stores *)

Lemma NoDup_snoc {A : Type} (l : list A) (x : A) :
  NoDup l -> ~ In x l -> NoDup (l ++ [x]).
Proof.
  induction l as [|a l IH]; simpl; intros Hl Hx.
  - constructor; [intros [] | constructor].
  - inversion Hl as [|? ? Ha Hl']; subst. constructor.
    + rewrite in_app_iff. simpl. intros [H|[H|[]]]; [contradiction|].
      apply Hx. left. symmetry. exact H.
    + apply IH; [exact Hl'|]. intros H. apply Hx. right. exact H.
Qed.

Lemma ids_ok_snoc (ids : list Z) : ids_ok ids -> ids_ok (ids ++ [next_id ids]).
Proof.
  intros [Hn Hp]. split.
  - apply NoDup_snoc; [exact Hn | apply next_id_fresh].
  - apply Forall_app. split; [exact Hp|].
    constructor; [apply next_id_pos | constructor].
Qed.

Lemma filter_keeps_distinct {Row Key : Type} (key : Row -> Key)
    (keep : Row -> bool) (rows : list Row) (Hrows : NoDup (map key rows)) :
  NoDup (map key (filter keep rows)).
Proof.
  induction rows as [|r rows IH]; simpl in *; [exact Hrows|].
  inversion Hrows as [|? ? Hr Hrest]; subst.
  destruct (keep r); simpl; [|apply IH; exact Hrest].
  constructor; [|apply IH; exact Hrest].
  intros Hin. apply Hr. apply in_map_iff in Hin as (x & Hx & Hin).
  apply filter_In in Hin as [Hin _]. apply in_map_iff. exists x. auto.
Qed.

Lemma ids_ok_filter {A : Type} (f : A -> Z) (p : A -> bool) (l : list A) :
  ids_ok (map f l) -> ids_ok (map f (filter p l)).
Proof.
  intros [Hn Hp]. split; [apply filter_keeps_distinct; exact Hn|].
  rewrite Forall_forall in *. intros x Hx.
  apply in_map_iff in Hx as (a & <- & Ha). apply filter_In in Ha as [Ha _].
  apply Hp. apply in_map. exact Ha.
Qed.

Lemma map_map_same {A B : Type} (g : A -> B) (f : A -> A) (l : list A) :
  (forall a, g (f a) = g a) -> map g (map f l) = map g l.
Proof. intros H. rewrite map_map. apply map_ext. exact H. Qed.

Lemma first_filter_some {A : Type} (p : A -> bool) (l : list A) (a : A) :
  In a l -> p a = true -> exists b, first (filter p l) = Some b.
Proof.
  intros Hin Hp.
  assert (H : In a (filter p l)) by (apply filter_In; auto).
  destruct (filter p l) as [|b r]; [contradiction|]. exists b. reflexivity.
Qed.

Lemma ids_ok_assigned (t : tables) :
  ids_ok (map a_id (authors t)) -> author_ids_assigned t.
Proof.
  intros [_ Hp] a Ha. rewrite Forall_forall in Hp.
  specialize (Hp (a_id a) (in_map a_id _ _ Ha)). lia.
Qed.

(** An email that [signup] does not find belongs to no user. *)
Lemma email_not_found (email : string) (t : tables) :
  ids_ok (map u_id (users t)) ->
  id_truthy (option_map u_id (first (select_users_by_email email t))) = false ->
  ~ In email (map u_email (users t)).
Proof.
  intros [_ Hp] Hf Hin. apply in_map_iff in Hin as (u & Hu & Hin).
  destruct (first_filter_some (fun u => String.eqb (u_email u) email) _ u Hin)
    as (b & Hb); [apply String.eqb_eq; exact Hu|].
  unfold select_users_by_email in Hf. rewrite Hb in Hf. simpl in Hf.
  apply negb_false_iff, Z.eqb_eq in Hf.
  apply first_filter_holds in Hb as [_ Hb]. rewrite Forall_forall in Hp.
  specialize (Hp (u_id b) (in_map u_id _ _ Hb)). lia.
Qed.

(** A name that author resolution does not find belongs to no author. *)
Lemma name_not_found (full_name : string) (t : tables) :
  ids_ok (map a_id (authors t)) ->
  author_found full_name t = false ->
  ~ In full_name (map a_full_name (authors t)).
Proof.
  intros Hids Hf Hin. apply in_map_iff in Hin as (a & Ha & Hin).
  pose proof (author_found_iff _ _ (ids_ok_assigned _ Hids) Hf) as Hsel.
  unfold select_author_ids in Hsel. apply map_eq_nil in Hsel.
  assert (H : In a (filter (fun a => String.eqb (a_full_name a) full_name)
                      (authors t)))
    by (apply filter_In; split; [exact Hin | apply String.eqb_eq; exact Ha]).
  rewrite Hsel in H. contradiction.
Qed.

Lemma user_step_ok (t t' : tables) : store_ok t -> user_step t t' -> store_ok t'.
Proof.
  intros [Hu Ha Hb He Hn Hr] Hstep.
  destruct Hstep as [t email username hashed Hfree | t rt id | t email].
  - constructor; simpl; auto.
    + rewrite map_app. simpl. apply ids_ok_snoc. exact Hu.
    + rewrite map_app. simpl. apply NoDup_snoc; [exact He|].
      apply email_not_found; assumption.
  - constructor; simpl; auto.
    + rewrite map_map_same; [exact Hu|].
      intros u. destruct (u_id u =? id); reflexivity.
    + rewrite map_map_same; [exact He|].
      intros u. destruct (u_id u =? id); reflexivity.
  - constructor; simpl; auto.
    + rewrite map_map_same; [exact Hu|].
      intros u. destruct (String.eqb (u_email u) email); reflexivity.
    + rewrite map_map_same; [exact He|].
      intros u. destruct (String.eqb (u_email u) email); reflexivity.
Qed.

Lemma insert_author_ok (t : tables) (full_name : string) :
  store_ok t -> author_found full_name t = false ->
  store_ok (insert_author full_name t).
Proof.
  intros [Hu Ha Hb He Hn Hr] Hfree. constructor; simpl; auto.
  - rewrite map_app. simpl. apply ids_ok_snoc. exact Ha.
  - rewrite map_app. simpl. apply NoDup_snoc; [exact Hn|].
    apply name_not_found; assumption.
  - intros b Hin. rewrite map_app. apply in_or_app. left. apply Hr, Hin.
Qed.

Lemma add_book_row_ok (t : tables) (row : book_row) :
  store_ok t -> b_id row = next_id (map b_id (books t)) ->
  In (b_author_id row) (map a_id (authors t)) ->
  store_ok (add_book_row row t).
Proof.
  intros [Hu Ha Hb He Hn Hr] Hid Hauthor. constructor; simpl; auto.
  - rewrite map_app. simpl. rewrite Hid. apply ids_ok_snoc. exact Hb.
  - intros b Hin. apply in_app_or in Hin as [Hin|[<-|[]]]; auto.
Qed.

Lemma update_book_row_ok (t : tables) (f : update_fields) (book_id : Z) :
  store_ok t ->
  (forall author_id, set_author_id f = Some author_id ->
                     In author_id (map a_id (authors t))) ->
  store_ok (update_book_row f book_id t).
Proof.
  intros [Hu Ha Hb He Hn Hr] Hauthor. constructor; simpl; auto.
  - rewrite map_map_same; [exact Hb|].
    intros b. destruct (b_id b =? book_id); reflexivity.
  - intros b Hin. apply in_map_iff in Hin as (b0 & <- & Hin).
    destruct (b_id b0 =? book_id); [|apply Hr, Hin]. simpl.
    destruct (set_author_id f) as [aid|] eqn:Hset; simpl;
      [apply Hauthor; reflexivity | apply Hr, Hin].
Qed.

Lemma delete_book_row_ok (t : tables) (book_id : Z) :
  store_ok t -> store_ok (delete_book_row book_id t).
Proof.
  intros [Hu Ha Hb He Hn Hr]. constructor; simpl; auto.
  - apply ids_ok_filter. exact Hb.
  - intros b Hin. apply filter_In in Hin as [Hin _]. apply Hr, Hin.
Qed.

Lemma book_step_ok (t t' : tables) : store_ok t -> book_step t t' -> store_ok t'.
Proof.
  intros Hok Hstep.
  destruct Hstep as [t name Hfree | t row Hid Hauthor _ | t f id Hauthor _ | t id].
  - apply insert_author_ok; assumption.
  - apply add_book_row_ok; assumption.
  - apply update_book_row_ok; assumption.
  - apply delete_book_row_ok; assumption.
Qed.

Lemma user_step_frame (t t' : tables) :
  user_step t t' ->
  authors t' = authors t /\ books t' = books t
  /\ exists added, map account (users t') = (map account (users t) ++ added)%list.
Proof.
  intros [t0 email username hashed Hfree | t0 rt id | t0 email]; simpl;
    (split; [reflexivity|]); (split; [reflexivity|]).
  - eexists. rewrite map_app. reflexivity.
  - exists []. rewrite app_nil_r. apply map_map_same.
    intros u. destruct (u_id u =? id); reflexivity.
  - exists []. rewrite app_nil_r. apply map_map_same.
    intros u. destruct (String.eqb (u_email u) email); reflexivity.
Qed.

Lemma book_step_frame (t t' : tables) :
  book_step t t' ->
  users t' = users t
  /\ exists added, authors t' = (authors t ++ added)%list.
Proof.
  intros [t0 name Hfree | t0 row Hid Hauthor _ | t0 f id Hauthor _ | t0 id];
    simpl; (split; [reflexivity|]).
  - eexists. reflexivity.
  - exists []. rewrite app_nil_r. reflexivity.
  - exists []. rewrite app_nil_r. reflexivity.
  - exists []. rewrite app_nil_r. reflexivity.
Qed.

Lemma user_steps_frame (t t' : tables) :
  reaches user_step t t' ->
  authors t' = authors t /\ books t' = books t
  /\ exists added, map account (users t') = (map account (users t) ++ added)%list.
Proof.
  induction 1 as [t|t t' t'' _ (Ha & Hb & added & Hu) Hstep].
  - repeat split. exists []. rewrite app_nil_r. reflexivity.
  - destruct (user_step_frame _ _ Hstep) as (Ha' & Hb' & added' & Hu').
    split; [congruence|]. split; [congruence|].
    exists (added ++ added')%list. rewrite Hu', Hu, app_assoc. reflexivity.
Qed.

Lemma book_steps_frame (t t' : tables) :
  reaches book_step t t' ->
  users t' = users t
  /\ exists added, authors t' = (authors t ++ added)%list.
Proof.
  induction 1 as [t|t t' t'' _ (Hu & added & Ha) Hstep].
  - split; [reflexivity|]. exists []. rewrite app_nil_r. reflexivity.
  - destruct (book_step_frame _ _ Hstep) as (Hu' & added' & Ha').
    split; [congruence|].
    exists (added ++ added')%list. rewrite Ha', Ha, app_assoc. reflexivity.
Qed.

(** *** The writes of the book services *)

Lemma max_opt_in (l : list Z) (m : Z) : max_opt l = Some m -> In m l.
Proof.
  destruct l as [|a l]; simpl; [discriminate|]. intros [= <-].
  revert a. induction l as [|b l IH]; intros a; simpl; [left; reflexivity|].
  destruct (Z.max_spec b (fold_right Z.max a l)) as [[_ ->]|[_ ->]].
  - destruct (IH a) as [H|H]; [left; exact H | right; right; exact H].
  - right. left. reflexivity.
Qed.

Lemma select_author_ids_in (full_name : string) (t : tables) (id : Z) :
  In id (select_author_ids full_name t) <-> In (mkAuthor id full_name) (authors t).
Proof.
  unfold select_author_ids. rewrite in_map_iff. split.
  - intros (a & <- & Ha). apply filter_In in Ha as [Ha Hn].
    apply String.eqb_eq in Hn. subst full_name. destruct a. exact Ha.
  - intros Ha. exists (mkAuthor id full_name). split; [reflexivity|].
    apply filter_In. split; [exact Ha | apply String.eqb_refl].
Qed.

(** The id that author resolution returns is the id of a row of that very
    name in the store it leaves. *)
Lemma get_or_create_author_post (full_name : string) (w w1 : world) (id : Z) :
  _get_or_create_author full_name w = (Return id, w1) ->
  id <> 0 /\ In (mkAuthor id full_name) (authors (pending w1)).
Proof.
  destruct (String.eqb_spec (PyStr.strip full_name) "") as [Hb|Hb].
  - rewrite (author_blank _ _ Hb). discriminate.
  - destruct (get_or_create_author_runs full_name w Hb) as (id' & Hrun & Hid & Hfound).
    rewrite Hrun. intros [= <- <-]. split; [exact Hid|].
    destruct (author_found full_name (pending w)) eqn:Hf.
    + apply select_author_ids_in. apply first_some_in. apply Hfound. reflexivity.
    + apply select_author_ids_in, max_opt_in.
      change (select_last_author_id full_name
                (insert_author full_name (pending w)) = Some id').
      unfold _get_or_create_author in Hrun.
      destruct (String.eqb_spec (PyStr.strip full_name) ""); [contradiction|].
      unfold author_found in Hf.
      unfold bind, query, execute, commit, ret, raise in Hrun. simpl in Hrun.
      rewrite Hf in Hrun.
      destruct (select_last_author_id full_name
                  (insert_author full_name (pending w))) as [m|];
        simpl in Hrun; [|discriminate].
      destruct (m =? 0); simpl in Hrun; [discriminate|].
      injection Hrun as ->. reflexivity.
Qed.

Lemma get_or_create_author_triple (origin : tables) (P : world -> Prop)
    (full_name : string) :
  (forall w, P w -> within book_step origin w) ->
  triple P (_get_or_create_author full_name)
    (on_return (fun id w => In id (map a_id (authors (pending w))))
       (within book_step origin)).
Proof.
  intros HP w Hw. apply HP in Hw.
  destruct (String.eqb_spec (PyStr.strip full_name) "") as [Hb|Hb].
  - rewrite (author_blank _ _ Hb). split; [exact Hw | exact Logic.I].
  - destruct (get_or_create_author_runs full_name w Hb) as (id & Hrun & _).
    pose proof (get_or_create_author_post _ _ _ _ Hrun) as [_ Hin].
    rewrite Hrun. simpl. split.
    + destruct (author_found full_name (pending w)) eqn:Hf; [exact Hw|].
      apply within_committing; [exact Hw|]. constructor. exact Hf.
    + apply (in_map a_id) in Hin. exact Hin.
Qed.

Lemma insert_book_triple (origin : tables) (P : world -> Prop) (title : string)
    (author_id year : Z) (genre : string) :
  1800 <= year <= CURRENT_YEAR -> In genre book_genres ->
  (forall w, P w -> within book_step origin w
                    /\ In author_id (map a_id (authors (pending w)))) ->
  triple P (insert_book title author_id year (Some genre))
    (on_return anything (within book_step origin)).
Proof.
  intros Hyear Hgenre HP w Hw. apply HP in Hw as [Hw Hin].
  rewrite insert_book_runs.
  destruct (books_check (new_book title author_id year (Some genre) w)); simpl.
  - split; [exact Hw | exact Logic.I].
  - split; [|exact Logic.I]. apply within_staging; [exact Hw|].
    apply (step_book (pending w) (new_book title author_id year (Some genre) w));
      [reflexivity | exact Hin |].
    split; [exact Hyear | exists genre; auto].
Qed.

Lemma get_book_triple (P I : world -> Prop) (book_id : Z) :
  (forall w, P w -> I w) ->
  triple P (get_book book_id) (on_return anything I).
Proof.
  intros HP. unfold get_book.
  eapply triple_bind with (R1 := anything).
  - apply triple_query. intros w Hw. split; [auto | exact Logic.I].
  - intros result. destruct (first result).
    + apply triple_lift; [tauto | intros; exact Logic.I].
    + apply triple_raise. tauto.
Qed.

Lemma create_book_triple (origin : tables) (P : world -> Prop)
    (book : BookCreate.t) (user : user_row) :
  1800 <= BookCreate.published_year book <= CURRENT_YEAR ->
  In (BookCreate.genre book) book_genres ->
  (forall w, P w -> within book_step origin w) ->
  triple P (create_book book user)
    (on_return anything (within book_step origin)).
Proof.
  intros Hyear Hgenre HP. unfold create_book.
  eapply triple_bind; [apply get_or_create_author_triple; exact HP|].
  intros author_id. fold (genre_column (BookCreate.genre book)).
  rewrite (genre_column_canonical _ Hgenre).
  eapply triple_bind with (R1 := anything);
    [apply insert_book_triple; [exact Hyear | exact Hgenre | tauto]|]. intros ?.
  eapply triple_bind with (R1 := anything).
  { apply triple_commit. intros w [Hw _].
    split; [apply within_commit; exact Hw | exact Logic.I]. }
  intros ?. eapply triple_bind with (R1 := anything).
  { apply triple_query. intros w [Hw _]. split; [exact Hw | exact Logic.I]. }
  intros result. destruct (first result).
  - apply triple_lift; [tauto | intros; exact Logic.I].
  - apply triple_raise. tauto.
Qed.

Lemma update_book_triple (origin : tables) (P : world -> Prop) (book_id : Z)
    (payload : BookUpdate.t) (user : user_row) :
  (forall author_id, fields_valid (fields_of payload author_id)) ->
  (forall w, P w -> within book_step origin w) ->
  triple P (update_book book_id payload user)
    (on_return anything (within book_step origin)).
Proof.
  intros Hvalid HP. unfold update_book. cbv zeta.
  eapply triple_bind with (R1 := anything).
  { apply triple_query. intros w Hw. split; [auto | exact Logic.I]. }
  intros res. destruct (negb (id_truthy (first res))).
  { apply triple_raise. tauto. }
  eapply triple_bind
    with (R1 := fun f_author w =>
                  forall author_id, f_author = Some author_id ->
                    In author_id (map a_id (authors (pending w)))).
  { destruct (str_truthy (BookUpdate.author payload)).
    - eapply triple_bind; [apply get_or_create_author_triple; tauto|].
      intros author_id. apply triple_ret. intros w [Hw Hin].
      split; [exact Hw|]. intros a [= <-]. exact Hin.
    - apply triple_ret. intros w [Hw _]. split; [exact Hw | discriminate]. }
  intros f_author. eapply triple_bind with (R1 := anything).
  { match goal with |- context [negb (no_fields ?f)] =>
      destruct (negb (no_fields f)) end.
    - eapply triple_bind with (R1 := anything).
      + apply triple_execute. intros w [Hw Hin].
        split; [|exact Logic.I]. apply within_staging; [exact Hw|].
        apply step_update; [exact Hin | exact (Hvalid f_author)].
      + intros ?. apply triple_commit. intros w [Hw _].
        split; [apply within_commit; exact Hw | exact Logic.I].
    - apply triple_ret. intros w [Hw _]. split; [exact Hw | exact Logic.I]. }
  intros ?. apply get_book_triple. tauto.
Qed.

Lemma delete_book_triple (origin : tables) (P : world -> Prop) (book_id : Z)
    (user : user_row) :
  (forall w, P w -> within book_step origin w) ->
  triple P (delete_book book_id user)
    (on_return anything (within book_step origin)).
Proof.
  intros HP. unfold delete_book.
  eapply triple_bind with (R1 := anything).
  { apply triple_query. intros w Hw. split; [auto | exact Logic.I]. }
  intros res. destruct (negb (id_truthy (first res))).
  { apply triple_ret. intros w [Hw _]. split; [exact Hw | exact Logic.I]. }
  eapply triple_bind with (R1 := anything).
  { apply triple_execute. intros w [Hw _]. split; [|exact Logic.I].
    apply within_staging; [exact Hw | apply step_delete]. }
  intros ?. eapply triple_bind with (R1 := anything).
  { apply triple_commit. intros w [Hw _].
    split; [apply within_commit; exact Hw | exact Logic.I]. }
  intros ?. apply triple_ret. intros w [Hw _]. split; [exact Hw | exact Logic.I].
Qed.

Lemma import_row_triple (origin : tables) (P : world -> Prop) (raw : pyval) :
  (forall w, P w -> within book_step origin w) ->
  triple P (import_row raw) (on_return anything (within book_step origin)).
Proof.
  intros HP w Hw. rewrite import_row_validated.
  destruct (validated_row raw) as [[[[title author] year] g]|e] eqn:Hraw.
  - destruct (validated_row_fields _ _ _ _ _ Hraw) as (_ & _ & Hyear & Hgenre).
    revert w Hw. change (triple P
      (author_id <- _get_or_create_author author ;;
       insert_book title author_id year (Some g))
      (on_return anything (within book_step origin))).
    eapply triple_bind; [apply get_or_create_author_triple; exact HP|].
    intros author_id. apply insert_book_triple; [exact Hyear | exact Hgenre | tauto].
  - split; [apply HP; exact Hw | exact Logic.I].
Qed.

Lemma import_rows_triple (origin : tables) (rows : list (Z * pyval)) :
  forall (P : world -> Prop) (inserted : Z) (errors : list (Z * string)),
    (forall w, P w -> within book_step origin w) ->
    triple P (import_rows rows inserted errors)
      (on_return anything (within book_step origin)).
Proof.
  induction rows as [|[idx raw] rest IH]; intros P inserted errors HP; simpl.
  - apply triple_ret. intros w Hw. split; [auto | exact Logic.I].
  - eapply triple_bind with (R1 := anything).
    + apply triple_try.
      * eapply triple_bind with (R1 := anything);
          [apply import_row_triple; exact HP|].
        intros ?. apply triple_ret. intros w [Hw _]. split; [exact Hw | exact Logic.I].
      * intros e. apply triple_ret. intros w Hw. split; [exact Hw | exact Logic.I].
    + intros r. apply IH. tauto.
Qed.

(** Reading an upload writes nothing. *)
Lemma parse_upload_triple (P I : world -> Prop) (file : UploadFile) :
  (forall w, P w -> I w) ->
  triple P (parse_upload file) (on_return anything I).
Proof.
  intros HP. unfold parse_upload. cbv zeta.
  destruct (PyStr.endswith (PyStr.lower (filename file)) ".csv").
  - apply triple_try.
    + eapply triple_bind with (R1 := anything).
      * apply triple_lift; [exact HP | intros; exact Logic.I].
      * intros reader. apply triple_ret. intros w [Hw _]. split; [exact Hw | exact Logic.I].
    + intros e. apply triple_raise. auto.
  - destruct (PyStr.endswith (PyStr.lower (filename file)) ".json").
    + apply triple_try.
      * eapply triple_bind with (R1 := anything).
        -- apply triple_lift; [exact HP | intros; exact Logic.I].
        -- intros data. destruct data;
             try (apply triple_raise; tauto).
           apply triple_ret. intros w [Hw _]. split; [exact Hw | exact Logic.I].
      * intros e. apply triple_raise. auto.
    + apply triple_raise. exact HP.
Qed.

Lemma bulk_import_triple (origin : tables) (P : world -> Prop)
    (file : UploadFile) (user : user_row) :
  (forall w, P w -> within book_step origin w) ->
  triple P (bulk_import file user)
    (on_return anything (within book_step origin)).
Proof.
  intros HP. unfold bulk_import.
  eapply triple_bind with (R1 := anything);
    [apply parse_upload_triple; exact HP|].
  intros rows. eapply triple_bind with (R1 := anything);
    [apply import_rows_triple; tauto|].
  intros r. eapply triple_bind with (R1 := anything).
  { apply triple_commit. intros w [Hw _].
    split; [apply within_commit; exact Hw | exact Logic.I]. }
  intros ?. apply triple_ret. intros w [Hw _]. split; [exact Hw | exact Logic.I].
Qed.

Lemma list_books_triple (P I : world -> Prop) (p : list_params) :
  (forall w, P w -> I w) ->
  triple P (list_books p) (on_return anything I).
Proof.
  intros HP. unfold list_books.
  destruct (allowed_sort_columns (sort_by_ p)); [|apply triple_raise; exact HP].
  destruct (negb (PyStr.mem (PyStr.lower (sort_order p)) ["asc"; "desc"]));
    [apply triple_raise; exact HP|].
  cbv zeta. eapply triple_bind with (R1 := anything).
  - apply triple_query. intros w Hw. split; [auto | exact Logic.I].
  - intros rows. apply triple_lift; [tauto | intros; exact Logic.I].
Qed.

(** *** The writes of the user services *)

Lemma signup_triple (origin : tables) (P : world -> Prop) (user : UserSignup.t) :
  (forall w, P w -> within user_step origin w) ->
  triple P (signup user) (on_return anything (within user_step origin)).
Proof.
  intros HP w Hw. apply HP in Hw. unfold signup, insert_user.
  unfold bind, query, execute, commit, ret, raise. cbn [pending].
  destruct (id_truthy
              (option_map u_id
                 (first (select_users_by_email (UserSignup.email user) (pending w)))))
    eqn:Hf; simpl.
  - split; [exact Hw | exact Logic.I].
  - split; [|exact Logic.I].
    apply (within_committing user_step origin
             (add_user_row (UserSignup.email user) (UserSignup.username user)
                (get_password_hash (UserSignup.password user))) w Hw).
    constructor. exact Hf.
Qed.

Lemma signin_triple (origin : tables) (P : world -> Prop) (user : UserSignin.t) :
  (forall w, P w -> within user_step origin w) ->
  triple P (signin user) (on_return anything (within user_step origin)).
Proof.
  intros HP w Hw. apply HP in Hw.
  unfold signin, authenticate_user, create_access_token, create_refresh_token.
  unfold bind, query, execute, commit, ret, raise, utcnow. cbn [pending].
  destruct (first (select_users_by_email (UserSignin.email user) (pending w)))
    as [u|]; simpl; [|split; [exact Hw | exact Logic.I]].
  destruct (pwd_context_verify (UserSignin.password user) (u_hashed_password u));
    simpl; (split; [|exact Logic.I]); [|exact Hw].
  match goal with
  | |- within _ _ (mkWorld (update_refresh_token ?rt ?id _) _ _) =>
      apply (within_committing user_step origin (update_refresh_token rt id) w Hw)
  end.
  constructor.
Qed.

Lemma signout_triple (origin : tables) (P : world -> Prop) (user_email : pyobj) :
  (forall w, P w -> within user_step origin w) ->
  triple P (signout user_email) (on_return anything (within user_step origin)).
Proof.
  intros HP w Hw. apply HP in Hw. unfold signout, bind_param.
  destruct user_email as [email|u]; simpl; (split; [|exact Logic.I]); [|exact Hw].
  apply (within_committing user_step origin (clear_refresh_token email) w Hw).
  constructor.
Qed.

(** *** The writes of a request *)

Lemma validate_create_fields (body body' : BookCreate.t) :
  BookCreate.validate body = Return body' ->
  BookCreate.title body' = BookCreate.title body
  /\ BookCreate.author body' = BookCreate.author body
  /\ BookCreate.published_year body' = BookCreate.published_year body
  /\ In (BookCreate.genre body') book_genres
  /\ 1800 <= BookCreate.published_year body' <= CURRENT_YEAR.
Proof.
  intros Hval.
  pose proof (create_validate_genre _ _ Hval) as Hg.
  apply create_genre_valid in Hg as [Hg _].
  unfold BookCreate.validate, BookCreate.published_year_valid in Hval.
  destruct ((BookCreate.published_year body <? 1800)
            || (BookCreate.published_year body >? CURRENT_YEAR)) eqn:Hy;
    [destruct (BookCreate.genre_valid (BookCreate.genre body)); discriminate|].
  destruct (BookCreate.genre_valid (BookCreate.genre body)); [|discriminate].
  injection Hval as <-. apply year_test_false in Hy. cbn. auto.
Qed.

Lemma validate_update_valid (body body' : BookUpdate.t) (author_id : option Z) :
  BookUpdate.validate body = Return body' ->
  fields_valid (fields_of body' author_id).
Proof.
  unfold BookUpdate.validate.
  destruct (BookUpdate.min_length_1 (BookUpdate.title body)) as [ti|];
    [|discriminate].
  destruct (BookUpdate.min_length_1 (BookUpdate.author body)) as [au|];
    [|discriminate].
  destruct (BookUpdate.optional BookUpdate.published_year_valid
              (BookUpdate.published_year body)) as [y|] eqn:Hy; [|discriminate].
  destruct (BookUpdate.optional BookUpdate.genre_valid (BookUpdate.genre body))
    as [g|] eqn:Hg; [|discriminate].
  intros [= <-]. split.
  - intros y0. unfold fields_of.
    cbn [set_published_year BookUpdate.published_year]. intros Hy0.
    destruct y as [y1|]; cbn [int_truthy] in Hy0; [|discriminate].
    destruct (negb (y1 =? 0)); [|discriminate]. injection Hy0 as ->.
    destruct (BookUpdate.published_year body) as [y2|]; [|discriminate].
    cbn [BookUpdate.optional] in Hy. unfold BookUpdate.published_year_valid in Hy.
    destruct ((y2 <? 1800) || (y2 >? CURRENT_YEAR)) eqn:Htest; [discriminate|].
    injection Hy as <-. apply year_test_false. exact Htest.
  - intros g0. unfold fields_of. cbn [set_genre BookUpdate.genre]. intros Hg0.
    destruct g as [g1|]; cbn [str_truthy] in Hg0; [|discriminate].
    destruct (negb (String.eqb g1 "")); [|discriminate].
    cbn [option_map] in Hg0. injection Hg0 as <-.
    destruct (BookUpdate.genre body) as [g2|]; [|discriminate].
    cbn [BookUpdate.optional] in Hg.
    destruct (BookUpdate.genre_valid g2) as [c|] eqn:Hc; [|discriminate].
    injection Hg as ->. rewrite update_genre_valid in Hc.
    apply create_genre_valid in Hc as [Hin _].
    rewrite (proj1 (canonical_strip _ Hin)). exact Hin.
Qed.

Lemma triple_pure {A : Type} (fact : Prop) (P : world -> Prop) (c : M A)
    (Q : outcome A -> world -> Prop) :
  (fact -> triple P c Q) -> triple (fun w => P w /\ fact) c Q.
Proof. intros H w [Hw Hfact]. exact (H Hfact w Hw). Qed.

Lemma depends_triple (P I : world -> Prop) (req : request) :
  (forall w, P w -> I w) ->
  triple P (depends_get_current_user req) (on_return anything I).
Proof.
  intros HP w Hw. destruct (depends_pure req w) as [o Ho]. rewrite Ho. simpl.
  split; [auto|]. destruct o; exact Logic.I.
Qed.

Lemma respond_triple (P I : world -> Prop) (c : M body) (code : Z) :
  triple P c (on_return anything I) ->
  triple P (b <- c ;; ret (mkResponse code b)) (on_return anything I).
Proof.
  intros H. eapply triple_bind; [exact H|].
  intros b. apply triple_ret. tauto.
Qed.

Lemma dispatch_user_steps (origin : tables) (req : request) :
  match target req with
  | Signup _ | Signin _ _ | Signout => True
  | _ => False
  end ->
  triple (within user_step origin) (dispatch req)
    (on_return anything (within user_step origin)).
Proof.
  unfold dispatch. destruct (target req); try contradiction; intros _.
  - eapply triple_bind with (R1 := anything);
      [apply triple_lift; [auto | intros; exact Logic.I]|].
    intros validated. apply respond_triple. apply guarded_triple.
    eapply triple_bind; [apply signup_triple; tauto|].
    intros r. apply triple_ret. tauto.
  - apply respond_triple. apply guarded_triple. cbv zeta.
    eapply triple_bind; [apply signin_triple; auto|].
    intros r. apply triple_ret. tauto.
  - eapply triple_bind; [apply depends_triple; auto|].
    intros user. apply respond_triple. apply guarded_triple.
    eapply triple_bind; [apply signout_triple; tauto|].
    intros r. apply triple_ret. tauto.
Qed.

Lemma dispatch_book_steps (origin : tables) (req : request) :
  match target req with
  | AddBook _ | UpdateBook _ _ | DeleteBook _ | BulkImport _ => True
  | _ => False
  end ->
  triple (within book_step origin) (dispatch req)
    (on_return anything (within book_step origin)).
Proof.
  unfold dispatch. destruct (target req); try contradiction; intros _.
  - eapply triple_bind; [apply depends_triple; auto|]. intros user.
    eapply triple_bind
      with (R1 := fun book' _ => BookCreate.validate book = Return book');
      [apply triple_lift; [tauto | intros a w Ha _; exact Ha]|].
    intros book'.
    apply (triple_pure (BookCreate.validate book = Return book')
             (within book_step origin)).
    intros Hval.
    destruct (validate_create_fields _ _ Hval) as (_ & _ & _ & Hgenre & Hyear).
    apply respond_triple. apply guarded_triple.
    eapply triple_bind; [apply create_book_triple; auto|].
    intros r. apply triple_ret. tauto.
  - eapply triple_bind; [apply depends_triple; auto|]. intros user.
    eapply triple_bind
      with (R1 := fun book' _ => BookUpdate.validate book = Return book');
      [apply triple_lift; [tauto | intros a w Ha _; exact Ha]|].
    intros book'.
    apply (triple_pure (BookUpdate.validate book = Return book')
             (within book_step origin)).
    intros Hval. apply respond_triple. apply guarded_triple.
    eapply triple_bind;
      [apply update_book_triple;
       [intros aid; exact (validate_update_valid _ _ aid Hval) | auto]|].
    intros r. apply triple_ret. tauto.
  - eapply triple_bind; [apply depends_triple; auto|]. intros user.
    apply respond_triple. apply guarded_triple.
    eapply triple_bind; [apply delete_book_triple; tauto|].
    intros deleted. destruct (negb deleted);
      [apply triple_raise | apply triple_ret]; tauto.
  - eapply triple_bind; [apply depends_triple; auto|]. intros user.
    apply respond_triple. unfold bulk_import_books.
    destruct (negb (PyStr.endswith (PyStr.lower (filename file)) ".csv"
                    || PyStr.endswith (PyStr.lower (filename file)) ".json")).
    + apply triple_raise. tauto.
    + apply triple_try.
      * eapply triple_bind; [apply bulk_import_triple; tauto|].
        intros r. apply triple_ret. tauto.
      * intros e. apply triple_raise. auto.
Qed.

Lemma dispatch_reads (I : world -> Prop) (req : request) :
  match target req with
  | ListBooks _ | GetBook _ => True
  | _ => False
  end ->
  triple I (dispatch req) (on_return anything I).
Proof.
  unfold dispatch. destruct (target req); try contradiction; intros _.
  - eapply triple_bind with (R1 := anything).
    + unfold validate_list_params.
      apply triple_lift; [auto | intros; exact Logic.I].
    + intros ?. apply respond_triple. unfold get_books. apply triple_try.
      * eapply triple_bind; [apply list_books_triple; tauto|].
        intros l. apply triple_ret. tauto.
      * intros e. apply triple_raise. auto.
  - apply respond_triple. apply guarded_triple.
    eapply triple_bind; [apply get_book_triple; auto|].
    intros l. apply triple_ret. tauto.
Qed.

Lemma serve_within (step : tables -> tables -> Prop) (now : Z) (req : request)
    (store : tables) :
  triple (within step store) (dispatch req)
    (on_return anything (within step store)) ->
  reaches step store (snd (serve now req store)).
Proof.
  intros H.
  assert (H0 : within step store (mkWorld store store now))
    by (split; apply reaches_here).
  specialize (H _ H0).
  destruct (dispatch req (mkWorld store store now)) as [[r|e] w'] eqn:Hd;
    simpl in H; destruct H as [[Hc Hp] _].
  - rewrite (serve_return _ _ _ _ _ Hd). exact Hp.
  - rewrite (serve_raise _ _ _ _ _ Hd). exact Hc.
Qed.

(** Every request is a sequence of guarded writes of one kind: the three
    account endpoints write to [users] only as [user_step] allows, the
    endpoints that change the catalogue write as [book_step] allows, and the
    two reading endpoints write nothing. *)
Lemma serve_writes (now : Z) (req : request) (store : tables) :
  match target req with
  | Signup _ | Signin _ _ | Signout =>
      reaches user_step store (snd (serve now req store))
  | ListBooks _ | GetBook _ => snd (serve now req store) = store
  | AddBook _ | UpdateBook _ _ | DeleteBook _ | BulkImport _ =>
      reaches book_step store (snd (serve now req store))
  end.
Proof.
  destruct (target req) eqn:Ht;
    try (apply serve_within, dispatch_user_steps; rewrite Ht; exact Logic.I);
    try (apply serve_within, dispatch_book_steps; rewrite Ht; exact Logic.I).
  - pose proof (dispatch_reads (fun w => w = mkWorld store store now) req) as H.
    rewrite Ht in H. specialize (H Logic.I _ eq_refl).
    destruct (dispatch req (mkWorld store store now)) as [[r|e] w'] eqn:Hd;
      simpl in H; destruct H as [-> _].
    + rewrite (serve_return _ _ _ _ _ Hd). reflexivity.
    + rewrite (serve_raise _ _ _ _ _ Hd). reflexivity.
  - pose proof (dispatch_reads (fun w => w = mkWorld store store now) req) as H.
    rewrite Ht in H. specialize (H Logic.I _ eq_refl).
    destruct (dispatch req (mkWorld store store now)) as [[r|e] w'] eqn:Hd;
      simpl in H; destruct H as [-> _].
    + rewrite (serve_return _ _ _ _ _ Hd). reflexivity.
    + rewrite (serve_raise _ _ _ _ _ Hd). reflexivity.
Qed.

Lemma serve_store_ok (now : Z) (req : request) (store : tables) :
  store_ok store -> store_ok (snd (serve now req store)).
Proof.
  intros Hok. pose proof (serve_writes now req store) as H.
  destruct (target req).
  1-3: exact (reaches_invariant user_step store_ok user_step_ok _ _ H Hok).
  1,4-6: exact (reaches_invariant book_step store_ok book_step_ok _ _ H Hok).
  all: rewrite H; exact Hok.
Qed.

(** X1. Whatever the request and its outcome, a well-formed store stays
    well-formed: identifiers stay distinct and positive, no two users share
    an email, no two authors share a name, and every book has an author.
    So does every store that a sequence of requests builds from the empty
    one. *)
Theorem store_ok_preserved :
  (forall now req store, store_ok store -> store_ok (snd (serve now req store)))
  /\ (forall requests, store_ok (serve_all requests empty_store)).
Proof.
  split; [exact serve_store_ok|].
  intros requests. unfold serve_all.
  assert (H : store_ok empty_store).
  { constructor; simpl; try (split; constructor); try constructor.
    intros b []. }
  revert H. generalize empty_store.
  induction requests as [|r requests IH]; intros t Ht; simpl; [exact Ht|].
  apply IH. apply serve_store_ok. exact Ht.
Qed.

(** X2. What a request cannot touch. An account request (sign-up, sign-in,
    sign-out) leaves authors and books as they are and keeps the id, email,
    name and password hash of every existing user; a catalogue request
    leaves the users as they are and removes or renames no author; a read
    leaves the store as it is. *)
Theorem serve_frame (now : Z) (req : request) (store : tables) :
  match target req with
  | Signup _ | Signin _ _ | Signout =>
      authors (snd (serve now req store)) = authors store
      /\ books (snd (serve now req store)) = books store
      /\ exists added,
           map account (users (snd (serve now req store)))
           = (map account (users store) ++ added)%list
  | ListBooks _ | GetBook _ => snd (serve now req store) = store
  | AddBook _ | UpdateBook _ _ | DeleteBook _ | BulkImport _ =>
      users (snd (serve now req store)) = users store
      /\ exists added,
           authors (snd (serve now req store)) = (authors store ++ added)%list
  end.
Proof.
  pose proof (serve_writes now req store) as H.
  destruct (target req);
    first [ exact (user_steps_frame _ _ H)
          | exact (book_steps_frame _ _ H)
          | exact H ].
Qed.

Lemma serve_invariant (I : tables -> Prop) (now : Z) (req : request)
    (store : tables) :
  (forall t t', I t -> user_step t t' -> I t') ->
  (forall t t', I t -> book_step t t' -> I t') ->
  I store -> I (snd (serve now req store)).
Proof.
  intros Huser Hbook Hstore. pose proof (serve_writes now req store) as H.
  destruct (target req).
  1-3: exact (reaches_invariant user_step I Huser _ _ H Hstore).
  1,4-6: exact (reaches_invariant book_step I Hbook _ _ H Hstore).
  all: rewrite H; exact Hstore.
Qed.

Lemma serve_all_invariant (I : tables -> Prop) (requests : list (Z * request)) :
  (forall now req store, I store -> I (snd (serve now req store))) ->
  forall store, I store -> I (serve_all requests store).
Proof.
  intros Hserve. unfold serve_all.
  induction requests as [|r requests IH]; intros t Ht; simpl; [exact Ht|].
  apply IH. apply Hserve. exact Ht.
Qed.

Lemma user_step_valid (t t' : tables) :
  catalogue_valid t -> user_step t t' -> catalogue_valid t'.
Proof.
  intros Hv Hstep. unfold catalogue_valid.
  destruct (user_step_frame _ _ Hstep) as (_ & -> & _). exact Hv.
Qed.

Lemma book_step_valid (t t' : tables) :
  catalogue_valid t -> book_step t t' -> catalogue_valid t'.
Proof.
  unfold catalogue_valid. intros Hv Hstep.
  destruct Hstep as [t name Hfree | t row _ _ Hrow | t f id _ [Hyear Hgenre] | t id];
    cbn [insert_author add_book_row update_book_row delete_book_row books].
  - exact Hv.
  - apply Forall_app. split; [exact Hv | constructor; [exact Hrow | constructor]].
  - rewrite Forall_forall in *. intros b Hb.
    apply in_map_iff in Hb as (b0 & <- & Hb0). specialize (Hv b0 Hb0).
    destruct (b_id b0 =? id); [|exact Hv].
    destruct Hv as [Hy (g & Hg & Hin)]. split; cbn.
    + destruct (set_published_year f) as [y|] eqn:Hset; cbn;
        [apply Hyear; reflexivity | exact Hy].
    + destruct (set_genre f) as [g'|] eqn:Hset.
      * exists g'. split; [reflexivity | apply Hgenre; reflexivity].
      * exists g. split; assumption.
  - rewrite Forall_forall in *. intros b Hb.
    apply filter_In in Hb as [Hb _]. apply Hv, Hb.
Qed.

(** X3. Whatever the request and its outcome, a catalogue in which every
    book has a year between 1800 and the current year and a genre of the
    genre table stays such a catalogue; and so is every catalogue that a
    sequence of requests builds from the empty store: no request stores a
    book without a genre or with a year out of range. *)
Theorem catalogue_valid_preserved :
  (forall now req store,
      catalogue_valid store -> catalogue_valid (snd (serve now req store)))
  /\ (forall requests b,
        In b (books (serve_all requests empty_store)) ->
        1800 <= b_published_year b <= CURRENT_YEAR
        /\ exists g, b_genre b = Some g /\ In g book_genres).
Proof.
  assert (Hserve : forall now req store,
             catalogue_valid store -> catalogue_valid (snd (serve now req store))).
  { intros now req store.
    apply serve_invariant; [exact user_step_valid | exact book_step_valid]. }
  split; [exact Hserve|].
  intros requests b Hb.
  assert (Hall : catalogue_valid (serve_all requests empty_store)).
  { apply serve_all_invariant; [exact Hserve | constructor]. }
  unfold catalogue_valid in Hall. rewrite Forall_forall in Hall.
  exact (Hall b Hb).
Qed.

(** *** Signing up *)

Lemma select_users_none (email : string) (t : tables) :
  ~ In email (map u_email (users t)) -> select_users_by_email email t = [].
Proof.
  intros Hnot. unfold select_users_by_email.
  destruct (filter (fun u => String.eqb (u_email u) email) (users t))
    as [|u l] eqn:Hf; [reflexivity|].
  exfalso. apply Hnot.
  assert (Hin : In u (filter (fun u => String.eqb (u_email u) email) (users t)))
    by (rewrite Hf; left; reflexivity).
  apply filter_In in Hin as [Hin He]. apply String.eqb_eq in He. subst email.
  apply in_map. exact Hin.
Qed.

Lemma select_users_some (email : string) (t : tables) :
  ids_ok (map u_id (users t)) ->
  In email (map u_email (users t)) ->
  id_truthy (option_map u_id (first (select_users_by_email email t))) = true.
Proof.
  intros Hids Hin.
  destruct (id_truthy (option_map u_id (first (select_users_by_email email t))))
    eqn:Hf; [reflexivity|].
  exfalso. exact (email_not_found _ _ Hids Hf Hin).
Qed.

Lemma signup_fresh (user : UserSignup.t) (w : world) :
  ~ In (UserSignup.email user) (map u_email (users (pending w))) ->
  signup user w
  = (Return (next_id (map u_id (users (pending w))), UserSignup.email user,
             UserSignup.username user),
     committing
       (add_user_row (UserSignup.email user) (UserSignup.username user)
          (pwd_context_hash (UserSignup.password user))) w).
Proof.
  intros Hnot. unfold signup, insert_user.
  unfold bind, query, execute, commit, ret, raise. cbn [pending].
  rewrite (select_users_none _ _ Hnot). reflexivity.
Qed.

Lemma signup_taken (user : UserSignup.t) (w : world) :
  ids_ok (map u_id (users (pending w))) ->
  In (UserSignup.email user) (map u_email (users (pending w))) ->
  signup user w = (Raise (HTTPException 400 "Email already registered"), w).
Proof.
  intros Hids Hin. unfold signup.
  unfold bind, query, ret, raise.
  rewrite (select_users_some _ _ Hids Hin). reflexivity.
Qed.

Lemma dispatch_signup (auth : option token) (user : UserSignup.t)
    (address : string) (w : world) :
  EmailStr_validate (UserSignup.email user) = Return address ->
  dispatch (mkRequest auth (Signup user)) w
  = (b <- register (UserSignup.mk address (UserSignup.username user)
                      (UserSignup.password user)) ;;
     ret (mkResponse 201 b)) w.
Proof.
  intros Hvalid. unfold dispatch. cbn [target]. unfold bind at 1.
  unfold lift, UserSignup_validate. rewrite Hvalid. reflexivity.
Qed.

Lemma serve_signup_invalid (now : Z) (auth : option token) (user : UserSignup.t)
    (e : exn) (store : tables) :
  EmailStr_validate (UserSignup.email user) = Raise e ->
  serve now (mkRequest auth (Signup user)) store
  = (mkResponse 422 (ValidationErrors [str_exn e]), store).
Proof.
  intros Hvalid.
  assert (Hd : dispatch (mkRequest auth (Signup user)) (mkWorld store store now)
               = (Raise (RequestValidationError [str_exn e]),
                  mkWorld store store now)).
  { unfold dispatch. cbn [target]. unfold bind at 1.
    unfold lift, UserSignup_validate. rewrite Hvalid. reflexivity. }
  exact (serve_raise _ _ _ _ _ Hd).
Qed.

Lemma serve_signup_fresh (now : Z) (auth : option token) (user : UserSignup.t)
    (address : string) (store : tables) :
  EmailStr_validate (UserSignup.email user) = Return address ->
  ~ In address (map u_email (users store)) ->
  serve now (mkRequest auth (Signup user)) store
  = (mkResponse 201
       (UserCreated (next_id (map u_id (users store))) address
          (UserSignup.username user)),
     add_user_row address (UserSignup.username user)
       (pwd_context_hash (UserSignup.password user)) store).
Proof.
  intros Hvalid Hnot.
  assert (Hd : dispatch (mkRequest auth (Signup user)) (mkWorld store store now)
               = (Return
                    (mkResponse 201
                       (UserCreated (next_id (map u_id (users store))) address
                          (UserSignup.username user))),
                  committing
                    (add_user_row address (UserSignup.username user)
                       (pwd_context_hash (UserSignup.password user)))
                    (mkWorld store store now))).
  { rewrite (dispatch_signup auth user address _ Hvalid).
    unfold register, guarded, try_except, bind.
    rewrite signup_fresh by exact Hnot. reflexivity. }
  exact (serve_return _ _ _ _ _ Hd).
Qed.

Lemma serve_signup_taken (now : Z) (auth : option token) (user : UserSignup.t)
    (address : string) (store : tables) :
  EmailStr_validate (UserSignup.email user) = Return address ->
  ids_ok (map u_id (users store)) ->
  In address (map u_email (users store)) ->
  serve now (mkRequest auth (Signup user)) store
  = (mkResponse 400 (Detail "Email already registered"), store).
Proof.
  intros Hvalid Hids Hin.
  assert (Hd : dispatch (mkRequest auth (Signup user)) (mkWorld store store now)
               = (Raise (HTTPException 400 "Email already registered"),
                  mkWorld store store now)).
  { rewrite (dispatch_signup auth user address _ Hvalid).
    unfold register, guarded, try_except, bind.
    rewrite signup_taken by assumption. reflexivity. }
  exact (serve_raise _ _ _ _ _ Hd).
Qed.

(** X4. Signing up. A body whose email the address validator refuses is
    answered 422 and the store is as before. Otherwise the address is the
    one the validator returns. If no user has it, the request is answered
    201 with an id that no user had, and the store gains one user with that
    id and address, the hash of the password and no refresh token; a later
    sign-up that validates to the same address is then answered 400. If a
    user has it, whatever the name and the password, the request is
    answered 400 and the store is as before. *)
Theorem signup_once (now : Z) (auth : option token) (user : UserSignup.t)
    (store : tables) :
  store_ok store ->
  (forall e,
      EmailStr_validate (UserSignup.email user) = Raise e ->
      status_code (fst (serve now (mkRequest auth (Signup user)) store)) = 422
      /\ snd (serve now (mkRequest auth (Signup user)) store) = store)
  /\ (forall address,
        EmailStr_validate (UserSignup.email user) = Return address ->
        (~ In address (map u_email (users store)) ->
         exists new_id,
           ~ In new_id (map u_id (users store))
           /\ serve now (mkRequest auth (Signup user)) store
              = (mkResponse 201
                   (UserCreated new_id address (UserSignup.username user)),
                 mkTables
                   (users store
                    ++ [mkUser new_id address (UserSignup.username user)
                          (pwd_context_hash (UserSignup.password user)) None])
                   (authors store) (books store))
           /\ forall now' auth' user',
                EmailStr_validate (UserSignup.email user') = Return address ->
                serve now' (mkRequest auth' (Signup user'))
                  (snd (serve now (mkRequest auth (Signup user)) store))
                = (mkResponse 400 (Detail "Email already registered"),
                   snd (serve now (mkRequest auth (Signup user)) store)))
        /\ (In address (map u_email (users store)) ->
            serve now (mkRequest auth (Signup user)) store
            = (mkResponse 400 (Detail "Email already registered"), store))).
Proof.
  intros Hok. split.
  - intros e Hvalid. rewrite (serve_signup_invalid now auth user e store Hvalid).
    split; reflexivity.
  - intros address Hvalid. split.
    + intros Hnot. exists (next_id (map u_id (users store))).
      split; [apply next_id_fresh|].
      split; [exact (serve_signup_fresh now auth user address store Hvalid Hnot)|].
      intros now' auth' user' Hvalid'.
      pose proof (serve_store_ok now (mkRequest auth (Signup user)) store Hok)
        as Hok'.
      apply (serve_signup_taken now' auth' user' address); [exact Hvalid'| |].
      * apply Hok'.
      * rewrite (serve_signup_fresh now auth user address store Hvalid Hnot).
        cbn [snd add_user_row users]. rewrite map_app. apply in_or_app.
        right. left. reflexivity.
    + intros Hin. apply (serve_signup_taken now auth user address);
        [exact Hvalid | apply Hok | exact Hin].
Qed.

(** *** Signing in *)

Lemma signin_runs (user : UserSignin.t) (w : world) (u : user_row) :
  first (select_users_by_email (UserSignin.email user) (pending w)) = Some u ->
  pwd_context_verify (UserSignin.password user) (u_hashed_password u) = true ->
  signin user w
  = (Return (issued "access_token" (u_email u) (clock w) (15 * 60),
             issued "refresh_token" (u_email u) (clock w) (7 * 24 * 60 * 60)),
     committing
       (update_refresh_token
          (Some (issued "refresh_token" (u_email u) (clock w) (7 * 24 * 60 * 60)))
          (u_id u)) w).
Proof.
  intros Hu Hv. unfold signin, authenticate_user.
  unfold bind at 1. unfold bind at 1. unfold query at 1. rewrite Hu, Hv.
  reflexivity.
Qed.

Lemma serve_signin_ok (now : Z) (auth : option token) (email password : string)
    (store : tables) (u : user_row) :
  first (select_users_by_email email store) = Some u ->
  pwd_context_verify password (u_hashed_password u) = true ->
  serve now (mkRequest auth (Signin email password)) store
  = (mkResponse 200
       (Tokens (issued "access_token" (u_email u) now (15 * 60))
          (issued "refresh_token" (u_email u) now (7 * 24 * 60 * 60))),
     update_refresh_token
       (Some (issued "refresh_token" (u_email u) now (7 * 24 * 60 * 60)))
       (u_id u) store).
Proof.
  intros Hu Hv.
  pose proof (signin_runs (UserSignin.mk email password)
                (mkWorld store store now) u Hu Hv) as Hs.
  assert (Hd : dispatch (mkRequest auth (Signin email password))
                 (mkWorld store store now)
               = (Return
                    (mkResponse 200
                       (Tokens (issued "access_token" (u_email u) now (15 * 60))
                          (issued "refresh_token" (u_email u) now
                             (7 * 24 * 60 * 60)))),
                  committing
                    (update_refresh_token
                       (Some (issued "refresh_token" (u_email u) now
                                (7 * 24 * 60 * 60)))
                       (u_id u))
                    (mkWorld store store now))).
  { unfold dispatch, login, guarded, try_except, bind. cbn [target].
    rewrite Hs. reflexivity. }
  exact (serve_return _ _ _ _ _ Hd).
Qed.

Lemma select_added_user (email username hashed : string) (t : tables) :
  ~ In email (map u_email (users t)) ->
  select_users_by_email email (add_user_row email username hashed t)
  = [mkUser (next_id (map u_id (users t))) email username hashed None].
Proof.
  intros Hnot. unfold select_users_by_email, add_user_row. cbn [users].
  rewrite filter_app. fold (select_users_by_email email t).
  rewrite (select_users_none _ _ Hnot). simpl. rewrite String.eqb_refl.
  reflexivity.
Qed.

(** X5. A user who has signed up can sign in with the address that the
    validator returned at the sign-up and the same password, provided the
    password context verifies a password against its own hash: the sign-in
    is answered 200 with an access and a refresh token issued at the time
    of the request, the refresh token is stored in the new user's row, and
    until it expires fifteen minutes later the access token authenticates
    every request as that user. *)
Theorem signin_after_signup (now1 now2 now3 : Z) (auth1 auth2 : option token)
    (user : UserSignup.t) (address : string) (store : tables) :
  EmailStr_validate (UserSignup.email user) = Return address ->
  ~ In address (map u_email (users store)) ->
  pwd_context_verify (UserSignup.password user)
    (pwd_context_hash (UserSignup.password user)) = true ->
  exists new_id,
    ~ In new_id (map u_id (users store))
    /\ serve now2
         (mkRequest auth2 (Signin address (UserSignup.password user)))
         (snd (serve now1 (mkRequest auth1 (Signup user)) store))
       = (mkResponse 200
            (Tokens (issued "access_token" address now2 (15 * 60))
               (issued "refresh_token" address now2 (7 * 24 * 60 * 60))),
          mkTables
            (users store
             ++ [mkUser new_id address (UserSignup.username user)
                   (pwd_context_hash (UserSignup.password user))
                   (Some (issued "refresh_token" address now2
                            (7 * 24 * 60 * 60)))])
            (authors store) (books store))
    /\ (now3 <= now2 + 15 * 60 ->
        forall op,
          authenticated now3
            (mkTables
               (users store
                ++ [mkUser new_id address (UserSignup.username user)
                      (pwd_context_hash (UserSignup.password user))
                      (Some (issued "refresh_token" address now2
                               (7 * 24 * 60 * 60)))])
               (authors store) (books store))
            (mkRequest (Some (issued "access_token" address now2 (15 * 60))) op)
            (mkUser new_id address (UserSignup.username user)
               (pwd_context_hash (UserSignup.password user))
               (Some (issued "refresh_token" address now2 (7 * 24 * 60 * 60))))).
Proof.
  intros Hvalid Hnot Hverify.
  exists (next_id (map u_id (users store))). split; [apply next_id_fresh|].
  rewrite (serve_signup_fresh now1 auth1 user address store Hvalid Hnot).
  cbn [snd].
  set (u := mkUser (next_id (map u_id (users store))) address
              (UserSignup.username user)
              (pwd_context_hash (UserSignup.password user)) None).
  assert (Hsel : first (select_users_by_email address
                          (add_user_row address (UserSignup.username user)
                             (pwd_context_hash (UserSignup.password user)) store))
                 = Some u).
  { rewrite select_added_user by exact Hnot. reflexivity. }
  assert (Hstore :
    update_refresh_token
      (Some (issued "refresh_token" address now2 (7 * 24 * 60 * 60))) (u_id u)
      (add_user_row address (UserSignup.username user)
         (pwd_context_hash (UserSignup.password user)) store)
    = mkTables
        (users store
         ++ [with_refresh_token
               (Some (issued "refresh_token" address now2 (7 * 24 * 60 * 60))) u])
        (authors store) (books store)).
  { unfold update_refresh_token, add_user_row. cbn [users authors books].
    rewrite map_app. f_equal. f_equal.
    - rewrite <- (map_id (users store)) at 2. apply map_ext_in.
      intros x Hx. cbn [u_id u].
      destruct (Z.eqb_spec (u_id x) (next_id (map u_id (users store))))
        as [Heq|]; [|reflexivity].
      exfalso. apply (next_id_fresh (map u_id (users store))).
      rewrite <- Heq. apply in_map. exact Hx.
    - cbn [map u_id u]. rewrite Z.eqb_refl. reflexivity. }
  split.
  - rewrite (serve_signin_ok now2 auth2 address (UserSignup.password user) _ u Hsel)
      by exact Hverify.
    cbn [u_email u]. rewrite Hstore. reflexivity.
  - intros Hnow op.
    exists (issued "access_token" address now2 (15 * 60)).
    split; [reflexivity|].
    refine (issued_token_resolves "access_token" (15 * 60) now3
              (mkWorld store store now2) _
              (with_refresh_token
                 (Some (issued "refresh_token" address now2 (7 * 24 * 60 * 60))) u)
              Hnow _).
    pose proof (select_after_signin
                  (Some (issued "refresh_token" address now2 (7 * 24 * 60 * 60)))
                  (u_id u) address _ u Hsel eq_refl) as H.
    rewrite Hstore in H. exact H.
Qed.

(** *** Fetching a book *)

Lemma flat_map_none {A B : Type} (f : A -> Z) (g : A -> list B) (k : Z)
    (l : list A) :
  ~ In k (map f l) ->
  flat_map (fun x => if f x =? k then g x else []) l = [].
Proof.
  induction l as [|x l IH]; simpl; intros Hnot; [reflexivity|].
  destruct (Z.eqb_spec (f x) k) as [Heq|_]; [exfalso; apply Hnot; auto|].
  apply IH. intros H. apply Hnot. right. exact H.
Qed.

Lemma flat_map_unique {A B : Type} (f : A -> Z) (g : A -> list B) (b : A)
    (l : list A) :
  NoDup (map f l) -> In b l ->
  flat_map (fun x => if f x =? f b then g x else []) l = g b.
Proof.
  induction l as [|x l IH]; simpl; intros Hn Hin; [contradiction|].
  inversion Hn as [|? ? Hx Hl]; subst. destruct Hin as [->|Hin].
  - rewrite Z.eqb_refl, flat_map_none by exact Hx. apply app_nil_r.
  - destruct (Z.eqb_spec (f x) (f b)) as [Heq|_].
    + exfalso. apply Hx. rewrite Heq. apply in_map. exact Hin.
    + apply IH; assumption.
Qed.

Lemma filter_unique {A : Type} (f : A -> Z) (a : A) (l : list A) :
  NoDup (map f l) -> In a l -> filter (fun x => f x =? f a) l = [a].
Proof.
  intros Hn Hin.
  rewrite <- (flat_map_unique f (fun x => [x]) a l Hn Hin).
  clear. induction l as [|x l IH]; simpl; [reflexivity|].
  rewrite IH. destruct (f x =? f a); reflexivity.
Qed.

Lemma NoDup_map_eq {A : Type} (f : A -> Z) (a b : A) (l : list A) :
  NoDup (map f l) -> In a l -> In b l -> f a = f b -> a = b.
Proof.
  intros Hn Ha Hb Heq.
  pose proof (filter_unique f a l Hn Ha) as H1.
  pose proof (filter_unique f b l Hn Hb) as H2.
  rewrite Heq in H1. rewrite H1 in H2. injection H2 as ->. reflexivity.
Qed.

(** The query of [get_book], book by book. *)
Lemma select_book_rows (book_id : Z) (t : tables) :
  select_book book_id t
  = flat_map
      (fun b =>
         if b_id b =? book_id
         then map (pair b) (filter (fun a => a_id a =? b_author_id b) (authors t))
         else [])
      (books t).
Proof.
  unfold select_book, joined.
  induction (books t) as [|b l IH]; simpl; [reflexivity|].
  rewrite filter_app, IH. f_equal.
  induction (filter (fun a => a_id a =? b_author_id b) (authors t))
    as [|a r IHr]; simpl.
  - destruct (b_id b =? book_id); reflexivity.
  - rewrite IHr. destruct (b_id b =? book_id); reflexivity.
Qed.

Lemma select_book_missing (book_id : Z) (t : tables) :
  ~ In book_id (map b_id (books t)) -> select_book book_id t = [].
Proof.
  intros Hnot. rewrite select_book_rows. apply flat_map_none. exact Hnot.
Qed.

Lemma select_book_known (t : tables) (b : book_row) (a : author_row) :
  store_ok t -> In b (books t) -> In a (authors t) ->
  a_id a = b_author_id b ->
  select_book (b_id b) t = [(b, a)].
Proof.
  intros Hok Hb Ha Hid. rewrite select_book_rows.
  rewrite (flat_map_unique b_id _ b (books t)); [|apply Hok | exact Hb].
  rewrite <- Hid.
  rewrite (filter_unique a_id a (authors t)); [reflexivity | apply Hok | exact Ha].
Qed.

Lemma book_author (t : tables) (b : book_row) :
  store_ok t -> In b (books t) ->
  exists a, In a (authors t) /\ a_id a = b_author_id b.
Proof.
  intros Hok Hb. pose proof (ok_refs t Hok b Hb) as Hin.
  apply in_map_iff in Hin as (a & Ha & Hin). exists a. auto.
Qed.

Lemma get_book_found (w : world) (b : book_row) (a : author_row) :
  store_ok (pending w) -> In b (books (pending w)) ->
  In a (authors (pending w)) -> a_id a = b_author_id b ->
  get_book (b_id b) w = (BookOut_of (b, a), w).
Proof.
  intros Hok Hb Ha Hid. unfold get_book, bind, query.
  rewrite (select_book_known _ b a Hok Hb Ha Hid). reflexivity.
Qed.

Lemma get_book_missing (w : world) (book_id : Z) :
  ~ In book_id (map b_id (books (pending w))) ->
  get_book book_id w = (Raise (HTTPException 404 "Book not found"), w).
Proof.
  intros Hnot. unfold get_book, bind, query.
  rewrite (select_book_missing _ _ Hnot). reflexivity.
Qed.

Lemma serve_get_book (now : Z) (auth : option token) (book_id : Z)
    (store : tables) (o : outcome BookOut.t) :
  get_book book_id (mkWorld store store now) = (o, mkWorld store store now) ->
  serve now (mkRequest auth (GetBook book_id)) store
  = (match o with
     | Return book => mkResponse 200 (OneBook book)
     | Raise e =>
         response_of_exn
           (if is_HTTPException e then e
            else HTTPException 500 ("Error fetching book: " ++ str_exn e))
     end, store).
Proof.
  intros Hg. destruct o as [book|e].
  - assert (Hd : dispatch (mkRequest auth (GetBook book_id))
                   (mkWorld store store now)
                 = (Return (mkResponse 200 (OneBook book)),
                    mkWorld store store now)).
    { unfold dispatch, get_book_by_id, guarded, try_except, bind. cbn [target].
      rewrite Hg. reflexivity. }
    exact (serve_return _ _ _ _ _ Hd).
  - assert (Hd : dispatch (mkRequest auth (GetBook book_id))
                   (mkWorld store store now)
                 = (Raise (if is_HTTPException e then e
                           else HTTPException 500
                                  ("Error fetching book: " ++ str_exn e)),
                    mkWorld store store now)).
    { unfold dispatch, get_book_by_id, guarded, try_except, bind. cbn [target].
      rewrite Hg. destruct (is_HTTPException e); reflexivity. }
    exact (serve_raise _ _ _ _ _ Hd).
Qed.

Lemma serve_get_book_found (now : Z) (auth : option token) (store : tables)
    (b : book_row) (a : author_row) (g : string) :
  store_ok store -> In b (books store) -> In a (authors store) ->
  a_id a = b_author_id b -> b_genre b = Some g ->
  serve now (mkRequest auth (GetBook (b_id b))) store
  = (mkResponse 200
       (OneBook
          (BookOut.mk (b_id b) (b_title b) (a_full_name a) (b_published_year b)
             g (b_created_at b))),
     store).
Proof.
  intros Hok Hb Ha Hid Hg.
  rewrite (serve_get_book now auth (b_id b) store (BookOut_of (b, a))).
  - unfold BookOut_of. rewrite Hg. reflexivity.
  - apply (get_book_found (mkWorld store store now)); assumption.
Qed.

Lemma serve_get_book_missing (now : Z) (auth : option token) (store : tables)
    (book_id : Z) :
  ~ In book_id (map b_id (books store)) ->
  serve now (mkRequest auth (GetBook book_id)) store
  = (mkResponse 404 (Detail "Book not found"), store).
Proof.
  intros Hnot.
  rewrite (serve_get_book now auth book_id store
             (Raise (HTTPException 404 "Book not found"))).
  - reflexivity.
  - apply (get_book_missing (mkWorld store store now)). exact Hnot.
Qed.

(** X6. Fetching a book from a well-formed store. The id of a stored book
    with a genre is answered 200 with that book's columns and the name of
    its author; an id within the integer range of the store that no book
    has is answered 404. Either way the store is as before. *)
Theorem get_book_by_id_answers (now : Z) (auth : option token) (store : tables) :
  store_ok store ->
  (forall b g,
      In b (books store) -> b_genre b = Some g ->
      exists a,
        In a (authors store) /\ a_id a = b_author_id b
        /\ serve now (mkRequest auth (GetBook (b_id b))) store
           = (mkResponse 200
                (OneBook
                   (BookOut.mk (b_id b) (b_title b) (a_full_name a)
                      (b_published_year b) g (b_created_at b))),
              store))
  /\ (forall book_id,
        db_integer book_id ->
        ~ In book_id (map b_id (books store)) ->
        serve now (mkRequest auth (GetBook book_id)) store
        = (mkResponse 404 (Detail "Book not found"), store)).
Proof.
  intros Hok. split.
  - intros b g Hb Hg. destruct (book_author _ _ Hok Hb) as (a & Ha & Hid).
    exists a. split; [exact Ha|]. split; [exact Hid|].
    apply serve_get_book_found; assumption.
  - intros book_id Hrange. apply serve_get_book_missing.
Qed.

(** *** Adding a book *)

Lemma max_opt_snoc_next (ids : list Z) :
  max_opt (ids ++ [next_id ids]) = Some (next_id ids).
Proof.
  destruct (max_opt_ge (next_id ids) (ids ++ [next_id ids])) as (m & Hm & Hle);
    [apply in_or_app; right; left; reflexivity|].
  rewrite Hm. f_equal. apply max_opt_in in Hm.
  apply in_app_or in Hm as [Hin|[<-|[]]]; [|reflexivity].
  unfold next_id in *. destruct (fold_max_ge 0 ids) as [_ H].
  specialize (H _ Hin). lia.
Qed.

Lemma author_resolved_ok (full_name : string) (w : world) :
  store_ok (pending w) -> store_ok (pending (author_resolved full_name w)).
Proof.
  intros Hok. unfold author_resolved.
  destruct (author_found full_name (pending w)) eqn:Hf; [exact Hok|].
  apply insert_author_ok; assumption.
Qed.

(** [create_book] on a well-formed store, step by step: the author is
    resolved, the row is inserted and committed, and the row read back is
    the one inserted, joined with the author of that very name. *)
Lemma create_book_returns (book : BookCreate.t) (user : user_row) (w : world) :
  store_ok (pending w) ->
  PyStr.strip (BookCreate.author book) <> "" ->
  exists author_id,
    In (mkAuthor author_id (BookCreate.author book))
      (authors (pending (author_resolved (BookCreate.author book) w)))
    /\ (books_check
          (new_book (PyStr.strip (BookCreate.title book)) author_id
             (BookCreate.published_year book)
             (genre_column (BookCreate.genre book))
             (author_resolved (BookCreate.author book) w)) = None ->
        create_book book user w
        = (BookOut_of
             (new_book (PyStr.strip (BookCreate.title book)) author_id
                (BookCreate.published_year book)
                (genre_column (BookCreate.genre book))
                (author_resolved (BookCreate.author book) w),
              mkAuthor author_id (BookCreate.author book)),
           committing
             (add_book_row
                (new_book (PyStr.strip (BookCreate.title book)) author_id
                   (BookCreate.published_year book)
                   (genre_column (BookCreate.genre book))
                   (author_resolved (BookCreate.author book) w)))
             (author_resolved (BookCreate.author book) w))
        /\ store_ok
             (add_book_row
                (new_book (PyStr.strip (BookCreate.title book)) author_id
                   (BookCreate.published_year book)
                   (genre_column (BookCreate.genre book))
                   (author_resolved (BookCreate.author book) w))
                (pending (author_resolved (BookCreate.author book) w)))).
Proof.
  intros Hok Hauthor.
  destruct (get_or_create_author_runs _ w Hauthor) as (id & Hrun & _).
  fold (author_resolved (BookCreate.author book) w) in Hrun.
  pose proof (get_or_create_author_post _ _ _ _ Hrun) as [_ Hin].
  pose proof (author_resolved_ok (BookCreate.author book) w Hok) as Hok1.
  set (w1 := author_resolved (BookCreate.author book) w) in *.
  exists id. split; [exact Hin|].
  set (row := new_book (PyStr.strip (BookCreate.title book)) id
                (BookCreate.published_year book)
                (genre_column (BookCreate.genre book)) w1).
  intros Hcheck.
  assert (Hok2 : store_ok (add_book_row row (pending w1))).
  { apply add_book_row_ok; [exact Hok1 | reflexivity|].
    apply (in_map a_id) in Hin. exact Hin. }
  split; [|exact Hok2].
  unfold create_book. unfold bind at 1. rewrite Hrun.
  unfold bind at 1. fold (genre_column (BookCreate.genre book)).
  rewrite insert_book_runs. fold row. rewrite Hcheck.
  unfold bind, commit, query. cbn [pending staging].
  assert (Hlast : select_last_book (add_book_row row (pending w1))
                  = [(row, mkAuthor id (BookCreate.author book))]).
  { unfold select_last_book. cbn [add_book_row books]. rewrite map_app.
    cbn [map]. change (b_id row) with (next_id (map b_id (books (pending w1)))).
    rewrite max_opt_snoc_next.
    change (select_book (b_id row) (add_book_row row (pending w1))
            = [(row, mkAuthor id (BookCreate.author book))]).
    apply select_book_known; [exact Hok2 | | exact Hin | reflexivity].
    cbn [add_book_row books]. apply in_or_app. right. left. reflexivity. }
  rewrite Hlast. reflexivity.
Qed.

(** X7. Adding a book and fetching it. On a well-formed store, a request
    with a valid token and a valid body, its title and author in ASCII and
    the author not blank, for a row that the store accepts under whatever
    id, is answered 201 with the new book: an id that no book had, the
    title trimmed, the author's name as sent, the canonical genre and the
    time of the request. The store gains that one book, and fetching the
    new id afterwards is answered 200 with the same book. *)
Theorem add_book_then_get (now : Z) (req : request) (store : tables)
    (body body' : BookCreate.t) (user : user_row) :
  store_ok store ->
  target req = AddBook body ->
  authenticated now store req user ->
  BookCreate.validate body = Return body' ->
  ascii_text (BookCreate.title body') = true ->
  ascii_text (BookCreate.author body') = true ->
  PyStr.strip (BookCreate.author body') <> "" ->
  (forall new_id author_id,
      books_check
        (mkBook new_id (PyStr.strip (BookCreate.title body')) author_id
           (BookCreate.published_year body') (Some (BookCreate.genre body'))
           now) = None) ->
  exists new_id author_id,
    ~ In new_id (map b_id (books store))
    /\ fst (serve now req store)
       = mkResponse 201
           (OneBook
              (BookOut.mk new_id (PyStr.strip (BookCreate.title body'))
                 (BookCreate.author body') (BookCreate.published_year body')
                 (BookCreate.genre body') now))
    /\ books (snd (serve now req store))
       = (books store
          ++ [mkBook new_id (PyStr.strip (BookCreate.title body')) author_id
                (BookCreate.published_year body')
                (Some (BookCreate.genre body')) now])%list
    /\ In (mkAuthor author_id (BookCreate.author body'))
         (authors (snd (serve now req store)))
    /\ forall now' auth',
         serve now' (mkRequest auth' (GetBook new_id)) (snd (serve now req store))
         = (mkResponse 200
              (OneBook
                 (BookOut.mk new_id (PyStr.strip (BookCreate.title body'))
                    (BookCreate.author body')
                    (BookCreate.published_year body') (BookCreate.genre body')
                    now)),
            snd (serve now req store)).
Proof.
  intros Hok Htarget Hauth Hval Htitle_text Hauthor_text Hauthor Hcheck.
  destruct (validate_create_fields _ _ Hval) as (_ & _ & _ & Hgenre & _).
  pose proof (genre_column_canonical _ Hgenre) as Hcol.
  set (w0 := mkWorld store store now).
  destruct (create_book_returns body' user w0 Hok Hauthor)
    as (author_id & Hin & Hrun).
  pose proof (author_resolved_books (BookCreate.author body') w0) as [Hbooks _].
  set (w1 := author_resolved (BookCreate.author body') w0) in *.
  assert (Hclock : clock w1 = now).
  { unfold w1, author_resolved.
    destruct (author_found (BookCreate.author body') (pending w0)); reflexivity. }
  assert (Hrow : new_book (PyStr.strip (BookCreate.title body')) author_id
                   (BookCreate.published_year body')
                   (genre_column (BookCreate.genre body')) w1
                 = mkBook (next_id (map b_id (books store)))
                     (PyStr.strip (BookCreate.title body')) author_id
                     (BookCreate.published_year body')
                     (Some (BookCreate.genre body')) now).
  { unfold new_book. rewrite Hbooks, Hclock, Hcol. reflexivity. }
  rewrite Hrow in Hrun.
  destruct (Hrun (Hcheck (next_id (map b_id (books store))) author_id))
    as [Hcreate Hok2].
  set (row := mkBook (next_id (map b_id (books store)))
                (PyStr.strip (BookCreate.title body')) author_id
                (BookCreate.published_year body')
                (Some (BookCreate.genre body')) now) in *.
  assert (Hserve :
    serve now req store
    = (mkResponse 201
         (OneBook
            (BookOut.mk (next_id (map b_id (books store)))
               (PyStr.strip (BookCreate.title body')) (BookCreate.author body')
               (BookCreate.published_year body') (BookCreate.genre body') now)),
       add_book_row row (pending w1))).
  { apply (serve_return now req store _ (committing (add_book_row row) w1)).
    unfold dispatch. rewrite Htarget. unfold bind at 1. fold w0.
    rewrite (depends_resolved req w0 user Hauth).
    unfold bind at 1. unfold lift. rewrite Hval.
    unfold add_book, guarded, try_except, bind. rewrite Hcreate.
    reflexivity. }
  exists (next_id (map b_id (books store))), author_id.
  split; [apply next_id_fresh|].
  rewrite Hserve. cbn [fst snd].
  split; [reflexivity|]. split.
  { cbn [add_book_row books]. rewrite Hbooks. reflexivity. }
  split; [exact Hin|].
  intros now' auth'.
  apply (serve_get_book_found now' auth' _ row
           (mkAuthor author_id (BookCreate.author body'))
           (BookCreate.genre body'));
    [exact Hok2 | | exact Hin | reflexivity | reflexivity].
  cbn [add_book_row books]. apply in_or_app. right. left. reflexivity.
Qed.

(** *** Deleting a book *)

Lemma select_book_ids_found (book_id : Z) (t : tables) :
  In book_id (map b_id (books t)) ->
  first (select_book_ids book_id t) = Some book_id.
Proof.
  intros Hin. apply in_map_iff in Hin as (b & Hb & Hin).
  destruct (first_filter_some (fun b => b_id b =? book_id) _ b Hin) as (b' & Hf);
    [apply Z.eqb_eq; exact Hb|].
  unfold select_book_ids. rewrite first_map, Hf. simpl.
  apply first_filter_holds in Hf as [Heq _]. apply Z.eqb_eq in Heq.
  rewrite Heq. reflexivity.
Qed.

Lemma select_book_ids_missing (book_id : Z) (t : tables) :
  ~ In book_id (map b_id (books t)) -> select_book_ids book_id t = [].
Proof.
  intros Hnot. unfold select_book_ids.
  destruct (filter (fun b => b_id b =? book_id) (books t)) as [|b l] eqn:Hf;
    [reflexivity|].
  exfalso. apply Hnot.
  assert (Hin : In b (filter (fun b => b_id b =? book_id) (books t)))
    by (rewrite Hf; left; reflexivity).
  apply filter_In in Hin as [Hin Heq]. apply Z.eqb_eq in Heq. subst book_id.
  apply in_map. exact Hin.
Qed.

Lemma delete_book_found (book_id : Z) (user : user_row) (w : world) :
  In book_id (map b_id (books (pending w))) -> book_id <> 0 ->
  delete_book book_id user w
  = (Return true, committing (delete_book_row book_id) w).
Proof.
  intros Hin Hid. unfold delete_book. unfold bind at 1. unfold query at 1.
  rewrite (select_book_ids_found _ _ Hin). cbn [id_truthy].
  apply Z.eqb_neq in Hid. rewrite Hid. reflexivity.
Qed.

Lemma delete_book_missing (book_id : Z) (user : user_row) (w : world) :
  ~ In book_id (map b_id (books (pending w))) ->
  delete_book book_id user w = (Return false, w).
Proof.
  intros Hnot. unfold delete_book. unfold bind at 1. unfold query at 1.
  rewrite (select_book_ids_missing _ _ Hnot). reflexivity.
Qed.

Lemma dispatch_delete (req : request) (book_id : Z) (user : user_row)
    (w w' : world) (deleted : bool) :
  target req = DeleteBook book_id ->
  authenticated (clock w) (pending w) req user ->
  delete_book book_id user w = (Return deleted, w') ->
  dispatch req w
  = (if deleted then Return (mkResponse 204 NoContent)
     else Raise (HTTPException 404
                   ("Book with ID " ++ PyStr.of_int book_id ++ " not found")),
     w').
Proof.
  intros Htarget Hauth Hdel. unfold dispatch. rewrite Htarget.
  unfold bind at 1. rewrite (depends_resolved req w user Hauth).
  unfold delete_book_by_id, guarded, try_except, bind. rewrite Hdel.
  destruct deleted; reflexivity.
Qed.

(** X8. Deleting a book of a well-formed store, with a valid token and an
    id within the integer range of the store. The id of a stored book is
    answered 204: every book of that id is gone, every other book and every
    author stays, and fetching the id afterwards is answered 404. An id
    that no book has is answered 404 and the store is as before. *)
Theorem delete_book_by_id_answers (now : Z) (req : request) (store : tables)
    (book_id : Z) (user : user_row) :
  store_ok store ->
  db_integer book_id ->
  target req = DeleteBook book_id ->
  authenticated now store req user ->
  (In book_id (map b_id (books store)) ->
   serve now req store
   = (mkResponse 204 NoContent,
      mkTables (users store) (authors store)
        (filter (fun b => negb (b_id b =? book_id)) (books store)))
   /\ (forall b, In b (books (snd (serve now req store)))
                 <-> In b (books store) /\ b_id b <> book_id)
   /\ forall now' auth',
        serve now' (mkRequest auth' (GetBook book_id)) (snd (serve now req store))
        = (mkResponse 404 (Detail "Book not found"), snd (serve now req store)))
  /\ (~ In book_id (map b_id (books store)) ->
      serve now req store
      = (mkResponse 404
           (Detail ("Book with ID " ++ PyStr.of_int book_id ++ " not found")),
         store)).
Proof.
  intros Hok Hrange Htarget Hauth. split.
  - intros Hin.
    assert (Hid : book_id <> 0).
    { destruct (ok_book_ids _ Hok) as [_ Hpos]. rewrite Forall_forall in Hpos.
      specialize (Hpos _ Hin). lia. }
    pose proof (delete_book_found book_id user (mkWorld store store now) Hin Hid)
      as Hdel.
    pose proof (dispatch_delete req book_id user (mkWorld store store now) _ _
                  Htarget Hauth Hdel) as Hd.
    pose proof (serve_return _ _ _ _ _ Hd) as Hserve.
    cbn [pending committing delete_book_row users authors books] in Hserve.
    rewrite Hserve. cbn [snd]. split; [reflexivity|].
    assert (Hbooks : forall b,
               In b (filter (fun b => negb (b_id b =? book_id)) (books store))
               <-> In b (books store) /\ b_id b <> book_id).
    { intros b. rewrite filter_In, negb_true_iff, Z.eqb_neq. tauto. }
    split; [exact Hbooks|].
    intros now' auth'.
    assert (Hok' : store_ok (delete_book_row book_id store))
      by (apply delete_book_row_ok; exact Hok).
    apply serve_get_book_missing.
    cbn [delete_book_row books]. intros H.
    apply in_map_iff in H as (b & Hb & H). apply Hbooks in H. tauto.
  - intros Hnot.
    pose proof (delete_book_missing book_id user (mkWorld store store now) Hnot)
      as Hdel.
    pose proof (dispatch_delete req book_id user (mkWorld store store now) _ _
                  Htarget Hauth Hdel) as Hd.
    exact (serve_raise _ _ _ _ _ Hd).
Qed.

(** *** Updating a book *)

Lemma get_book_pure (book_id : Z) (w : world) :
  exists o, get_book book_id w = (o, w).
Proof.
  unfold get_book, bind, query.
  destruct (first (select_book book_id (pending w))); eexists; reflexivity.
Qed.

Lemma author_resolution_world (full_name : string) (w w1 : world)
    (o : outcome Z) :
  _get_or_create_author full_name w = (o, w1) ->
  w1 = w \/ w1 = committing (insert_author full_name) w.
Proof.
  destruct (String.eqb_spec (PyStr.strip full_name) "") as [E|N].
  - rewrite (author_blank _ w E). intros [= _ <-]. auto.
  - destruct (get_or_create_author_runs _ w N) as (id & Hrun & _).
    rewrite Hrun. intros [= _ <-].
    destruct (author_found full_name (pending w)); auto.
Qed.

(** What [update_book] leaves behind: the session after author resolution,
    if the payload names an author, and on it at most one committed
    [UPDATE] of the row. *)
Lemma update_book_effect (book_id : Z) (payload : BookUpdate.t)
    (user : user_row) (w w' : world) (o : outcome BookOut.t) :
  update_book book_id payload user w = (o, w') ->
  exists author_id w1,
    (w1 = w \/ w1 = committing (insert_author (update_author_name payload)) w)
    /\ (BookUpdate.author payload = None -> author_id = None /\ w1 = w)
    /\ (w' = w1
        \/ w' = committing
                  (update_book_row (fields_of payload author_id) book_id) w1).
Proof.
  unfold update_book. unfold bind at 1. unfold query at 1.
  destruct (negb (id_truthy (first (select_book_ids book_id (pending w))))).
  { intros [= _ <-]. exists None, w. auto. }
  unfold bind at 1.
  destruct (str_truthy (BookUpdate.author payload)) eqn:Hauthor.
  - unfold bind at 1. fold (update_author_name payload).
    destruct (_get_or_create_author (update_author_name payload) w)
      as [[aid|e] w1] eqn:Hrun;
      pose proof (author_resolution_world _ _ _ _ Hrun) as Hw1.
    + unfold ret at 1. fold (fields_of payload (Some aid)).
      exists (Some aid), w1. split; [exact Hw1|].
      split; [intros Hnone; rewrite Hnone in Hauthor; discriminate|].
      revert H. unfold bind at 1.
      destruct (negb (no_fields (fields_of payload (Some aid)))).
      * unfold bind at 1, execute at 1, commit at 1.
        match goal with
        | |- context [get_book book_id ?w2] =>
            destruct (get_book_pure book_id w2) as [o2 Ho2]; rewrite Ho2
        end.
        intros [= _ <-]. right. reflexivity.
      * unfold ret at 1. destruct (get_book_pure book_id w1) as [o2 Ho2].
        rewrite Ho2. intros [= _ <-]. left. reflexivity.
    + intros [= _ <-]. exists None, w1. split; [exact Hw1|].
      split; [intros Hnone; rewrite Hnone in Hauthor; discriminate|].
      left. reflexivity.
  - unfold ret at 1. fold (fields_of payload None).
    exists None, w. split; [left; reflexivity|]. split; [auto|].
    revert H. unfold bind at 1.
    destruct (negb (no_fields (fields_of payload None))).
    + unfold bind at 1, execute at 1, commit at 1.
      match goal with
      | |- context [get_book book_id ?w2] =>
          destruct (get_book_pure book_id w2) as [o2 Ho2]; rewrite Ho2
      end.
      intros [= _ <-]. right. reflexivity.
    + unfold ret at 1. destruct (get_book_pure book_id w) as [o2 Ho2].
      rewrite Ho2. intros [= _ <-]. left. reflexivity.
Qed.

Lemma update_book_synced (book_id : Z) (payload : BookUpdate.t)
    (user : user_row) (w w' : world) (o : outcome BookOut.t) :
  update_book book_id payload user w = (o, w') -> synced w -> synced w'.
Proof.
  intros Hrun Hw.
  destruct (update_book_effect _ _ _ _ _ _ Hrun)
    as (aid & w1 & [->| ->] & _ & [->| ->]); try exact Hw; reflexivity.
Qed.

(** The store after an update request: as before, or as the service left
    it for the validated body. *)
Lemma serve_update_store (now : Z) (auth : option token) (book_id : Z)
    (body : BookUpdate.t) (store : tables) :
  snd (serve now (mkRequest auth (UpdateBook book_id body)) store) = store
  \/ exists body' user o w',
       BookUpdate.validate body = Return body'
       /\ update_book book_id body' user (mkWorld store store now) = (o, w')
       /\ snd (serve now (mkRequest auth (UpdateBook book_id body)) store)
          = pending w'.
Proof.
  set (req := mkRequest auth (UpdateBook book_id body)).
  set (w0 := mkWorld store store now).
  destruct (depends_pure req w0) as [[user|e] Ho].
  - destruct (BookUpdate.validate body) as [body'|e] eqn:Hval.
    + destruct (update_book book_id body' user w0) as [o w'] eqn:Hrun.
      right. exists body', user, o, w'.
      split; [reflexivity|]. split; [exact Hrun|].
      pose proof (update_book_synced _ _ _ _ _ _ Hrun eq_refl) as Hsync.
      assert (Hd : exists o', dispatch req w0 = (o', w')).
      { unfold dispatch, req. cbn [target]. fold req. unfold bind at 1.
        rewrite Ho. unfold bind at 1. unfold lift. rewrite Hval.
        unfold update_book_by_id, guarded, try_except, bind. rewrite Hrun.
        destruct o as [b|e]; [|destruct (negb (is_HTTPException e))];
          eexists; reflexivity. }
      destruct Hd as [[r|e] Hd].
      * rewrite (serve_return _ _ _ _ _ Hd). reflexivity.
      * rewrite (serve_raise _ _ _ _ _ Hd). exact Hsync.
    + left.
      assert (Hd : dispatch req w0 = (Raise e, w0)).
      { unfold dispatch, req. cbn [target]. fold req. unfold bind at 1.
        rewrite Ho. unfold bind at 1. unfold lift. rewrite Hval. reflexivity. }
      rewrite (serve_raise _ _ _ _ _ Hd). reflexivity.
  - left.
    assert (Hd : dispatch req w0 = (Raise e, w0)).
    { unfold dispatch, req. cbn [target]. fold req. unfold bind at 1.
      rewrite Ho. reflexivity. }
    rewrite (serve_raise _ _ _ _ _ Hd). reflexivity.
Qed.

Lemma updated_row_none (b : book_row) :
  updated_row (mkFields None None None None) b = b.
Proof. destruct b. reflexivity. Qed.

Lemma validate_update_fields (body body' : BookUpdate.t) :
  BookUpdate.validate body = Return body' ->
  BookUpdate.title body' = BookUpdate.title body
  /\ BookUpdate.author body' = BookUpdate.author body
  /\ (BookUpdate.published_year body = None ->
      BookUpdate.published_year body' = None)
  /\ (BookUpdate.genre body = None -> BookUpdate.genre body' = None).
Proof.
  unfold BookUpdate.validate.
  destruct (BookUpdate.min_length_1 (BookUpdate.title body)) as [ti|] eqn:Hti;
    [|discriminate].
  destruct (BookUpdate.min_length_1 (BookUpdate.author body)) as [au|] eqn:Hau;
    [|discriminate].
  destruct (BookUpdate.optional BookUpdate.published_year_valid
              (BookUpdate.published_year body)) as [y|] eqn:Hy; [|discriminate].
  destruct (BookUpdate.optional BookUpdate.genre_valid (BookUpdate.genre body))
    as [g|] eqn:Hg; [|discriminate].
  intros [= <-]. cbn.
  assert (Hmin : forall v v', BookUpdate.min_length_1 v = Return v' -> v' = v).
  { intros v v'. destruct v as [[|c s]|]; cbn; intros [=]; congruence. }
  split; [apply Hmin; exact Hti|]. split; [apply Hmin; exact Hau|].
  split; intros Hnone.
  - rewrite Hnone in Hy. cbn in Hy. congruence.
  - rewrite Hnone in Hg. cbn in Hg. congruence.
Qed.

(** X9. What an update request can change, whatever its token, body and
    outcome. It creates and removes no book, changes no book's id or
    creation time and leaves every book of another id as it was; and each
    field that the body leaves out stays as it was in every row: the title,
    the year, the genre, and for the author the author of every book and
    the table of authors. *)
Theorem update_book_by_id_changes (now : Z) (auth : option token) (book_id : Z)
    (body : BookUpdate.t) (store : tables) :
  map b_id
    (books (snd (serve now (mkRequest auth (UpdateBook book_id body)) store)))
  = map b_id (books store)
  /\ map b_created_at
       (books (snd (serve now (mkRequest auth (UpdateBook book_id body)) store)))
     = map b_created_at (books store)
  /\ (forall b,
        In b (books store) -> b_id b <> book_id ->
        In b (books
                (snd (serve now (mkRequest auth (UpdateBook book_id body)) store))))
  /\ (BookUpdate.title body = None ->
      map b_title
        (books (snd (serve now (mkRequest auth (UpdateBook book_id body)) store)))
      = map b_title (books store))
  /\ (BookUpdate.published_year body = None ->
      map b_published_year
        (books (snd (serve now (mkRequest auth (UpdateBook book_id body)) store)))
      = map b_published_year (books store))
  /\ (BookUpdate.genre body = None ->
      map b_genre
        (books (snd (serve now (mkRequest auth (UpdateBook book_id body)) store)))
      = map b_genre (books store))
  /\ (BookUpdate.author body = None ->
      map b_author_id
        (books (snd (serve now (mkRequest auth (UpdateBook book_id body)) store)))
      = map b_author_id (books store)
      /\ authors (snd (serve now (mkRequest auth (UpdateBook book_id body)) store))
         = authors store).
Proof.
  assert (Hshape : exists body' author_id,
             (BookUpdate.title body = None -> BookUpdate.title body' = None)
             /\ (BookUpdate.published_year body = None ->
                 BookUpdate.published_year body' = None)
             /\ (BookUpdate.genre body = None -> BookUpdate.genre body' = None)
             /\ (BookUpdate.author body = None ->
                 author_id = None
                 /\ authors (snd (serve now
                                    (mkRequest auth (UpdateBook book_id body))
                                    store))
                    = authors store)
             /\ (books (snd (serve now (mkRequest auth (UpdateBook book_id body))
                               store))
                 = books store
                 \/ books (snd (serve now
                                  (mkRequest auth (UpdateBook book_id body)) store))
                    = map (fun b => if b_id b =? book_id
                                    then updated_row (fields_of body' author_id) b
                                    else b)
                        (books store))).
  { destruct (serve_update_store now auth book_id body store)
      as [->|(body' & user & o & w' & Hval & Hrun & ->)].
    - exists body, None. repeat split; auto.
    - destruct (validate_update_fields _ _ Hval) as (Hti & Hau & Hy & Hg).
      destruct (update_book_effect _ _ _ _ _ _ Hrun)
        as (aid & w1 & Hw1 & Hnone & Hw').
      assert (Hb1 : books (pending w1) = books store)
        by (destruct Hw1 as [->| ->]; reflexivity).
      exists body', aid. split; [intros H; rewrite Hti; exact H|].
      split; [exact Hy|]. split; [exact Hg|]. split.
      + intros H. rewrite <- Hau in H. destruct (Hnone H) as [-> ->].
        split; [reflexivity|]. destruct Hw' as [->| ->]; reflexivity.
      + destruct Hw' as [->| ->]; [left; exact Hb1|].
        right. cbn [pending committing update_book_row books].
        rewrite Hb1. reflexivity. }
  destruct Hshape as (body' & aid & Hti & Hy & Hg & Hau & [Hsame|Hmap]).
  { rewrite Hsame. repeat split; auto. apply Hau. assumption. }
  rewrite Hmap.
  split; [apply map_map_same; intros b; destruct (b_id b =? book_id); reflexivity|].
  split; [apply map_map_same; intros b; destruct (b_id b =? book_id); reflexivity|].
  split.
  { intros b Hb Hid. apply in_map_iff. exists b. split; [|exact Hb].
    apply Z.eqb_neq in Hid. rewrite Hid. reflexivity. }
  split.
  { intros H. apply map_map_same. intros b.
    destruct (b_id b =? book_id); [|reflexivity].
    cbn. rewrite (Hti H). reflexivity. }
  split.
  { intros H. apply map_map_same. intros b.
    destruct (b_id b =? book_id); [|reflexivity].
    cbn. rewrite (Hy H). reflexivity. }
  split.
  { intros H. apply map_map_same. intros b.
    destruct (b_id b =? book_id); [|reflexivity].
    cbn. rewrite (Hg H). reflexivity. }
  intros H. destruct (Hau H) as [-> Hauthors]. split; [|exact Hauthors].
  apply map_map_same. intros b.
  destruct (b_id b =? book_id); reflexivity.
Qed.

Lemma no_fields_updated (f : update_fields) (b : book_row) :
  no_fields f = true -> updated_row f b = b.
Proof.
  destruct f as [[?|] [?|] [?|] [?|]]; cbn; try discriminate.
  intros _. destruct b. reflexivity.
Qed.

Lemma updated_row_in (f : update_fields) (b : book_row) (t : tables) :
  In b (books t) ->
  In (updated_row f b) (books (update_book_row f (b_id b) t)).
Proof.
  intros Hb. cbn [update_book_row books]. apply in_map_iff. exists b.
  split; [|exact Hb]. rewrite Z.eqb_refl. reflexivity.
Qed.

(** [update_book] on a stored book of a well-formed store: what it returns
    is the updated row, joined with the author it now refers to. *)
Lemma update_book_returns (payload : BookUpdate.t) (user : user_row) (w : world)
    (b : book_row) :
  store_ok (pending w) -> In b (books (pending w)) ->
  (str_truthy (BookUpdate.author payload) = true ->
   PyStr.strip (update_author_name payload) <> "") ->
  exists author_id a w',
    update_book (b_id b) payload user w
    = (BookOut_of (updated_row (fields_of payload author_id) b, a), w')
    /\ In a (authors (pending w'))
    /\ (str_truthy (BookUpdate.author payload) = true ->
        a_full_name a = update_author_name payload)
    /\ (str_truthy (BookUpdate.author payload) = false ->
        author_id = None /\ In a (authors (pending w))
        /\ a_id a = b_author_id b).
Proof.
  intros Hok Hb Hname.
  assert (Hfound : negb (id_truthy (first (select_book_ids (b_id b) (pending w))))
                   = false).
  { rewrite (select_book_ids_found (b_id b) (pending w) (in_map b_id _ _ Hb)).
    cbn [id_truthy]. rewrite negb_involutive. apply Z.eqb_neq.
    destruct (ok_book_ids _ Hok) as [_ Hpos]. rewrite Forall_forall in Hpos.
    specialize (Hpos _ (in_map b_id _ _ Hb)). lia. }
  unfold update_book. unfold bind at 1. unfold query at 1. rewrite Hfound.
  unfold bind at 1.
  destruct (str_truthy (BookUpdate.author payload)) eqn:Hauthor.
  - specialize (Hname eq_refl). unfold bind at 1.
    fold (update_author_name payload).
    destruct (get_or_create_author_runs _ w Hname) as (aid & Hrun & _).
    fold (author_resolved (update_author_name payload) w) in Hrun.
    pose proof (get_or_create_author_post _ _ _ _ Hrun) as [_ Hin].
    pose proof (author_resolved_ok (update_author_name payload) w Hok) as Hok1.
    pose proof (author_resolved_books (update_author_name payload) w)
      as [Hbooks _].
    set (w1 := author_resolved (update_author_name payload) w) in *.
    rewrite Hrun. unfold ret at 1. fold (fields_of payload (Some aid)).
    set (f := fields_of payload (Some aid)).
    assert (Hnf : negb (no_fields f) = true).
    { unfold no_fields. change (set_author_id f) with (Some aid).
      destruct (set_title f), (set_published_year f), (set_genre f);
        reflexivity. }
    rewrite Hnf. unfold bind at 1. unfold bind at 1, execute at 1, commit at 1.
    cbn [pending committed clock].
    set (w2 := mkWorld (update_book_row f (b_id b) (pending w1))
                 (update_book_row f (b_id b) (pending w1)) (clock w1)).
    assert (Hok2 : store_ok (pending w2)).
    { apply update_book_row_ok; [exact Hok1|].
      intros a' [= <-]. apply (in_map a_id) in Hin. exact Hin. }
    exists (Some aid), (mkAuthor aid (update_author_name payload)), w2.
    split; [|split; [exact Hin | split; [reflexivity | discriminate]]].
    apply (get_book_found w2 (updated_row f b));
      [exact Hok2 | | exact Hin | reflexivity].
    apply updated_row_in. rewrite Hbooks. exact Hb.
  - unfold ret at 1. fold (fields_of payload None).
    set (f := fields_of payload None).
    destruct (book_author _ _ Hok Hb) as (a & Ha & Hid).
    exists None, a.
    destruct (no_fields f) eqn:Hnf; cbn [negb]; unfold bind at 1.
    + unfold ret at 1. exists w.
      split; [|split; [exact Ha | split; [discriminate | auto]]].
      fold f. rewrite (no_fields_updated f b Hnf).
      apply (get_book_found w b); assumption.
    + unfold bind at 1, execute at 1, commit at 1.
      cbn [pending committed clock].
      set (w2 := mkWorld (update_book_row f (b_id b) (pending w))
                   (update_book_row f (b_id b) (pending w)) (clock w)).
      assert (Hok2 : store_ok (pending w2)).
      { apply update_book_row_ok; [exact Hok|].
        intros a' Hset. discriminate Hset. }
      exists w2.
      split; [|split; [exact Ha | split; [discriminate | auto]]].
      apply (get_book_found w2 (updated_row f b));
        [exact Hok2 | | exact Ha | exact Hid].
      apply updated_row_in. exact Hb.
Qed.

Lemma validated_fields_of (body body' : BookUpdate.t) (author_id : option Z) :
  BookUpdate.validate body = Return body' ->
  fields_of body' author_id
  = mkFields (option_map PyStr.strip (BookUpdate.title body'))
      (BookUpdate.published_year body') (BookUpdate.genre body') author_id
  /\ str_truthy (BookUpdate.author body')
     = match BookUpdate.author body' with Some _ => true | None => false end.
Proof.
  intros Hval.
  assert (Hgenre : forall g, BookUpdate.genre body' = Some g -> In g book_genres).
  { intros g Hg. destruct (BookUpdate.genre body) as [g0|] eqn:Hg0.
    - destruct (update_validate_genre _ _ g0 Hval Hg0) as (c & Hc & Hv).
      rewrite Hg in Hc. injection Hc as <-.
      rewrite update_genre_valid in Hv. apply create_genre_valid in Hv.
      apply Hv.
    - destruct (validate_update_fields _ _ Hval) as (_ & _ & _ & Hnone).
      rewrite (Hnone Hg0) in Hg. discriminate. }
  unfold BookUpdate.validate in Hval.
  destruct (BookUpdate.min_length_1 (BookUpdate.title body)) as [ti|] eqn:Hti;
    [|discriminate].
  destruct (BookUpdate.min_length_1 (BookUpdate.author body)) as [au|] eqn:Hau;
    [|discriminate].
  destruct (BookUpdate.optional BookUpdate.published_year_valid
              (BookUpdate.published_year body)) as [y|] eqn:Hy; [|discriminate].
  destruct (BookUpdate.optional BookUpdate.genre_valid (BookUpdate.genre body))
    as [g|] eqn:Hg; [|discriminate].
  injection Hval as <-. cbn in Hgenre. unfold fields_of. cbn.
  assert (Hmin : forall v v', BookUpdate.min_length_1 v = Return v' ->
                              str_truthy v'
                              = match v' with Some _ => true | None => false end).
  { intros v v'. destruct v as [[|c s]|]; cbn; intros [=]; subst; reflexivity. }
  rewrite (Hmin _ _ Hti), (Hmin _ _ Hau). split; [|reflexivity].
  f_equal.
  - destruct ti; reflexivity.
  - destruct y as [y|]; [|reflexivity].
    destruct (BookUpdate.published_year body) as [y0|]; [|discriminate].
    cbn in Hy. unfold BookUpdate.published_year_valid in Hy.
    destruct ((y0 <? 1800) || (y0 >? CURRENT_YEAR)) eqn:Htest; [discriminate|].
    injection Hy as <-. apply year_test_false in Htest. cbn.
    destruct (Z.eqb_spec y0 0); [lia | reflexivity].
  - destruct g as [g|]; [|reflexivity].
    destruct (canonical_strip g (Hgenre g eq_refl)) as [Hstrip Hne].
    cbn. apply String.eqb_neq in Hne. rewrite Hne. cbn. rewrite Hstrip.
    reflexivity.
Qed.

(** X10. Updating a stored book. On a well-formed store, a request with a
    valid token and a valid body for the id of a stored book that has a
    genre, its title and author in ASCII where given and the author not
    blank, is answered 200 with the book as it now is: each field of the
    body replaces the stored one, the title and the author's name trimmed,
    and each field that the body leaves out is the stored one; the id and
    the creation time are the stored ones. *)
Theorem update_book_by_id_answers (now : Z) (req : request) (store : tables)
    (body body' : BookUpdate.t) (user : user_row) (b : book_row) (g0 : string) :
  store_ok store ->
  target req = UpdateBook (b_id b) body ->
  authenticated now store req user ->
  BookUpdate.validate body = Return body' ->
  In b (books store) -> b_genre b = Some g0 ->
  (forall t, BookUpdate.title body' = Some t -> ascii_text t = true) ->
  (forall n, BookUpdate.author body' = Some n ->
             ascii_text n = true /\ PyStr.strip n <> "") ->
  exists a,
    fst (serve now req store)
    = mkResponse 200
        (OneBook
           (BookOut.mk (b_id b)
              (or_old (option_map PyStr.strip (BookUpdate.title body')) (b_title b))
              (a_full_name a)
              (or_old (BookUpdate.published_year body') (b_published_year b))
              (or_old (BookUpdate.genre body') g0)
              (b_created_at b)))
    /\ In a (authors (snd (serve now req store)))
    /\ match BookUpdate.author body' with
       | Some n => a_full_name a = PyStr.strip n
       | None => In a (authors store) /\ a_id a = b_author_id b
       end.
Proof.
  intros Hok Htarget Hauth Hval Hb Hg0 Htitle Hname.
  set (w0 := mkWorld store store now).
  assert (Hname' : str_truthy (BookUpdate.author body') = true ->
                   PyStr.strip (update_author_name body') <> "").
  { intros Ht. unfold update_author_name.
    destruct (BookUpdate.author body') as [n|]; [|discriminate].
    cbn [or_old]. rewrite strip_idempotent.
    exact (proj2 (Hname n eq_refl)). }
  destruct (update_book_returns body' user w0 b Hok Hb Hname')
    as (aid & a & w' & Hrun & Ha & Hgiven & Habsent).
  destruct (validated_fields_of body body' aid Hval) as [Hfields Htruthy].
  rewrite Hfields in Hrun.
  assert (Hout :
    BookOut_of
      (updated_row
         (mkFields (option_map PyStr.strip (BookUpdate.title body'))
            (BookUpdate.published_year body') (BookUpdate.genre body') aid) b,
       a)
    = Return
        (BookOut.mk (b_id b)
           (or_old (option_map PyStr.strip (BookUpdate.title body')) (b_title b))
           (a_full_name a)
           (or_old (BookUpdate.published_year body') (b_published_year b))
           (or_old (BookUpdate.genre body') g0)
           (b_created_at b))).
  { unfold BookOut_of, updated_row. cbn. rewrite Hg0.
    destruct (BookUpdate.genre body'); reflexivity. }
  rewrite Hout in Hrun.
  assert (Hd : dispatch req w0
               = (Return
                    (mkResponse 200
                       (OneBook
                          (BookOut.mk (b_id b)
                             (or_old (option_map PyStr.strip (BookUpdate.title body'))
                                (b_title b))
                             (a_full_name a)
                             (or_old (BookUpdate.published_year body')
                                (b_published_year b))
                             (or_old (BookUpdate.genre body') g0)
                             (b_created_at b)))),
                  w')).
  { unfold dispatch. rewrite Htarget. unfold bind at 1.
    rewrite (depends_resolved req w0 user Hauth).
    unfold bind at 1. unfold lift. rewrite Hval.
    unfold update_book_by_id, guarded, try_except, bind. rewrite Hrun.
    reflexivity. }
  exists a. rewrite (serve_return _ _ _ _ _ Hd). cbn [fst snd].
  split; [reflexivity|]. split; [exact Ha|].
  rewrite Htruthy in Hgiven, Habsent. unfold update_author_name in Hgiven.
  destruct (BookUpdate.author body') as [n|].
  - rewrite (Hgiven eq_refl). reflexivity.
  - destruct (Habsent eq_refl) as (_ & Hin & Hid). split; assumption.
Qed.

(** *** A blank author *)

Lemma update_book_blank (book_id : Z) (payload : BookUpdate.t) (user : user_row)
    (w : world) (n : string) :
  BookUpdate.author payload = Some n -> n <> "" -> PyStr.strip n = "" ->
  exists e,
    update_book book_id payload user w = (Raise e, w)
    /\ (In book_id (map b_id (books (pending w))) -> book_id <> 0 ->
        e = HTTPException 400 "Author name cannot be empty").
Proof.
  intros Hau Hne Hblank. unfold update_book. unfold bind at 1. unfold query at 1.
  destruct (negb (id_truthy (first (select_book_ids book_id (pending w)))))
    eqn:Hfound.
  - eexists. split; [reflexivity|]. intros Hin Hid.
    rewrite (select_book_ids_found _ _ Hin) in Hfound. cbn in Hfound.
    apply Z.eqb_neq in Hid. rewrite Hid in Hfound. discriminate.
  - unfold bind at 1. rewrite Hau. cbn [str_truthy or_old].
    apply String.eqb_neq in Hne. rewrite Hne. cbn [negb]. unfold bind at 1.
    rewrite author_blank by (rewrite strip_idempotent; exact Hblank).
    eexists. split; reflexivity.
Qed.

(** X11. A name of white space only. The validators let it through, and
    author resolution refuses it: adding a book with such an author is
    answered 400, and so is updating a stored book to such an author; the
    store is as before. *)
Theorem blank_author_refused (now : Z) (req : request) (store : tables)
    (user : user_row) :
  authenticated now store req user ->
  (forall body body',
      target req = AddBook body ->
      BookCreate.validate body = Return body' ->
      PyStr.strip (BookCreate.author body) = "" ->
      serve now req store
      = (mkResponse 400 (Detail "Author name cannot be empty"), store))
  /\ (forall book_id body body' n,
        target req = UpdateBook book_id body ->
        BookUpdate.validate body = Return body' ->
        BookUpdate.author body = Some n -> PyStr.strip n = "" ->
        In book_id (map b_id (books store)) -> book_id <> 0 ->
        serve now req store
        = (mkResponse 400 (Detail "Author name cannot be empty"), store)).
Proof.
  intros Hauth. set (w0 := mkWorld store store now). split.
  - intros body body' Htarget Hval Hblank.
    destruct (validate_create_fields _ _ Hval) as (_ & Hau & _).
    rewrite <- Hau in Hblank.
    assert (Hd : dispatch req w0
                 = (Raise (HTTPException 400 "Author name cannot be empty"), w0)).
    { unfold dispatch. rewrite Htarget. unfold bind at 1.
      rewrite (depends_resolved req w0 user Hauth).
      unfold bind at 1. unfold lift. rewrite Hval.
      unfold add_book, guarded, try_except, bind.
      rewrite (create_book_blank body' user w0 Hblank). reflexivity. }
    exact (serve_raise _ _ _ _ _ Hd).
  - intros book_id body body' n Htarget Hval Hau Hblank Hin Hid.
    destruct (validate_update_fields _ _ Hval) as (_ & Hau' & _).
    assert (Hne : n <> "").
    { intros ->. unfold BookUpdate.validate in Hval. rewrite Hau in Hval.
      cbn in Hval.
      destruct (BookUpdate.min_length_1 (BookUpdate.title body));
        discriminate. }
    rewrite <- Hau' in Hau.
    destruct (update_book_blank book_id body' user w0 n Hau Hne Hblank)
      as (e & Hrun & He).
    rewrite (He Hin Hid) in Hrun.
    assert (Hd : dispatch req w0
                 = (Raise (HTTPException 400 "Author name cannot be empty"), w0)).
    { unfold dispatch. rewrite Htarget. unfold bind at 1.
      rewrite (depends_resolved req w0 user Hauth).
      unfold bind at 1. unfold lift. rewrite Hval.
      unfold update_book_by_id, guarded, try_except, bind. rewrite Hrun.
      reflexivity. }
    exact (serve_raise _ _ _ _ _ Hd).
Qed.

(** *** Listing books *)

Lemma serve_list_invalid (now : Z) (auth : option token) (p : list_params)
    (store : tables) :
  page p < 1 \/ page_size p < 1 \/ 100 < page_size p ->
  exists errors,
    errors <> []
    /\ serve now (mkRequest auth (ListBooks p)) store
       = (mkResponse 422 (ValidationErrors errors), store).
Proof.
  intros Hbad.
  set (errors :=
         ((if page p <? 1
           then ["page: ensure this value is greater than or equal to 1"]
           else [])
          ++ (if page_size p <? 1
              then ["page_size: ensure this value is greater than or equal to 1"]
              else [])
          ++ (if page_size p >? 100
              then ["page_size: ensure this value is less than or equal to 100"]
              else []))%list).
  assert (Hne : errors <> []).
  { unfold errors.
    destruct (Z.ltb_spec (page p) 1); [discriminate|].
    destruct (Z.ltb_spec (page_size p) 1); [discriminate|].
    destruct (Z.gtb_spec (page_size p) 100); [discriminate|]. lia. }
  exists errors. split; [exact Hne|].
  assert (Hd : dispatch (mkRequest auth (ListBooks p)) (mkWorld store store now)
               = (Raise (RequestValidationError errors), mkWorld store store now)).
  { unfold dispatch. cbn [target]. unfold bind at 1.
    unfold validate_list_params, lift. fold errors. unfold collect.
    destruct errors; [contradiction | reflexivity]. }
  exact (serve_raise _ _ _ _ _ Hd).
Qed.

Lemma validate_list_params_ok (p : list_params) (w : world) :
  1 <= page p -> 1 <= page_size p <= 100 ->
  validate_list_params p w = (Return tt, w).
Proof.
  intros Hp Hs. unfold validate_list_params, lift.
  destruct (Z.ltb_spec (page p) 1); [lia|].
  destruct (Z.ltb_spec (page_size p) 1); [lia|].
  destruct (Z.gtb_spec (page_size p) 100); [lia|]. reflexivity.
Qed.

Lemma serve_list (now : Z) (auth : option token) (p : list_params)
    (store : tables) (o : outcome (list BookOut.t)) :
  1 <= page p -> 1 <= page_size p <= 100 ->
  list_books p (mkWorld store store now) = (o, mkWorld store store now) ->
  serve now (mkRequest auth (ListBooks p)) store
  = (match o with
     | Return l => mkResponse 200 (ManyBooks l)
     | Raise e =>
         mkResponse 500 (Detail ("Error fetching books: " ++ str_exn e))
     end, store).
Proof.
  intros Hp Hs Hl.
  destruct o as [l|e].
  - assert (Hd : dispatch (mkRequest auth (ListBooks p)) (mkWorld store store now)
                 = (Return (mkResponse 200 (ManyBooks l)),
                    mkWorld store store now)).
    { unfold dispatch. cbn [target]. unfold bind at 1.
      rewrite validate_list_params_ok by assumption.
      unfold get_books, try_except, bind. rewrite Hl. reflexivity. }
    exact (serve_return _ _ _ _ _ Hd).
  - assert (Hd : dispatch (mkRequest auth (ListBooks p)) (mkWorld store store now)
                 = (Raise (HTTPException 500
                             ("Error fetching books: " ++ str_exn e)),
                    mkWorld store store now)).
    { unfold dispatch. cbn [target]. unfold bind at 1.
      rewrite validate_list_params_ok by assumption.
      unfold get_books, try_except, bind. rewrite Hl. reflexivity. }
    exact (serve_raise _ _ _ _ _ Hd).
Qed.

(** X12. The status codes of a refused listing. A page below 1 or a page
    size outside 1..100 is answered 422. With those in range, a sort key or
    a sort order that the service does not know makes the service raise
    its 400, which the endpoint catches with every other exception: the
    request is answered 500, with the text of that exception in the
    detail. *)
Theorem get_books_refusals (now : Z) (auth : option token) (p : list_params)
    (store : tables) :
  (page p < 1 \/ page_size p < 1 \/ 100 < page_size p ->
   status_code (fst (serve now (mkRequest auth (ListBooks p)) store)) = 422
   /\ snd (serve now (mkRequest auth (ListBooks p)) store) = store)
  /\ (1 <= page p -> 1 <= page_size p <= 100 ->
      allowed_sort_columns (sort_by_ p) = None ->
      (forall w,
          list_books p w
          = (Raise (HTTPException 400
                      ("sort_by must be one of " ++ allowed_sort_keys)), w))
      /\ serve now (mkRequest auth (ListBooks p)) store
         = (mkResponse 500
              (Detail
                 ("Error fetching books: "
                  ++ str_exn
                       (HTTPException 400
                          ("sort_by must be one of " ++ allowed_sort_keys)))),
            store))
  /\ (1 <= page p -> 1 <= page_size p <= 100 ->
      allowed_sort_columns (sort_by_ p) <> None ->
      PyStr.mem (PyStr.lower (sort_order p)) ["asc"; "desc"] = false ->
      (forall w,
          list_books p w
          = (Raise (HTTPException 400 "sort_order must be 'asc' or 'desc'"), w))
      /\ serve now (mkRequest auth (ListBooks p)) store
         = (mkResponse 500
              (Detail
                 ("Error fetching books: "
                  ++ str_exn
                       (HTTPException 400 "sort_order must be 'asc' or 'desc'"))),
            store)).
Proof.
  split; [|split].
  - intros Hbad.
    destruct (serve_list_invalid now auth p store Hbad) as (errors & _ & ->).
    split; reflexivity.
  - intros Hp Hs Hkey.
    assert (Hl : forall w,
               list_books p w
               = (Raise (HTTPException 400
                           ("sort_by must be one of " ++ allowed_sort_keys)), w)).
    { intros w. unfold list_books. rewrite Hkey. reflexivity. }
    split; [exact Hl|].
    rewrite (serve_list now auth p store _ Hp Hs (Hl _)). reflexivity.
  - intros Hp Hs Hkey Horder.
    assert (Hl : forall w,
               list_books p w
               = (Raise (HTTPException 400 "sort_order must be 'asc' or 'desc'"),
                  w)).
    { intros w. unfold list_books.
      destruct (allowed_sort_columns (sort_by_ p)); [|contradiction].
      rewrite Horder. reflexivity. }
    split; [exact Hl|].
    rewrite (serve_list now auth p store _ Hp Hs (Hl _)). reflexivity.
Qed.











(** *** Refreshing an access token *)

Lemma jwt_decode_issued (scope email : string) (iat life : Z) (w : world) :
  jwt_decode (issued scope email iat life) SECRET_KEY [ALGORITHM] w
  = if iat + life <? clock w
    then (Raise (ExpiredSignatureError "Signature has expired."), w)
    else (Return [("sub", PyStr email); ("iat", PyInt iat);
                  ("exp", PyInt (iat + life)); ("scope", PyStr scope)], w).
Proof.
  unfold issued, jwt_encode, jwt_decode, PyStr.mem.
  unfold validate_exp, validate_sub, bind, utcnow, ret, raise. simpl.
  rewrite !String.eqb_refl. simpl.
  destruct (iat + life <? clock w); reflexivity.
Qed.

Lemma token_eqb_issued (scope email : string) (iat life : Z) :
  token_eqb (issued scope email iat life) (issued scope email iat life) = true.
Proof.
  unfold issued, jwt_encode, token_eqb. cbn.
  rewrite !String.eqb_refl, !Z.eqb_refl. reflexivity.
Qed.

Lemma token_eqb_other_time (scope email : string) (iat iat' life : Z) :
  iat' <> iat ->
  token_eqb (issued scope email iat' life) (issued scope email iat life) = false.
Proof.
  intros Hne. unfold issued, jwt_encode, token_eqb. cbn.
  apply Z.eqb_neq in Hne. rewrite Hne.
  rewrite ?andb_false_r, ?andb_false_l. reflexivity.
Qed.

Lemma token_eqb_other_scope (email : string) (iat life iat' life' : Z) :
  token_eqb (issued "refresh_token" email iat' life')
    (issued "access_token" email iat life) = false.
Proof.
  unfold issued, jwt_encode, token_eqb. cbn.
  rewrite ?andb_false_r, ?andb_false_l. reflexivity.
Qed.

(** [refresh_token] on a token that this service issued. *)
Lemma refresh_token_issued (scope email : string) (iat life : Z) (w : world) :
  refresh_token (issued scope email iat life) w
  = if iat + life <? clock w
    then (Raise (HTTPException 401 "Token expired"), w)
    else
      match first (select_users_by_email email (pending w)) with
      | None => (Raise (HTTPException 401 "Invalid token"), w)
      | Some user =>
          if differs (u_refresh_token user) (issued scope email iat life)
          then (Raise (HTTPException 401 "Invalid token"), w)
          else (Return (issued "access_token" email (clock w) (15 * 60),
                        "bearer"), w)
      end.
Proof.
  unfold refresh_token. unfold bind at 1. unfold try_except.
  unfold bind at 1. rewrite jwt_decode_issued.
  destruct (iat + life <? clock w); [reflexivity|].
  cbn [dict_get String.eqb Ascii.eqb Bool.eqb]. unfold ret at 1.
  unfold bind at 1. unfold query at 1.
  destruct (first (select_users_by_email email (pending w))) as [user|];
    [|reflexivity].
  destruct (differs (u_refresh_token user) (issued scope email iat life));
    reflexivity.
Qed.

Lemma refresh_token_pure (tok : token) (w : world) :
  exists o, refresh_token tok w = (o, w).
Proof.
  assert (H : forall I : world -> Prop,
             triple I (refresh_token tok) (on_return anything I)).
  { intros I. unfold refresh_token. eapply triple_bind with (R1 := anything).
    - apply triple_try.
      + eapply triple_bind with (R1 := anything).
        * unfold jwt_decode. destruct tok as [text|j];
            [apply triple_raise; kept|].
          destruct (negb (PyStr.mem (jws_alg j) [ALGORITHM]));
            [apply triple_raise; kept|].
          destruct (negb (String.eqb (jws_signature j)
                            (jws_sign SECRET_KEY (jws_alg j) (jws_claims j))));
            [apply triple_raise; kept|].
          eapply triple_bind with (R1 := anything).
          { unfold validate_exp. destruct (dict_has "exp" (jws_claims j));
              [|apply triple_ret; kept].
            destruct (dict_get "exp" (jws_claims j));
              try (apply triple_raise; kept).
            eapply triple_bind with (R1 := anything);
              [apply triple_utcnow; kept|].
            intros now. destruct (z <? now);
              [apply triple_raise | apply triple_ret]; kept. }
          intros ?. eapply triple_bind with (R1 := anything).
          { unfold validate_sub. destruct (dict_has "sub" (jws_claims j));
              [|apply triple_ret; kept].
            destruct (dict_get "sub" (jws_claims j));
              try (apply triple_raise; kept).
            apply triple_ret. kept. }
          intros ?. apply triple_ret. kept.
        * intros payload. destruct (dict_get "sub" payload);
            try (apply triple_ret; kept).
          apply triple_raise. kept.
      + intros e. destruct e; apply triple_raise; kept.
    - intros email. destruct email; try (apply triple_raise; kept).
      eapply triple_bind with (R1 := anything);
        [apply triple_query; kept|].
      intros result. destruct (first result) as [user|];
        [|apply triple_raise; kept].
      destruct (differs (u_refresh_token user) tok);
        [apply triple_raise; kept|].
      eapply triple_bind with (R1 := anything).
      + unfold create_access_token. cbv zeta.
        eapply triple_bind with (R1 := anything);
          [apply triple_utcnow; kept|].
        intros now. eapply triple_bind with (R1 := anything);
          [apply triple_utcnow; kept|].
        intros iat. apply triple_ret. kept.
      + intros a. apply triple_ret. kept. }
  specialize (H (fun w' => w' = w) w eq_refl).
  destruct (refresh_token tok w) as [o w'].
  simpl in H. destruct H as [-> _]. exists o. reflexivity.
Qed.

(** X14. The answers of the refresh service for a user found by the
    token's subject. A refresh token past its seven days is refused with
    "Token expired". Within them, the token is accepted only if it is the
    one stored in the user's row, and the answer is a new access token
    issued at the time of the call; it is refused with "Invalid token" when
    the row holds no token (after a sign-out) or the token of another
    sign-in. An access token is never accepted in its place, nor is text
    that is no token; and the service writes nothing. *)
Theorem refresh_token_answers (w : world) (u : user_row) (iat : Z) :
  first (select_users_by_email (u_email u) (pending w)) = Some u ->
  (iat + 7 * 24 * 60 * 60 < clock w ->
   refresh_token (issued "refresh_token" (u_email u) iat (7 * 24 * 60 * 60)) w
   = (Raise (HTTPException 401 "Token expired"), w))
  /\ (clock w <= iat + 7 * 24 * 60 * 60 ->
      (u_refresh_token u
       = Some (issued "refresh_token" (u_email u) iat (7 * 24 * 60 * 60)) ->
       refresh_token (issued "refresh_token" (u_email u) iat (7 * 24 * 60 * 60)) w
       = (Return (issued "access_token" (u_email u) (clock w) (15 * 60), "bearer"),
          w))
      /\ (u_refresh_token u = None ->
          refresh_token
            (issued "refresh_token" (u_email u) iat (7 * 24 * 60 * 60)) w
          = (Raise (HTTPException 401 "Invalid token"), w))
      /\ (forall iat',
            iat' <> iat ->
            u_refresh_token u
            = Some (issued "refresh_token" (u_email u) iat' (7 * 24 * 60 * 60)) ->
            refresh_token
              (issued "refresh_token" (u_email u) iat (7 * 24 * 60 * 60)) w
            = (Raise (HTTPException 401 "Invalid token"), w)))
  /\ (clock w <= iat + 15 * 60 ->
      forall iat',
        u_refresh_token u
        = Some (issued "refresh_token" (u_email u) iat' (7 * 24 * 60 * 60)) ->
        refresh_token (issued "access_token" (u_email u) iat (15 * 60)) w
        = (Raise (HTTPException 401 "Invalid token"), w))
  /\ (forall text,
        refresh_token (Opaque text) w
        = (Raise (HTTPException 401 "Invalid token"), w))
  /\ (forall tok, snd (refresh_token tok w) = w).
Proof.
  intros Hu. split; [|split; [|split; [|split]]].
  - intros Hlate. rewrite refresh_token_issued.
    destruct (Z.ltb_spec (iat + 7 * 24 * 60 * 60) (clock w)); [reflexivity | lia].
  - intros Hnow.
    assert (Hfresh : (iat + 7 * 24 * 60 * 60 <? clock w) = false)
      by (apply Z.ltb_ge; lia).
    split; [|split].
    + intros Hstored. rewrite refresh_token_issued, Hfresh, Hu, Hstored.
      cbn [differs]. rewrite token_eqb_issued. reflexivity.
    + intros Hstored. rewrite refresh_token_issued, Hfresh, Hu, Hstored.
      reflexivity.
    + intros iat' Hne Hstored.
      rewrite refresh_token_issued, Hfresh, Hu, Hstored.
      cbn [differs]. rewrite (token_eqb_other_time _ _ _ _ _ Hne). reflexivity.
  - intros Hnow iat' Hstored.
    assert (Hfresh : (iat + 15 * 60 <? clock w) = false)
      by (apply Z.ltb_ge; lia).
    rewrite refresh_token_issued, Hfresh, Hu, Hstored.
    cbn [differs]. rewrite token_eqb_other_scope. reflexivity.
  - intros text. reflexivity.
  - intros tok. destruct (refresh_token_pure tok w) as [o ->]. reflexivity.
Qed.

(** X15. Refreshing after a sign-in. The refresh token that a sign-in
    returned is accepted by the refresh service during its seven days, and
    the access token it then returns authenticates as the same user for
    fifteen minutes. Once the user has signed out, the same refresh token is
    refused. *)
Theorem refresh_after_signin (user : UserSignin.t) (w w' : world) (a r : token)
    (now : Z) :
  signin user w = (Return (a, r), w') ->
  now <= clock w + 7 * 24 * 60 * 60 ->
  exists db_user,
    u_email db_user = UserSignin.email user
    /\ refresh_token r (at_time now w')
       = (Return (issued "access_token" (u_email db_user) now (15 * 60), "bearer"),
          at_time now w')
    /\ (forall later,
          later <= now + 15 * 60 ->
          get_current_user (issued "access_token" (u_email db_user) now (15 * 60))
            (at_time later w')
          = (Return (with_refresh_token (Some r) db_user), at_time later w'))
    /\ refresh_token r
         (at_time now (snd (signout (Str (u_email db_user)) w')))
       = (Raise (HTTPException 401 "Invalid token"),
          at_time now (snd (signout (Str (u_email db_user)) w'))).
Proof.
  intros Hsignin Hnow.
  destruct (signin_returns _ _ _ _ _ Hsignin)
    as (db_user & Hfirst & _ & _ & Hr & Hw').
  exists db_user.
  assert (Hemail : u_email db_user = UserSignin.email user).
  { apply first_filter_holds in Hfirst as [He _]. apply String.eqb_eq. exact He. }
  fold (issued "refresh_token" (u_email db_user) (clock w) (7 * 24 * 60 * 60))
    in Hr.
  assert (Hsel : first (select_users_by_email (u_email db_user) (pending w'))
                 = Some (with_refresh_token (Some r) db_user)).
  { rewrite Hw'. cbn [pending]. rewrite Hemail.
    apply select_after_signin; [exact Hfirst | reflexivity]. }
  assert (Hfresh : (clock w + 7 * 24 * 60 * 60 <? now) = false)
    by (apply Z.ltb_ge; lia).
  split; [exact Hemail|]. split.
  { rewrite Hr, refresh_token_issued. cbn [at_time clock pending].
    rewrite Hfresh, Hsel. cbn [with_refresh_token u_refresh_token differs].
    rewrite Hr, token_eqb_issued. reflexivity. }
  split.
  - intros later Hlater. rewrite get_current_user_resolve.
    cbn [at_time clock pending]. f_equal.
    apply (issued_token_resolves "access_token" (15 * 60) later
             (at_time now w') (pending w')
             (with_refresh_token (Some r) db_user));
      [exact Hlater | exact Hsel].
  - destruct (signout_clears (u_email db_user) w') as [Hout Hcleared].
    rewrite Hout. cbn [snd].
    set (w2 := at_time now (committing (clear_refresh_token (u_email db_user)) w')).
    assert (Hin : exists u2,
               first (select_users_by_email (u_email db_user) (pending w2))
               = Some u2
               /\ u_email u2 = u_email db_user /\ u_refresh_token u2 = None).
    { cbn [w2 at_time pending committing].
      destruct (first (select_users_by_email (u_email db_user)
                         (clear_refresh_token (u_email db_user) (pending w'))))
        as [u2|] eqn:Hu2.
      - exists u2. split; [reflexivity|].
        apply first_filter_holds in Hu2 as [He Hin].
        apply String.eqb_eq in He. split; [exact He|].
        apply Hcleared; assumption.
      - exfalso. unfold select_users_by_email, clear_refresh_token in Hu2.
        cbn [users] in Hu2.
        apply first_some_in in Hsel. apply filter_In in Hsel as [Hin He].
        destruct (first_filter_some
                    (fun u => String.eqb (u_email u) (u_email db_user))
                    (map (fun u =>
                            if String.eqb (u_email u) (u_email db_user)
                            then mkUser (u_id u) (u_email u) (u_username u)
                                   (u_hashed_password u) None
                            else u) (users (pending w')))
                    (mkUser (u_id db_user) (u_email db_user)
                       (u_username db_user) (u_hashed_password db_user) None))
          as [b Hb].
        + apply in_map_iff. exists (with_refresh_token (Some r) db_user).
          split; [|exact Hin]. cbn. rewrite String.eqb_refl. reflexivity.
        + cbn. apply String.eqb_refl.
        + rewrite Hb in Hu2. discriminate. }
    destruct Hin as (u2 & Hu2 & He2 & Hnone).
    rewrite Hr, refresh_token_issued.
    replace (clock w2) with now by reflexivity.
    rewrite Hfresh, Hu2, Hnone. reflexivity.
Qed.

End LibraryAPI.

(** ** The statements on the concrete instance *)

(** A sign-in of alice at time 1000 issues the two tokens of [Demo]; the
    access token presented at time 1500 returns her row, and text that is
    no token is refused. *)
Lemma C1_witness :
  get_current_user Demo.SECRET_KEY Demo.ALGORITHM Demo.jws_sign
    Demo.access_token (mkWorld Demo.signed_in Demo.signed_in 1500)
  = (Return (Demo.alice (Some Demo.refresh_token)),
     mkWorld Demo.signed_in Demo.signed_in 1500)
  /\ get_current_user Demo.SECRET_KEY Demo.ALGORITHM Demo.jws_sign
       (Opaque "not-a-token") (mkWorld Demo.store Demo.store 1500)
     = (Raise (HTTPException 401 "Could not validate credentials"),
        mkWorld Demo.store Demo.store 1500).
Proof.
  destruct (C1_resolve_issued_and_refused Demo.SECRET_KEY Demo.ALGORITHM
              Demo.jws_sign Demo.pwd_context_hash Demo.pwd_context_verify
              Readers.json_loads Readers.csv_DictReader Demo.accept_all
              Demo.ilike Demo.collate_leb
              Demo.EmailStr_validate) as (Hissued & Hrefused & _).
  split.
  - destruct (Hissued (UserSignin.mk "alice@example.com" "wonderland")
                (mkWorld Demo.store Demo.store 1000)
                (mkWorld Demo.signed_in Demo.signed_in 1000)
                Demo.access_token Demo.refresh_token eq_refl)
      as (db_user & Hauth & Haccess & _).
    injection Hauth as <-.
    exact (Haccess 1500 ltac:(simpl; lia)).
  - apply Hrefused. constructor.
Defined.

Local Abbreviation demo_serve books_check :=
  (serve Demo.SECRET_KEY Demo.ALGORITHM Demo.jws_sign Demo.pwd_context_hash
     Demo.pwd_context_verify Readers.json_loads Readers.csv_DictReader
     books_check Demo.ilike Demo.collate_leb Demo.EmailStr_validate).

Local Abbreviation demo_signin :=
  (signin Demo.SECRET_KEY Demo.ALGORITHM Demo.jws_sign Demo.pwd_context_verify).

Local Abbreviation demo_bulk_import :=
  (bulk_import Readers.json_loads Readers.csv_DictReader Demo.accept_all).

Local Abbreviation demo_authenticated :=
  (authenticated Demo.SECRET_KEY Demo.ALGORITHM Demo.jws_sign).

Local Abbreviation demo_refresh_token :=
  (refresh_token Demo.SECRET_KEY Demo.ALGORITHM Demo.jws_sign).

Local Abbreviation demo_issued :=
  (issued Demo.SECRET_KEY Demo.ALGORITHM Demo.jws_sign).

Lemma demo_token_resolves (op : operation) :
  demo_authenticated 1500 Demo.signed_in
    (mkRequest (Some Demo.access_token) op)
    (Demo.alice (Some Demo.refresh_token)).
Proof. exists Demo.access_token. split; reflexivity. Qed.

(** An unknown email and a wrong password for alice fail alike. *)
Lemma C2_witness :
  demo_signin (UserSignin.mk "nobody@example.com" "guess")
    (mkWorld Demo.store Demo.store 1000)
  = (Raise (HTTPException 400 "Incorrect email or password"),
     mkWorld Demo.store Demo.store 1000)
  /\ demo_signin (UserSignin.mk "alice@example.com" "guess")
       (mkWorld Demo.store Demo.store 1000)
     = demo_signin (UserSignin.mk "nobody@example.com" "guess")
         (mkWorld Demo.store Demo.store 1000).
Proof.
  destruct (C2_signin_failures_indistinguishable Demo.SECRET_KEY Demo.ALGORITHM
              Demo.jws_sign Demo.pwd_context_hash Demo.pwd_context_verify
              Readers.json_loads Readers.csv_DictReader Demo.accept_all
              Demo.ilike Demo.collate_leb
              Demo.EmailStr_validate
              (mkWorld Demo.store Demo.store 1000)
              "nobody@example.com" "guess" "alice@example.com" "guess"
              (Demo.alice None) eq_refl eq_refl eq_refl)
    as (_ & _ & Hnobody & Hsame & _).
  split; [exact Hnobody | exact Hsame].
Defined.

(** C3, on the code. Resolving [X] and then [X] with a space on either
    side inserts two author rows with two ids, directly and through
    [create_book]: the name is trimmed for the emptiness test only. *)
Example C3_padded_name_second_author :
  (let w0 := mkWorld Demo.store Demo.store 0 in
   let w1 := committing (insert_author "X") w0 in
   let w2 := committing (insert_author " X ") w1 in
   _get_or_create_author "X" w0 = (Return 1, w1)
   /\ _get_or_create_author " X " w1 = (Return 2, w2)
   /\ authors (committed w2) = [mkAuthor 1 "X"; mkAuthor 2 " X "])
  /\ (let w0 := mkWorld Demo.store Demo.store 0 in
      let w1 := snd (create_book Demo.accept_all (Demo.book_by "X")
                       (Demo.alice None) w0) in
      let w2 := snd (create_book Demo.accept_all (Demo.book_by " X ")
                       (Demo.alice None) w1) in
      authors (committed w2) = [mkAuthor 1 "X"; mkAuthor 2 " X "]
      /\ map b_author_id (books (committed w2)) = [1; 2]).
Proof. repeat split; reflexivity. Qed.



(** A JSON object at the top level is refused. *)
Lemma C5_witness :
  demo_bulk_import
    (mkUpload "books.json" (Readers.quoted "{'title':'A','author':'B'}"))
    (Demo.alice None) (mkWorld Demo.store Demo.store 1000)
  = (Raise (HTTPException 400 "JSON must be an array of book objects"),
     mkWorld Demo.store Demo.store 1000)
  /\ demo_serve Demo.accept_all 1500
       (mkRequest (Some Demo.access_token)
          (BulkImport
             (mkUpload "books.json" (Readers.quoted "{'title':'A','author':'B'}"))))
       Demo.signed_in
     = (mkResponse 400 (Detail "JSON must be an array of book objects"),
        Demo.signed_in).
Proof.
  destruct (C5_non_array_json_rejected Demo.SECRET_KEY Demo.ALGORITHM
              Demo.jws_sign Demo.pwd_context_hash Demo.pwd_context_verify
              Readers.json_loads Readers.csv_DictReader Demo.accept_all
              Demo.ilike Demo.collate_leb
              Demo.EmailStr_validate
              (mkUpload "books.json" (Readers.quoted "{'title':'A','author':'B'}"))
              (Demo.alice (Some Demo.refresh_token))
              (PyDict [("title", PyStr "A"); ("author", PyStr "B")])
              eq_refl eq_refl eq_refl)
    as [Hservice Hendpoint].
  split.
  - exact (Hservice (mkWorld Demo.store Demo.store 1000)).
  - apply Hendpoint; [reflexivity | apply demo_token_resolves].
Defined.



(** C8, on the code. Alice is signed in and presents her access token to
    the sign-out endpoint: it answers 500 and her refresh token is still in
    her record. *)
Example C8_signout_leaves_refresh_token :
  status_code
    (fst (demo_serve Demo.accept_all 1500
            (mkRequest (Some Demo.access_token) Signout) Demo.signed_in))
  = 500
  /\ snd (demo_serve Demo.accept_all 1500
            (mkRequest (Some Demo.access_token) Signout) Demo.signed_in)
     = Demo.signed_in
  /\ map u_refresh_token (users Demo.signed_in) = [Some Demo.refresh_token].
Proof. repeat split; reflexivity. Qed.



(** ** The further statements on the concrete instance *)

Lemma demo_store_ok : store_ok Demo.signed_in.
Proof.
  constructor; simpl.
  - split; repeat constructor; simpl; try tauto. lia.
  - split; constructor.
  - split; constructor.
  - repeat constructor. simpl. tauto.
  - constructor.
  - intros b [].
Qed.

Lemma demo_library_ok : store_ok Demo.library.
Proof.
  constructor; simpl.
  - split; repeat constructor; simpl; try tauto. lia.
  - split; repeat constructor; simpl; try tauto. lia.
  - split; repeat constructor; simpl; try tauto. lia.
  - repeat constructor. simpl. tauto.
  - repeat constructor. simpl. tauto.
  - intros b [<-|[]]. left. reflexivity.
Qed.

Lemma demo_library_valid : catalogue_valid Demo.library.
Proof.
  constructor; [|constructor]. split; [unfold CURRENT_YEAR; simpl; lia|].
  exists "Fiction". split; [reflexivity | left; reflexivity].
Qed.

Lemma demo_library_token (op : operation) :
  demo_authenticated 1500 Demo.library
    (mkRequest (Some Demo.access_token) op)
    (Demo.alice (Some Demo.refresh_token)).
Proof. exists Demo.access_token. split; reflexivity. Qed.

(** Adding a book by a new author keeps the store well-formed. *)
Lemma store_ok_preserved_witness :
  store_ok Demo.signed_in
  /\ store_ok
       (snd (demo_serve Demo.accept_all 1500
               (mkRequest (Some Demo.access_token)
                  (AddBook (Demo.book_by "Ann")))
               Demo.signed_in)).
Proof.
  split; [exact demo_store_ok|].
  exact (proj1 (store_ok_preserved Demo.SECRET_KEY Demo.ALGORITHM Demo.jws_sign
                  Demo.pwd_context_hash Demo.pwd_context_verify
                  Readers.json_loads Readers.csv_DictReader Demo.accept_all
                  Demo.ilike Demo.collate_leb
              Demo.EmailStr_validate)
           1500 _ Demo.signed_in demo_store_ok).
Defined.

(** Updating the year of the one book keeps the catalogue valid. *)
Lemma catalogue_valid_preserved_witness :
  catalogue_valid Demo.library
  /\ catalogue_valid
       (snd (demo_serve Demo.accept_all 1500
               (mkRequest (Some Demo.access_token)
                  (UpdateBook 1 (BookUpdate.mk None None (Some 1984) None)))
               Demo.library)).
Proof.
  split; [exact demo_library_valid|].
  exact (proj1 (catalogue_valid_preserved Demo.SECRET_KEY Demo.ALGORITHM
                  Demo.jws_sign Demo.pwd_context_hash Demo.pwd_context_verify
                  Readers.json_loads Readers.csv_DictReader Demo.accept_all
                  Demo.ilike Demo.collate_leb
              Demo.EmailStr_validate)
           1500 _ Demo.library demo_library_valid).
Defined.

(** Bob signs up and gets an id that no user had; a sign-up with the email
    of alice, its domain in capitals, is refused; a body whose email is no
    address is answered 422. *)
Lemma signup_once_witness :
  store_ok Demo.signed_in
  /\ (exists new_id,
        ~ In new_id (map u_id (users Demo.signed_in))
        /\ demo_serve Demo.accept_all 1500
             (mkRequest None (Signup (UserSignup.mk "bob@example.com" "bob" "pw")))
             Demo.signed_in
           = (mkResponse 201 (UserCreated new_id "bob@example.com" "bob"),
              mkTables
                [Demo.alice (Some Demo.refresh_token);
                 mkUser new_id "bob@example.com" "bob" "$2b$pw" None] [] []))
  /\ Demo.EmailStr_validate "alice@EXAMPLE.COM" = Return "alice@example.com"
  /\ demo_serve Demo.accept_all 1600
       (mkRequest None
          (Signup (UserSignup.mk "alice@EXAMPLE.COM" "eve" "pw")))
       Demo.signed_in
     = (mkResponse 400 (Detail "Email already registered"), Demo.signed_in)
  /\ status_code
       (fst (demo_serve Demo.accept_all 1700
               (mkRequest None
                  (Signup (UserSignup.mk "not-an-email" "eve" "pw")))
               Demo.signed_in)) = 422.
Proof.
  split; [exact demo_store_ok|]. split; [|split; [reflexivity|split]].
  - destruct (proj1 (proj2 (signup_once Demo.SECRET_KEY Demo.ALGORITHM
                              Demo.jws_sign Demo.pwd_context_hash
                              Demo.pwd_context_verify Readers.json_loads
                              Readers.csv_DictReader Demo.accept_all Demo.ilike
                              Demo.collate_leb Demo.EmailStr_validate 1500 None
                              (UserSignup.mk "bob@example.com" "bob" "pw")
                              Demo.signed_in demo_store_ok)
                       "bob@example.com" eq_refl))
      as [new_id [Hfresh [Hserve _]]].
    + simpl. intros [H|[]]. discriminate H.
    + exists new_id. split; [exact Hfresh | exact Hserve].
  - refine (proj2 (proj2 (signup_once Demo.SECRET_KEY Demo.ALGORITHM
                            Demo.jws_sign Demo.pwd_context_hash
                            Demo.pwd_context_verify Readers.json_loads
                            Readers.csv_DictReader Demo.accept_all Demo.ilike
                            Demo.collate_leb Demo.EmailStr_validate 1600 None
                            (UserSignup.mk "alice@EXAMPLE.COM" "eve" "pw")
                            Demo.signed_in demo_store_ok)
                     "alice@example.com" eq_refl) _).
    simpl. left. reflexivity.
  - exact (proj1 (proj1 (signup_once Demo.SECRET_KEY Demo.ALGORITHM
                           Demo.jws_sign Demo.pwd_context_hash
                           Demo.pwd_context_verify Readers.json_loads
                           Readers.csv_DictReader Demo.accept_all Demo.ilike
                           Demo.collate_leb Demo.EmailStr_validate 1700 None
                           (UserSignup.mk "not-an-email" "eve" "pw")
                           Demo.signed_in demo_store_ok)
                    (ValueError "value is not a valid email address") eq_refl)).
Defined.

(** Bob signs up at 1500 and signs in at 2000; his access token
    authenticates a request at 2500. *)
Lemma signin_after_signup_witness :
  exists new_id,
    ~ In new_id (map u_id (users Demo.store))
    /\ demo_serve Demo.accept_all 2000
         (mkRequest None (Signin "bob@example.com" "pw"))
         (snd (demo_serve Demo.accept_all 1500
                 (mkRequest None
                    (Signup (UserSignup.mk "bob@example.com" "bob" "pw")))
                 Demo.store))
       = (mkResponse 200
            (Tokens (demo_issued "access_token" "bob@example.com" 2000 (15 * 60))
               (demo_issued "refresh_token" "bob@example.com" 2000
                  (7 * 24 * 60 * 60))),
          mkTables
            [Demo.alice None;
             mkUser new_id "bob@example.com" "bob" "$2b$pw"
               (Some (demo_issued "refresh_token" "bob@example.com" 2000
                        (7 * 24 * 60 * 60)))] [] [])
    /\ demo_authenticated 2500
         (mkTables
            [Demo.alice None;
             mkUser new_id "bob@example.com" "bob" "$2b$pw"
               (Some (demo_issued "refresh_token" "bob@example.com" 2000
                        (7 * 24 * 60 * 60)))] [] [])
         (mkRequest
            (Some (demo_issued "access_token" "bob@example.com" 2000 (15 * 60)))
            Signout)
         (mkUser new_id "bob@example.com" "bob" "$2b$pw"
            (Some (demo_issued "refresh_token" "bob@example.com" 2000
                     (7 * 24 * 60 * 60)))).
Proof.
  assert (Hnew : ~ In "bob@example.com" (map u_email (users Demo.store))).
  { simpl. intros [H|[]]. discriminate H. }
  destruct (signin_after_signup Demo.SECRET_KEY Demo.ALGORITHM Demo.jws_sign
              Demo.pwd_context_hash Demo.pwd_context_verify
              Readers.json_loads Readers.csv_DictReader Demo.accept_all
              Demo.ilike Demo.collate_leb Demo.EmailStr_validate
              1500 2000 2500 None None
              (UserSignup.mk "bob@example.com" "bob" "pw") "bob@example.com"
              Demo.store eq_refl Hnew eq_refl)
    as [new_id [Hfresh [Hsignin Hauth]]].
  exists new_id. split; [exact Hfresh|]. split; [exact Hsignin|].
  apply Hauth. simpl. lia.
Defined.

(** The one book of the library is fetched; id 7 is not found. *)
Lemma get_book_by_id_answers_witness :
  demo_serve Demo.accept_all 1500 (mkRequest None (GetBook 1)) Demo.library
  = (mkResponse 200
       (OneBook (BookOut.mk 1 "Dune" "Frank Herbert" 1965 "Fiction" 1200)),
     Demo.library)
  /\ db_integer 7
  /\ demo_serve Demo.accept_all 1500 (mkRequest None (GetBook 7)) Demo.library
     = (mkResponse 404 (Detail "Book not found"), Demo.library).
Proof.
  destruct (get_book_by_id_answers Demo.SECRET_KEY Demo.ALGORITHM Demo.jws_sign
              Demo.pwd_context_hash Demo.pwd_context_verify
              Readers.json_loads Readers.csv_DictReader Demo.accept_all
              Demo.ilike Demo.collate_leb
              Demo.EmailStr_validate 1500 None Demo.library
              demo_library_ok)
    as [Hfound Hmissing].
  split; [|split].
  - destruct (Hfound Demo.dune "Fiction" (or_introl eq_refl) eq_refl)
      as (a & [<-|[]] & _ & Hserve).
    exact Hserve.
  - unfold db_integer. lia.
  - apply Hmissing; [unfold db_integer; lia|].
    simpl. intros [H|[]]. discriminate H.
Defined.

(** Alice adds a book by a new author and fetches it under its new id. *)
Lemma add_book_then_get_witness :
  exists new_id,
    ~ In new_id (map b_id (books Demo.library))
    /\ fst (demo_serve Demo.accept_all 1500
              (mkRequest (Some Demo.access_token) (AddBook (Demo.book_by "Ann")))
              Demo.library)
       = mkResponse 201
           (OneBook (BookOut.mk new_id "Title" "Ann" 2000 "Fiction" 1500))
    /\ fst (demo_serve Demo.accept_all 1600 (mkRequest None (GetBook new_id))
              (snd (demo_serve Demo.accept_all 1500
                      (mkRequest (Some Demo.access_token)
                         (AddBook (Demo.book_by "Ann")))
                      Demo.library)))
       = mkResponse 200
           (OneBook (BookOut.mk new_id "Title" "Ann" 2000 "Fiction" 1500)).
Proof.
  assert (Hname : PyStr.strip (BookCreate.author (Demo.book_by "Ann")) <> "").
  { vm_compute. discriminate. }
  destruct (add_book_then_get Demo.SECRET_KEY Demo.ALGORITHM Demo.jws_sign
              Demo.pwd_context_hash Demo.pwd_context_verify
              Readers.json_loads Readers.csv_DictReader Demo.accept_all
              Demo.ilike Demo.collate_leb
              Demo.EmailStr_validate 1500
              (mkRequest (Some Demo.access_token) (AddBook (Demo.book_by "Ann")))
              Demo.library (Demo.book_by "Ann") (Demo.book_by "Ann")
              (Demo.alice (Some Demo.refresh_token))
              demo_library_ok eq_refl (demo_library_token _) eq_refl
              eq_refl eq_refl Hname (fun _ _ => eq_refl))
    as (new_id & author_id & Hfresh & Hresponse & _ & _ & Hget).
  exists new_id. split; [exact Hfresh|]. split; [exact Hresponse|].
  exact (f_equal fst (Hget 1600 None)).
Defined.

(** Alice deletes the one book; deleting id 7 is answered 404. *)
Lemma delete_book_by_id_answers_witness :
  db_integer 1 /\ db_integer 7
  /\ demo_serve Demo.accept_all 1500
    (mkRequest (Some Demo.access_token) (DeleteBook 1)) Demo.library
  = (mkResponse 204 NoContent,
     mkTables [Demo.alice (Some Demo.refresh_token)]
       [mkAuthor 1 "Frank Herbert"] [])
  /\ demo_serve Demo.accept_all 1500
       (mkRequest (Some Demo.access_token) (DeleteBook 7)) Demo.library
     = (mkResponse 404 (Detail "Book with ID 7 not found"), Demo.library).
Proof.
  split; [unfold db_integer; lia|]. split; [unfold db_integer; lia|].
  split.
  - refine (proj1 (proj1 (delete_book_by_id_answers Demo.SECRET_KEY
                            Demo.ALGORITHM Demo.jws_sign Demo.pwd_context_hash
                            Demo.pwd_context_verify Readers.json_loads
                            Readers.csv_DictReader Demo.accept_all Demo.ilike
                            Demo.collate_leb
              Demo.EmailStr_validate 1500
                            (mkRequest (Some Demo.access_token) (DeleteBook 1))
                            Demo.library 1
                            (Demo.alice (Some Demo.refresh_token))
                            demo_library_ok _ eq_refl (demo_library_token _))
                     _)).
    + unfold db_integer. lia.
    + simpl. left. reflexivity.
  - refine (proj2 (delete_book_by_id_answers Demo.SECRET_KEY
                     Demo.ALGORITHM Demo.jws_sign Demo.pwd_context_hash
                     Demo.pwd_context_verify Readers.json_loads
                     Readers.csv_DictReader Demo.accept_all Demo.ilike
                     Demo.collate_leb
              Demo.EmailStr_validate 1500
                     (mkRequest (Some Demo.access_token) (DeleteBook 7))
                     Demo.library 7
                     (Demo.alice (Some Demo.refresh_token))
                     demo_library_ok _ eq_refl (demo_library_token _)) _).
    + unfold db_integer. lia.
    + simpl. intros [H|[]]. discriminate H.
Defined.

(** An update of the year alone leaves the title as it was. *)
Lemma update_book_by_id_changes_witness :
  map b_title
    (books
       (snd (demo_serve Demo.accept_all 1500
               (mkRequest (Some Demo.access_token)
                  (UpdateBook 1 (BookUpdate.mk None None (Some 1984) None)))
               Demo.library)))
  = ["Dune"]
  /\ map b_published_year
       (books
          (snd (demo_serve Demo.accept_all 1500
                  (mkRequest (Some Demo.access_token)
                     (UpdateBook 1 (BookUpdate.mk None None (Some 1984) None)))
                  Demo.library)))
     = [1984].
Proof.
  split; [|reflexivity].
  exact (proj1 (proj2 (proj2 (proj2
           (update_book_by_id_changes Demo.SECRET_KEY Demo.ALGORITHM
              Demo.jws_sign Demo.pwd_context_hash Demo.pwd_context_verify
              Readers.json_loads Readers.csv_DictReader Demo.accept_all
              Demo.ilike Demo.collate_leb
              Demo.EmailStr_validate 1500 (Some Demo.access_token) 1
              (BookUpdate.mk None None (Some 1984) None) Demo.library))))
           eq_refl).
Defined.

(** Alice retitles the book, names its author anew and moves its year;
    the genre is the stored one. *)
Lemma update_book_by_id_answers_witness :
  fst (demo_serve Demo.accept_all 1500
         (mkRequest (Some Demo.access_token)
            (UpdateBook 1
               (BookUpdate.mk (Some " Dune Messiah ") (Some "F. Herbert ")
                  (Some 1969) None)))
         Demo.library)
  = mkResponse 200
      (OneBook (BookOut.mk 1 "Dune Messiah" "F. Herbert" 1969 "Fiction" 1200)).
Proof.
  assert (Htitle : forall t, Some " Dune Messiah " = Some t ->
                             ascii_text t = true).
  { intros t [= <-]. reflexivity. }
  assert (Hname : forall n, Some "F. Herbert " = Some n ->
                            ascii_text n = true /\ PyStr.strip n <> "").
  { intros n [= <-]. split; [reflexivity|]. vm_compute. discriminate. }
  destruct (update_book_by_id_answers Demo.SECRET_KEY Demo.ALGORITHM
              Demo.jws_sign Demo.pwd_context_hash Demo.pwd_context_verify
              Readers.json_loads Readers.csv_DictReader Demo.accept_all
              Demo.ilike Demo.collate_leb
              Demo.EmailStr_validate 1500
              (mkRequest (Some Demo.access_token)
                 (UpdateBook 1
                    (BookUpdate.mk (Some " Dune Messiah ") (Some "F. Herbert ")
                       (Some 1969) None)))
              Demo.library
              (BookUpdate.mk (Some " Dune Messiah ") (Some "F. Herbert ")
                 (Some 1969) None)
              (BookUpdate.mk (Some " Dune Messiah ") (Some "F. Herbert ")
                 (Some 1969) None)
              (Demo.alice (Some Demo.refresh_token)) Demo.dune "Fiction"
              demo_library_ok eq_refl (demo_library_token _) eq_refl
              (or_introl eq_refl) eq_refl Htitle Hname)
    as (a & Hresponse & _ & Hfull).
  cbn [BookUpdate.author] in Hfull.
  destruct a as [aid full]. cbn [a_full_name] in Hfull, Hresponse.
  rewrite Hfull in Hresponse. exact Hresponse.
Defined.

(** An author of white space only is refused with 400. *)
Lemma blank_author_refused_witness :
  demo_serve Demo.accept_all 1500
    (mkRequest (Some Demo.access_token) (AddBook (Demo.book_by "   ")))
    Demo.library
  = (mkResponse 400 (Detail "Author name cannot be empty"), Demo.library).
Proof.
  exact (proj1 (blank_author_refused Demo.SECRET_KEY Demo.ALGORITHM
                  Demo.jws_sign Demo.pwd_context_hash Demo.pwd_context_verify
                  Readers.json_loads Readers.csv_DictReader Demo.accept_all
                  Demo.ilike Demo.collate_leb
              Demo.EmailStr_validate 1500
                  (mkRequest (Some Demo.access_token)
                     (AddBook (Demo.book_by "   ")))
                  Demo.library (Demo.alice (Some Demo.refresh_token))
                  (demo_library_token _))
           (Demo.book_by "   ") (Demo.book_by "   ") eq_refl eq_refl eq_refl).
Defined.

(** Page 0 is answered 422; the sort key [isbn] is answered 500. *)
Lemma get_books_refusals_witness :
  status_code
    (fst (demo_serve Demo.accept_all 1500
            (mkRequest None
               (ListBooks
                  (mkListParams 0 10 None None None None None "title" "asc")))
            Demo.library))
  = 422
  /\ status_code
       (fst (demo_serve Demo.accept_all 1500
               (mkRequest None
                  (ListBooks
                     (mkListParams 1 10 None None None None None "isbn" "asc")))
               Demo.library))
     = 500.
Proof.
  split.
  - refine (proj1 (proj1 (get_books_refusals Demo.SECRET_KEY Demo.ALGORITHM
                            Demo.jws_sign Demo.pwd_context_hash
                            Demo.pwd_context_verify Readers.json_loads
                            Readers.csv_DictReader Demo.accept_all Demo.ilike
                            Demo.collate_leb
              Demo.EmailStr_validate 1500 None
                            (mkListParams 0 10 None None None None None
                               "title" "asc")
                            Demo.library) _)).
    left. simpl. lia.
  - rewrite (proj2 (proj1 (proj2
               (get_books_refusals Demo.SECRET_KEY Demo.ALGORITHM
                  Demo.jws_sign Demo.pwd_context_hash
                  Demo.pwd_context_verify Readers.json_loads
                  Readers.csv_DictReader Demo.accept_all Demo.ilike
                  Demo.collate_leb
              Demo.EmailStr_validate 1500 None
                  (mkListParams 1 10 None None None None None "isbn" "asc")
                  Demo.library))
               ltac:(simpl; lia) ltac:(simpl; lia) eq_refl)).
    reflexivity.
Defined.


(** Alice's stored refresh token is accepted at 2000; her access token is
    refused in its place. *)
Lemma refresh_token_answers_witness :
  demo_refresh_token Demo.refresh_token
    (mkWorld Demo.signed_in Demo.signed_in 2000)
  = (Return (demo_issued "access_token" "alice@example.com" 2000 (15 * 60),
             "bearer"),
     mkWorld Demo.signed_in Demo.signed_in 2000)
  /\ demo_refresh_token Demo.access_token
       (mkWorld Demo.signed_in Demo.signed_in 1500)
     = (Raise (HTTPException 401 "Invalid token"),
        mkWorld Demo.signed_in Demo.signed_in 1500).
Proof.
  split.
  - refine (proj1 (proj1 (proj2
             (refresh_token_answers Demo.SECRET_KEY Demo.ALGORITHM Demo.jws_sign
                (mkWorld Demo.signed_in Demo.signed_in 2000)
                (Demo.alice (Some Demo.refresh_token)) 1000 eq_refl)) _) eq_refl).
    simpl. lia.
  - refine (proj1 (proj2 (proj2
             (refresh_token_answers Demo.SECRET_KEY Demo.ALGORITHM Demo.jws_sign
                (mkWorld Demo.signed_in Demo.signed_in 1500)
                (Demo.alice (Some Demo.refresh_token)) 1000 eq_refl))) _ 1000
              eq_refl).
    simpl. lia.
Defined.

(** Alice signs in at 1000 and refreshes at 5000. *)
Lemma refresh_after_signin_witness :
  exists access_token,
    demo_refresh_token Demo.refresh_token
      (mkWorld Demo.signed_in Demo.signed_in 5000)
    = (Return (access_token, "bearer"),
       mkWorld Demo.signed_in Demo.signed_in 5000).
Proof.
  destruct (refresh_after_signin Demo.SECRET_KEY Demo.ALGORITHM Demo.jws_sign
              Demo.pwd_context_verify
              (UserSignin.mk "alice@example.com" "wonderland")
              (mkWorld Demo.store Demo.store 1000)
              (mkWorld Demo.signed_in Demo.signed_in 1000)
              Demo.access_token Demo.refresh_token 5000 eq_refl
              ltac:(simpl; lia))
    as (db_user & _ & Hrefresh & _).
  eexists. exact Hrefresh.
Defined.
